(** * usnan_fuse: a read-only virtual file system over a dataset catalog

    A shallow embedding of the Python package [usnan_fuse]
    (utils.py, cache.py, catalog.py, fs.py) and the properties of its
    natural-language specification.

    Conventions of the embedding:
    - Python [str] is [string]; [int] is [Z]; [None]-able values are [option].
    - A Python [dict] is an association list in insertion order ([py.set]
      overwrites in place, as Python does, and appends a new key at the end).
    - The host file system is a tree of directories and regular files
      ([node]); paths are lists of components below the root [/].
    - Stateful code threads a [world] explicitly through a small
      state-and-error monad; a raised exception is the [Raise] result. *)

From Stdlib Require Import List String Ascii ZArith Bool Lia Arith.
From Stdlib Require Import DecimalString DecimalPos DecimalZ Permutation Sorted.
Import ListNotations.
Open Scope string_scope.
Open Scope Z_scope.
Open Scope list_scope.
Set Warnings "-register-all".

(* ================================================================== *)
(** * Python built-ins used by the package *)
(* ================================================================== *)

Module py.

(** [str(n)] for an [int]. *)
Definition str (n : Z) : string := NilZero.string_of_int (Z.to_int n).

(** [s.split(sep)] for a one-character separator: never the empty list. *)
Fixpoint split (sep : ascii) (s : string) : list string :=
  match s with
  | EmptyString => [EmptyString]
  | String c s' =>
      if Ascii.eqb c sep then EmptyString :: split sep s'
      else match split sep s' with
           | [] => [String c EmptyString]
           | w :: ws => String c w :: ws
           end
  end.

(** [s.split(sep, 1)]: cut at the first separator only. *)
Fixpoint split1 (sep : ascii) (s : string) : string * option string :=
  match s with
  | EmptyString => (EmptyString, None)
  | String c s' =>
      if Ascii.eqb c sep then (EmptyString, Some s')
      else let '(h, t) := split1 sep s' in (String c h, t)
  end.

(** [sep.join(parts)]. *)
Fixpoint join (sep : string) (parts : list string) : string :=
  match parts with
  | [] => EmptyString
  | [w] => w
  | w :: ws => (w ++ sep ++ join sep ws)%string
  end.

(** [s.startswith(p)]. *)
Definition startswith (s p : string) : bool := String.prefix p s.

Fixpoint lstrip_by (f : ascii -> bool) (s : string) : string :=
  match s with
  | EmptyString => EmptyString
  | String c s' => if f c then lstrip_by f s' else s
  end.

Fixpoint rev_string (s : string) : string :=
  match s with
  | EmptyString => EmptyString
  | String c s' => (rev_string s' ++ String c EmptyString)%string
  end.

Definition strip_by (f : ascii -> bool) (s : string) : string :=
  rev_string (lstrip_by f (rev_string (lstrip_by f s))).

(** [c.isspace()] on the ASCII range: TAB..CR, FS..US and the blank. *)
Definition isspace (c : ascii) : bool :=
  let n := Z.of_nat (nat_of_ascii c) in
  ((9 <=? n) && (n <=? 13)) || ((28 <=? n) && (n <=? 32)).

(** [s.strip()]. *)
Definition strip (s : string) : string := strip_by isspace s.

(** [s.strip(c)] for a single character [c]. *)
Definition strip_char (c : ascii) (s : string) : string :=
  strip_by (Ascii.eqb c) s.

(** [s.replace(c, r)] for a single character [c]. *)
Fixpoint replace_char (c : ascii) (r : string) (s : string) : string :=
  match s with
  | EmptyString => EmptyString
  | String a s' =>
      if Ascii.eqb a c then (r ++ replace_char c r s')%string
      else String a (replace_char c r s')
  end.

Definition isdigit (c : ascii) : bool :=
  let n := nat_of_ascii c in (48 <=? n)%nat && (n <=? 57)%nat.

(** Digit groups separated by single underscores, as [int()] accepts them.
    [after_digit] records that the previous character was a digit. *)
Fixpoint int_digits (after_digit : bool) (s : string) : bool :=
  match s with
  | EmptyString => after_digit
  | String c s' =>
      if isdigit c then int_digits true s'
      else if Ascii.eqb c "_"%char then after_digit && int_digits false s'
      else false
  end.

(** [int(s)] does not raise [ValueError]: blanks around, an optional sign,
    then decimal digits. *)
Definition int_parses (s : string) : bool :=
  match strip s with
  | EmptyString => false
  | String c s' =>
      if Ascii.eqb c "+"%char || Ascii.eqb c "-"%char
      then int_digits false s'
      else int_digits false (String c s')
  end.

(** ** Dictionaries in insertion order *)

Section Dict.
Context {K V : Type}.
Variable eqb : K -> K -> bool.

Definition dict := list (K * V).

Fixpoint get (d : list (K * V)) (k : K) : option V :=
  match d with
  | [] => None
  | (k', v) :: d' => if eqb k k' then Some v else get d' k
  end.

(** [d[k] = v]. *)
Fixpoint set (d : list (K * V)) (k : K) (v : V) : list (K * V) :=
  match d with
  | [] => [(k, v)]
  | (k', v') :: d' =>
      if eqb k k' then (k', v) :: d' else (k', v') :: set d' k v
  end.

Definition contains (d : list (K * V)) (k : K) : bool :=
  match get d k with Some _ => true | None => false end.

Definition keys (d : list (K * V)) : list K := map fst d.

(** [d.pop(k, None)]: the dictionary without [k]. *)
Fixpoint remove (d : list (K * V)) (k : K) : list (K * V) :=
  match d with
  | [] => []
  | (k', v) :: d' => if eqb k k' then d' else (k', v) :: remove d' k
  end.
End Dict.

(** [d.setdefault(k, []).append(x)]. *)
Definition setdefault_append {K X : Type} (eqb : K -> K -> bool)
    (d : list (K * list X)) (k : K) (x : X) : list (K * list X) :=
  match get eqb d k with
  | Some l => set eqb d k (l ++ [x])
  | None => d ++ [(k, [x])]
  end.

End py.

(* ================================================================== *)
(** * The external dataset records *)
(* ================================================================== *)

(** A version reference of a dataset: [v.version] and [v.dataset.id]. *)
Record Version := mkVersion {
  version : Z;
  version_dataset_id : Z
}.

(** The attributes of a dataset record that the package reads. *)
Record Dataset := mkDataset {
  id : Z;
  dataset_name : option string;
  experiment_start_time : option string;
  versions : option (list Version)
}.

(* ================================================================== *)
(** * utils.py *)
(* ================================================================== *)

Module utils.

(** [_UNSAFE_RE.sub("_", name).strip()], with [_UNSAFE_RE = [/\x00]]. *)
Definition _sanitize (name : string) : string :=
  py.strip
    (py.replace_char "/"%char "_" (py.replace_char "000"%char "_" name)).

Section WithDatetime.
(** [datetime.fromisoformat(s).strftime("%Y-%m-%d %H:%M")], [None] where
    [fromisoformat] raises [ValueError]; the standard library's parser is
    outside the package. *)
Variable isoformat_minutes : string -> option string.

Definition _format_timestamp (iso_str : option string) : option string :=
  match iso_str with
  | None => None
  | Some EmptyString => None
  | Some s => isoformat_minutes (py.replace_char "Z"%char "+00:00" s)
  end.

(** [getattr(ds, "dataset_name", None) or f"dataset_{ds.id}"]. *)
Definition raw_name (ds : Dataset) : string :=
  match dataset_name ds with
  | None | Some EmptyString => ("dataset_" ++ py.str (id ds))%string
  | Some n => n
  end.

(** [f"{name} ({ts_str})" if ts_str else name]. *)
Definition display_name (name : string) (ds : Dataset) : string :=
  match _format_timestamp (experiment_start_time ds) with
  | None | Some EmptyString => name
  | Some ts => (name ++ " (" ++ ts ++ ")")%string
  end.

(** The inner loop over one timestamp subgroup. *)
Definition assign_subgroup (result : list (Z * string))
    (item : string * list Dataset) : list (Z * string) :=
  let '(display, sub_group) := item in
  match sub_group with
  | [ds] => py.set Z.eqb result (id ds) display
  | _ =>
      fold_left
        (fun r ds =>
           py.set Z.eqb r (id ds)
             (display ++ " [" ++ py.str (id ds) ++ "]")%string)
        sub_group result
  end.

(** The outer loop over one base-name group. *)
Definition assign_group (result : list (Z * string))
    (item : string * list Dataset) : list (Z * string) :=
  let '(name, group) := item in
  match group with
  | [ds] => py.set Z.eqb result (id ds) name
  | _ =>
      let timestamped :=
        fold_left
          (fun t ds => py.setdefault_append String.eqb t (display_name name ds) ds)
          group [] in
      fold_left assign_subgroup timestamped result
  end.

Definition deduplicate_names (datasets : list Dataset) : list (Z * string) :=
  let entries := map (fun ds => (ds, _sanitize (raw_name ds))) datasets in
  let name_groups :=
    fold_left
      (fun g '(ds, safe_name) => py.setdefault_append String.eqb g safe_name ds)
      entries [] in
  fold_left assign_group name_groups [].
End WithDatetime.

End utils.

(* ================================================================== *)
(** * Exceptions *)
(* ================================================================== *)

Inductive errno := ENOENT | EISDIR | EBADF | EROFS.

(** The exceptions that cross the package: [FuseOSError(errno)], an
    [OSError] of the host file system, a [KeyError] of a dictionary, and
    the failure of the external download operation. *)
Inductive exn :=
| FuseOSError (e : errno)
| OSError
| KeyError
| DownloadError.

Inductive result (A : Type) :=
| Return (a : A)
| Raise (e : exn).
Arguments Return {A} a.
Arguments Raise {A} e.

(* ================================================================== *)
(** * The host file system: pathlib, os and shutil *)
(* ================================================================== *)

Module os.

(** A tree of regular files and directories.  The entries of a directory
    are kept in the order in which the host enumerates them. *)
Inductive node :=
| File (st_size st_mtime : Z)
| Dir (st_mtime : Z) (entries : list (string * node)).

(** An absolute path: its components below [/].  The file system is
    looked up by canonical paths, as [resolve] makes them. *)
Definition path := list string.

Fixpoint find (name : string) (es : list (string * node)) : option node :=
  match es with
  | [] => None
  | (k, n) :: es' => if String.eqb k name then Some n else find name es'
  end.

Fixpoint lookup (fs : node) (p : path) : option node :=
  match p with
  | [] => Some fs
  | c :: p' =>
      match fs with
      | Dir _ es =>
          match find c es with
          | Some n => lookup n p'
          | None => None
          end
      | File _ _ => None
      end
  end.

(** [p.exists()], [p.is_dir()], [p.is_file()]. *)
Definition exists_ (fs : node) (p : path) : bool :=
  match lookup fs p with Some _ => true | None => false end.

Definition is_dir (fs : node) (p : path) : bool :=
  match lookup fs p with Some (Dir _ _) => true | _ => false end.

Definition is_file (fs : node) (p : path) : bool :=
  match lookup fs p with Some (File _ _) => true | _ => false end.

(** [p.iterdir()], for a directory [p]. *)
Definition iterdir (fs : node) (p : path) : list (string * node) :=
  match lookup fs p with Some (Dir _ es) => es | _ => [] end.

(** [p.stat().st_mtime]. *)
Definition mtime_of (n : node) : Z :=
  match n with File _ t => t | Dir t _ => t end.

(** Total size of the regular files of a tree. *)
Fixpoint tree_size (n : node) : Z :=
  match n with
  | File s _ => s
  | Dir _ es =>
      (fix sum (es : list (string * node)) : Z :=
         match es with
         | [] => 0
         | (_, m) :: es' => tree_size m + sum es'
         end) es
  end.

(** ** Updates.  [now] stamps the directory whose entries change. *)

Fixpoint map_first (name : string) (g : node -> node)
    (es : list (string * node)) : list (string * node) :=
  match es with
  | [] => []
  | (k, n) :: es' =>
      if String.eqb k name then (k, g n) :: es'
      else (k, n) :: map_first name g es'
  end.

Fixpoint with_dir (fs : node) (p : path) (now : Z)
    (f : list (string * node) -> list (string * node)) : node :=
  match p with
  | [] =>
      match fs with
      | Dir _ es => Dir now (f es)
      | File _ _ => fs
      end
  | c :: p' =>
      match fs with
      | Dir t es => Dir t (map_first c (fun m => with_dir m p' now f) es)
      | File _ _ => fs
      end
  end.

Definition remove_entry (name : string) (es : list (string * node))
    : list (string * node) :=
  filter (fun e => negb (String.eqb (fst e) name)) es.

Definition put_entry (name : string) (n : node) (es : list (string * node))
    : list (string * node) :=
  match find name es with
  | Some _ => map_first name (fun _ => n) es
  | None => es ++ [(name, n)]
  end.

(** Remove the entry [name] of directory [dir], whatever it holds. *)
Definition remove (fs : node) (dir : path) (name : string) (now : Z) : node :=
  with_dir fs dir now (remove_entry name).

(** Bind [name] in directory [dir] to the tree [n]. *)
Definition put (fs : node) (dir : path) (name : string) (n : node) (now : Z)
    : node :=
  with_dir fs dir now (put_entry name n).

(** [shutil.rmtree(dir / name)]: the target must be a directory. *)
Definition rmtree (fs : node) (dir : path) (name : string) (now : Z)
    : result node :=
  if is_dir fs (dir ++ [name]) then Return (remove fs dir name now)
  else Raise OSError.

(** [(dir / name).unlink()]: the target must not be a directory. *)
Definition unlink (fs : node) (dir : path) (name : string) (now : Z)
    : result node :=
  if is_file fs (dir ++ [name]) then Return (remove fs dir name now)
  else Raise OSError.

(** [(dir / name).rmdir()]: the target must be an empty directory. *)
Definition rmdir (fs : node) (dir : path) (name : string) (now : Z)
    : result node :=
  match lookup fs (dir ++ [name]) with
  | Some (Dir _ []) => Return (remove fs dir name now)
  | _ => Raise OSError
  end.

(** [(sdir / sname).rename(ddir / dname)]: the destination directory must
    exist; an existing destination is replaced only by a node of its own
    kind, and a directory only when it is empty. *)
Definition rename (fs : node) (sdir : path) (sname : string)
    (ddir : path) (dname : string) (now : Z) : result node :=
  match lookup fs (sdir ++ [sname]) with
  | None => Raise OSError
  | Some n =>
      if negb (is_dir fs ddir) then Raise OSError
      else
        let move := put (remove fs sdir sname now) ddir dname n now in
        match lookup fs (ddir ++ [dname]), n with
        | None, _ => Return move
        | Some (File _ _), File _ _ => Return move
        | Some (Dir _ []), Dir _ _ => Return move
        | Some _, _ => Raise OSError
        end
  end.

(** [p.touch()] on an existing node. *)
Fixpoint touch (fs : node) (p : path) (now : Z) : node :=
  match p with
  | [] =>
      match fs with
      | Dir _ es => Dir now es
      | File s _ => File s now
      end
  | c :: p' =>
      match fs with
      | Dir t es => Dir t (map_first c (fun m => touch m p' now) es)
      | File _ _ => fs
      end
  end.

(** ** pathlib *)

(** [str(p)]. *)
Definition str (p : path) : string := ("/" ++ py.join "/" p)%string.

(** The components pathlib keeps of a string: empty ones and [.] go,
    [..] stays. *)
Definition parse (s : string) : list string :=
  filter (fun c => negb (String.eqb c "" || String.eqb c ".")) (py.split "/" s).

(** [base / s]: an absolute [s] replaces [base]. *)
Definition joinpath (base : path) (s : string) : list string :=
  if py.startswith s "/" then parse s else base ++ parse s.

(** [p.resolve()]: without symbolic links, [..] drops the component before
    it, and stays at the root. *)
Definition resolve (p : list string) : path :=
  fold_left
    (fun acc c => if String.eqb c ".." then removelast acc else acc ++ [c])
    p [].

End os.

(* ================================================================== *)
(** * The external client and the state of the process *)
(* ================================================================== *)

(** catalog.py: [class Category(Enum)] and [CategoryKey]. *)
Inductive Category := PUBLIC | PUBLISHED | LAB_GROUP | MY_DATASETS.

Inductive CategoryKey :=
| Builtin (c : Category)
| Custom (name : string).

(** One clause of a custom directory, defaults of [_build_config] applied. *)
Record Filter := mkFilter {
  field : string;
  value : option string;
  match_mode : string;
  operator : string
}.

(** What [_build_config] hands to [client.datasets.search]: the recipe of
    a built-in category or the clauses of a custom directory. *)
Inductive SearchSpec :=
| PublicBefore (now : Z)
| PublishedOriginals
| LabGroupReasons
| OwnData
| RawFilters (filters : list Filter).

(** What [client.datasets.download([id], target)] leaves in [target], and
    whether it raised. *)
Inductive outcome :=
| Populated (entries : list (string * os.node))
| Failed (partial : list (string * os.node)).

(** The remote side, as the package sees it. *)
Record Client := mkClient {
  authenticated : bool;
  search : SearchSpec -> list Dataset;
  download : Z -> outcome
}.

(** catalog.py: [CachedListing]. *)
Record CachedListing := mkListing {
  datasets : list Dataset;
  name_map : list (Z * string);
  folder_lookup : list (string * Dataset);
  timestamps : list (string * Z);
  version_map : list (string * list (string * Z));
  fetched_at : Z
}.

(** Everything an operation can read or change: the host (file system,
    clock, names [mkdtemp] will try, open descriptors with the length of
    their file), the remote side with the log of the downloads requested
    from it, and the mutable attributes of [DatasetCatalog] and
    [NMRHubFS]. *)
Record world := mkWorld {
  fs : os.node;
  clock : Z;
  tmp_names : list string;
  os_fds : list (Z * Z);
  client : Client;
  downloaded : list Z;
  _cache : list (CategoryKey * CachedListing);
  _open_fds : list (Z * Z);
  _next_fh : Z
}.

Definition set_fs (w : world) (x : os.node) : world :=
  mkWorld x (clock w) (tmp_names w) (os_fds w) (client w) (downloaded w)
          (_cache w) (_open_fds w) (_next_fh w).

Definition set_tmp_names (w : world) (x : list string) : world :=
  mkWorld (fs w) (clock w) x (os_fds w) (client w) (downloaded w)
          (_cache w) (_open_fds w) (_next_fh w).

Definition set_os_fds (w : world) (x : list (Z * Z)) : world :=
  mkWorld (fs w) (clock w) (tmp_names w) x (client w) (downloaded w)
          (_cache w) (_open_fds w) (_next_fh w).

Definition set_downloaded (w : world) (x : list Z) : world :=
  mkWorld (fs w) (clock w) (tmp_names w) (os_fds w) (client w) x
          (_cache w) (_open_fds w) (_next_fh w).

Definition set_cache (w : world) (x : list (CategoryKey * CachedListing))
    : world :=
  mkWorld (fs w) (clock w) (tmp_names w) (os_fds w) (client w) (downloaded w)
          x (_open_fds w) (_next_fh w).

Definition set_open_fds (w : world) (x : list (Z * Z)) : world :=
  mkWorld (fs w) (clock w) (tmp_names w) (os_fds w) (client w) (downloaded w)
          (_cache w) x (_next_fh w).

Definition set_next_fh (w : world) (x : Z) : world :=
  mkWorld (fs w) (clock w) (tmp_names w) (os_fds w) (client w) (downloaded w)
          (_cache w) (_open_fds w) x.

(** ** State and exceptions *)

(** A computation runs in a world and leaves a world, also when it
    raises: what was written before the exception stays written. *)
Definition M (A : Type) : Type := world -> result A * world.

Definition ret {A} (a : A) : M A := fun w => (Return a, w).

Definition raise {A} (e : exn) : M A := fun w => (Raise e, w).

Definition bind {A B} (c : M A) (k : A -> M B) : M B :=
  fun w =>
    match c w with
    | (Return a, w') => k a w'
    | (Raise e, w') => (Raise e, w')
    end.

Notation "x <- c ;; k" := (bind c (fun x => k))
  (at level 61, c at next level, right associativity).
Notation "c ;;; k" := (bind c (fun _ => k))
  (at level 61, right associativity).

(** [try: body except Exception: handler; raise]. *)
Definition try_cleanup {A} (body : M A) (handler : M unit) : M A :=
  fun w =>
    match body w with
    | (Return a, w') => (Return a, w')
    | (Raise e, w') =>
        match handler w' with
        | (Return _, w'') => (Raise e, w'')
        | (Raise e', w'') => (Raise e', w'')
        end
    end.

Definition gets {A} (f : world -> A) : M A := fun w => (Return (f w), w).

Definition modify (f : world -> world) : M unit := fun w => (Return tt, f w).

(** Run a file-system update at the current time. *)
Definition os_do (op : os.node -> Z -> result os.node) : M unit :=
  fun w =>
    match op (fs w) (clock w) with
    | Return fs' => (Return tt, set_fs w fs')
    | Raise e => (Raise e, w)
    end.

Fixpoint for_each {A} (l : list A) (body : A -> M unit) : M unit :=
  match l with
  | [] => ret tt
  | x :: l' => body x ;;; for_each l' body
  end.

(** [tempfile.mkdtemp(prefix=prefix, dir=dir)]: the first candidate name
    that is free in [dir] is created there, empty. *)
Fixpoint fresh_name (fs : os.node) (dir : os.path) (prefix : string)
    (candidates : list string) : option (string * list string) :=
  match candidates with
  | [] => None
  | c :: rest =>
      if os.exists_ fs (dir ++ [(prefix ++ c)%string])
      then fresh_name fs dir prefix rest
      else Some ((prefix ++ c)%string, rest)
  end.

Definition mkdtemp (prefix : string) (dir : os.path) : M string :=
  fun w =>
    if negb (os.is_dir (fs w) dir) then (Raise OSError, w)
    else
      match fresh_name (fs w) dir prefix (tmp_names w) with
      | None => (Raise OSError, set_tmp_names w [])
      | Some (name, rest) =>
          (Return name,
           set_tmp_names
             (set_fs w (os.put (fs w) dir name (os.Dir (clock w) []) (clock w)))
             rest)
      end.

(** [client.datasets.download([dataset_id], target)]: the request is
    logged, the target receives what the remote side delivers. *)
Definition client_download (dataset_id : Z) (target : os.path) : M unit :=
  fun w =>
    let w1 := set_downloaded w (downloaded w ++ [dataset_id]) in
    let fill es := set_fs w1 (os.with_dir (fs w1) target (clock w1)
                                (fun old => old ++ es)) in
    match download (client w) dataset_id with
    | Populated es => (Return tt, fill es)
    | Failed es => (Raise DownloadError, fill es)
    end.

(* ================================================================== *)
(** * cache.py *)
(* ================================================================== *)

Module cache.

(** [DownloadCache], without its locks: one thread runs at a time. *)
Record DownloadCache := mkDownloadCache {
  _root : os.path;
  _max_bytes : Z
}.

Definition _dataset_dir (self : DownloadCache) (dataset_id : Z) : os.path :=
  _root self ++ [py.str dataset_id].

(** [any(d.iterdir())]: a path object is always true, so this asks for
    one entry. *)
Definition any_entry (fs : os.node) (d : os.path) : bool :=
  match os.iterdir fs d with [] => false | _ :: _ => true end.

Definition is_cached (self : DownloadCache) (fs : os.node) (dataset_id : Z)
    : bool :=
  let d := _dataset_dir self dataset_id in
  os.is_dir fs d && any_entry fs d.

(** [sum(f.stat().st_size for f in path.rglob("*") if f.is_file())]. *)
Definition _dir_size (fs : os.node) (p : os.path) : Z :=
  fold_right Z.add 0 (map (fun e => os.tree_size (snd e)) (os.iterdir fs p)).

Definition cached_size (self : DownloadCache) (fs : os.node) (dataset_id : Z)
    : option Z :=
  let d := _dataset_dir self dataset_id in
  if negb (os.is_dir fs d) || negb (any_entry fs d)
  then None
  else Some (_dir_size fs d).

(** Sorting by modification time, keeping the order of equal times as
    [list.sort] does. *)
Fixpoint insert_by_mtime (e : Z * Z * string) (l : list (Z * Z * string))
    : list (Z * Z * string) :=
  match l with
  | [] => [e]
  | e' :: l' =>
      if fst (fst e) <=? fst (fst e') then e :: e' :: l'
      else e' :: insert_by_mtime e l'
  end.

Definition sort_by_mtime (l : list (Z * Z * string)) : list (Z * Z * string) :=
  fold_right insert_by_mtime [] l.

(** The [(mtime, size, path)] triples of the first loop of
    [_evict_if_needed]; a path is kept by its name under the root. *)
Definition eviction_entries (self : DownloadCache) (fs : os.node)
    : list (Z * Z * string) :=
  flat_map
    (fun child : string * os.node =>
       let '(name, n) := child in
       match n with
       | os.File _ _ => []
       | os.Dir mtime _ =>
           if py.int_parses name
           then [(mtime, _dir_size fs (_root self ++ [name]), name)]
           else []
       end)
    (os.iterdir fs (_root self)).

(** The second loop of [_evict_if_needed]. *)
Fixpoint evict_loop (self : DownloadCache) (entries : list (Z * Z * string))
    (total : Z) : M unit :=
  match entries with
  | [] => ret tt
  | (mtime, size, name) :: rest =>
      if total <=? _max_bytes self then ret tt
      else
        os_do (fun fs now => os.rmtree fs (_root self) name now) ;;;
        evict_loop self rest (total - size)
  end.

(** [self._root.iterdir()] raises where the root is no directory. *)
Definition _evict_if_needed (self : DownloadCache) : M unit :=
  there <- gets (fun w => os.is_dir (fs w) (_root self)) ;;
  if negb there then raise OSError else
  entries <- gets (fun w => eviction_entries self (fs w)) ;;
  let total := fold_right Z.add 0 (map (fun e => snd (fst e)) entries) in
  if total <=? _max_bytes self then ret tt
  else evict_loop self (sort_by_mtime entries) total.

Definition is_dir_entry (e : string * os.node) : bool :=
  match snd e with os.Dir _ _ => true | os.File _ _ => false end.

Definition _unwrap (ds_dir : os.path) : M unit :=
  csv_exists <- gets (fun w => os.exists_ (fs w) (ds_dir ++ ["experiments.csv"])) ;;
  (if csv_exists
   then os_do (fun fs now => os.unlink fs ds_dir "experiments.csv" now)
   else ret tt) ;;;
  subdirs <- gets (fun w => filter is_dir_entry (os.iterdir (fs w) ds_dir)) ;;
  match subdirs with
  | [(experiment, _)] =>
      let experiment_dir := ds_dir ++ [experiment] in
      children <- gets (fun w => os.iterdir (fs w) experiment_dir) ;;
      for_each children
        (fun child =>
           os_do (fun fs now =>
                    os.rename fs experiment_dir (fst child) ds_dir (fst child) now)) ;;;
      os_do (fun fs now => os.rmdir fs ds_dir experiment now)
  | _ => ret tt
  end.

(** The body of [with lock:] in [ensure_downloaded]; the flag tells
    whether the entry was installed by this call. *)
Definition fetch (self : DownloadCache) (dataset_id : Z) : M (os.path * bool) :=
  let ds_dir := _dataset_dir self dataset_id in
  hit <- gets (fun w => os.is_dir (fs w) ds_dir && any_entry (fs w) ds_dir) ;;
  if hit then
    modify (fun w => set_fs w (os.touch (fs w) ds_dir (clock w))) ;;;
    ret (ds_dir, false)
  else
    stale <- gets (fun w => os.exists_ (fs w) ds_dir) ;;
    (if stale
     then os_do (fun fs now => os.rmtree fs (_root self) (py.str dataset_id) now)
     else ret tt) ;;;
    tmp <- mkdtemp (".dl-" ++ py.str dataset_id ++ "-")%string (_root self) ;;
    let tmp_dir := _root self ++ [tmp] in
    try_cleanup
      (client_download dataset_id tmp_dir ;;;
       _unwrap tmp_dir ;;;
       os_do (fun fs now =>
                os.rename fs (_root self) tmp (_root self) (py.str dataset_id) now))
      (left <- gets (fun w => os.exists_ (fs w) tmp_dir) ;;
       if left then os_do (fun fs now => os.rmtree fs (_root self) tmp now)
       else ret tt) ;;;
    ret (ds_dir, true).

Definition ensure_downloaded (self : DownloadCache) (dataset_id : Z)
    : M os.path :=
  r <- fetch self dataset_id ;;
  let '(ds_dir, installed) := r in
  if installed then _evict_if_needed self ;;; ret ds_dir
  else ret ds_dir.

(** Entries come back as [sorted(target.iterdir())] by name; a listing
    keeps the names. *)
Fixpoint insert_name (x : string) (l : list string) : list string :=
  match l with
  | [] => [x]
  | y :: l' =>
      if String.leb x y then x :: y :: l' else y :: insert_name x l'
  end.

Definition list_entries (self : DownloadCache) (fs : os.node)
    (dataset_id : Z) (subpath : string) : list string :=
  let ds_dir := _dataset_dir self dataset_id in
  let target := if String.eqb subpath "" then ds_dir
                else os.joinpath ds_dir subpath in
  if negb (os.is_dir fs target) then []
  else fold_right insert_name [] (map fst (os.iterdir fs target)).

Definition resolve_path (self : DownloadCache) (fs : os.node)
    (dataset_id : Z) (subpath : string) : option os.path :=
  let ds_dir := _dataset_dir self dataset_id in
  let full := os.resolve (os.joinpath ds_dir subpath) in
  if negb (py.startswith (os.str full) (os.str (os.resolve ds_dir)))
  then None
  else if os.exists_ fs full then Some full else None.

End cache.

(* ================================================================== *)
(** * catalog.py *)
(* ================================================================== *)

Module catalog.

(** [Category.value]. *)
Definition category_value (c : Category) : string :=
  match c with
  | PUBLIC => "Public Datasets"
  | PUBLISHED => "Published Datasets"
  | LAB_GROUP => "Lab Group Datasets"
  | MY_DATASETS => "My Datasets"
  end.

Definition category_eqb (a b : Category) : bool :=
  match a, b with
  | PUBLIC, PUBLIC | PUBLISHED, PUBLISHED
  | LAB_GROUP, LAB_GROUP | MY_DATASETS, MY_DATASETS => true
  | _, _ => false
  end.

(** [==] on category keys: an enum member never equals a string. *)
Definition key_eqb (a b : CategoryKey) : bool :=
  match a, b with
  | Builtin x, Builtin y => category_eqb x y
  | Custom x, Custom y => String.eqb x y
  | _, _ => false
  end.

Record CustomDirectory := mkCustomDirectory {
  name : string;
  filters : list Filter
}.

(** [DatasetCatalog]; its [_cache] of listings is in the [world]. *)
Record DatasetCatalog := mkDatasetCatalog {
  _ttl : Z;
  _custom_dirs : list (string * CustomDirectory)
}.

Definition add_custom_directory (self : DatasetCatalog) (name : string)
    (filters : list Filter) : DatasetCatalog :=
  mkDatasetCatalog (_ttl self)
    (py.set String.eqb (_custom_dirs self) name (mkCustomDirectory name filters)).

Definition available_categories (self : DatasetCatalog) : M (list CategoryKey) :=
  auth <- gets (fun w => authenticated (client w)) ;;
  let cats :=
    if auth
    then [Builtin PUBLIC; Builtin PUBLISHED; Builtin LAB_GROUP; Builtin MY_DATASETS]
    else [Builtin PUBLIC; Builtin PUBLISHED] in
  ret (cats ++ map Custom (py.keys (_custom_dirs self))).

Definition category_display_name (category : CategoryKey) : string :=
  match category with
  | Builtin c => category_value c
  | Custom n => n
  end.

Definition _build_config (self : DatasetCatalog) (category : CategoryKey)
    : M (option SearchSpec) :=
  match category with
  | Builtin PUBLIC => now <- gets clock ;; ret (Some (PublicBefore now))
  | Builtin PUBLISHED => ret (Some PublishedOriginals)
  | Builtin LAB_GROUP => ret (Some LabGroupReasons)
  | Builtin MY_DATASETS => ret (Some OwnData)
  | Custom n =>
      match py.get String.eqb (_custom_dirs self) n with
      | Some custom => ret (Some (RawFilters (filters custom)))
      | None => ret None
      end
  end.

Definition _fetch (self : DatasetCatalog) (category : CategoryKey)
    : M (list Dataset) :=
  config <- _build_config self category ;;
  match config with
  | None => ret []
  | Some cfg => gets (fun w => search (client w) cfg)
  end.

Section WithDatetime.
Variable isoformat_minutes : string -> option string.
(** [datetime.fromisoformat(s)], read as UTC when it names no zone, as
    seconds since the epoch; [None] where it raises. *)
Variable isoformat_epoch : string -> option Z.

(** utils.py: [parse_iso_timestamp]. *)
Definition parse_iso_timestamp (iso_str : option string) : Z :=
  match iso_str with
  | None => 0
  | Some EmptyString => 0
  | Some s =>
      match isoformat_epoch (py.replace_char "Z"%char "+00:00" s) with
      | Some t => t
      | None => 0
      end
  end.

(** The [versions] dictionary of one dataset. *)
Definition version_labels (ds : Dataset) : list (string * Z) :=
  let versions0 := [("Original", id ds)] in
  match versions ds with
  | None | Some [] => versions0
  | Some vs =>
      fold_left
        (fun d v =>
           py.set String.eqb d ("v" ++ py.str (version v))%string
                  (version_dataset_id v))
        vs versions0
  end.

(** The three dictionaries under construction in [get_listing]. *)
Definition tables : Type :=
  list (string * Dataset) * list (string * Z) * list (string * list (string * Z)).

(** One round of the loop [for ds in datasets]; [name_map[ds.id]] raises
    [KeyError] for an identifier without a name. *)
Definition add_dataset (category : CategoryKey) (name_map : list (Z * string))
    (acc : result tables) (ds : Dataset) : result tables :=
  match acc with
  | Raise e => Raise e
  | Return (folder_lookup, timestamps, version_map) =>
      match py.get Z.eqb name_map (id ds) with
      | None => Raise KeyError
      | Some folder_name =>
          Return
            (py.set String.eqb folder_lookup folder_name ds,
             py.set String.eqb timestamps folder_name
                    (parse_iso_timestamp (experiment_start_time ds)),
             if key_eqb category (Builtin PUBLISHED)
             then py.set String.eqb version_map folder_name (version_labels ds)
             else version_map)
      end
  end.

(** The listing built from the datasets a search returned. *)
Definition build_listing (category : CategoryKey) (datasets : list Dataset)
    (now : Z) : result CachedListing :=
  let name_map := utils.deduplicate_names isoformat_minutes datasets in
  match fold_left (add_dataset category name_map) datasets (Return ([], [], [])) with
  | Raise e => Raise e
  | Return (folder_lookup, timestamps, version_map) =>
      Return (mkListing datasets name_map folder_lookup timestamps version_map now)
  end.

Definition refresh (self : DatasetCatalog) (category : CategoryKey)
    : M CachedListing :=
  datasets <- _fetch self category ;;
  now <- gets clock ;;
  match build_listing category datasets now with
  | Raise e => raise e
  | Return listing =>
      modify (fun w => set_cache w (py.set key_eqb (_cache w) category listing)) ;;;
      ret listing
  end.

Definition get_listing (self : DatasetCatalog) (category : CategoryKey)
    : M CachedListing :=
  cached <- gets (fun w => py.get key_eqb (_cache w) category) ;;
  now <- gets clock ;;
  match cached with
  | Some c =>
      if now - fetched_at c <? _ttl self then ret c
      else refresh self category
  | None => refresh self category
  end.

Definition get_dataset_by_folder_name (self : DatasetCatalog)
    (category : CategoryKey) (name : string) : M (option Dataset) :=
  listing <- get_listing self category ;;
  ret (py.get String.eqb (folder_lookup listing) name).
End WithDatetime.

End catalog.

(* ================================================================== *)
(** * fs.py *)
(* ================================================================== *)

Module fuse.

Import catalog cache.

(** [NMRHubFS]; [_open_fds] and [_next_fh] are in the [world]. *)
Record NMRHubFS := mkNMRHubFS {
  _catalog : DatasetCatalog;
  _cache : DownloadCache;
  _mount_time : Z
}.

(** The category of a parsed path: a known key, or [_SENTINEL] for an
    unrecognised top-level name. *)
Inductive parsed_category :=
| _SENTINEL
| Key (k : CategoryKey).

Definition in_categories (c : parsed_category) (cats : list CategoryKey) : bool :=
  match c with
  | _SENTINEL => false
  | Key k => existsb (key_eqb k) cats
  end.

Definition is_published (c : parsed_category) : bool :=
  match c with
  | Key (Builtin PUBLISHED) => true
  | _ => false
  end.

(** The entries of the stat dictionaries that the model keeps: the type
    and permission bits, the size and the modification time. *)
Record stat := mkStat {
  st_mode : Z;
  st_size : Z;
  st_mtime : Z
}.

Definition S_IFDIR : Z := 16384.
Definition S_IFREG : Z := 32768.

(** [statfs]: a fixed placeholder. *)
Record statvfs := mkStatvfs {
  f_bsize : Z; f_frsize : Z; f_blocks : Z; f_bfree : Z; f_bavail : Z;
  f_files : Z; f_ffree : Z; f_favail : Z; f_namemax : Z
}.

Section WithDatetime.
Variable isoformat_minutes : string -> option string.
Variable isoformat_epoch : string -> option Z.
Variable self : NMRHubFS.

(** [self._catalog.get_listing(category)]. *)
Definition listing_of (category : CategoryKey) : M CachedListing :=
  catalog.get_listing isoformat_minutes isoformat_epoch (_catalog self) category.

Definition _resolve_category (name : string) : M (option CategoryKey) :=
  if String.eqb (category_value PUBLIC) name then ret (Some (Builtin PUBLIC))
  else if String.eqb (category_value PUBLISHED) name then ret (Some (Builtin PUBLISHED))
  else if String.eqb (category_value LAB_GROUP) name then ret (Some (Builtin LAB_GROUP))
  else if String.eqb (category_value MY_DATASETS) name then ret (Some (Builtin MY_DATASETS))
  else
    cats <- available_categories (_catalog self) ;;
    if existsb (key_eqb (Custom name)) cats then ret (Some (Custom name))
    else ret None.

(** [path.strip("/").split("/") if path != "/" else []]. *)
Definition path_parts (path : string) : list string :=
  if String.eqb path "/" then []
  else py.split "/"%char (py.strip_char "/"%char path).

Definition _parse_path (path : string)
    : M (option parsed_category * option string * option string) :=
  match path_parts path with
  | [] => ret (None, None, None)
  | top :: rest =>
      resolved <- _resolve_category top ;;
      let category :=
        match resolved with
        | Some k => Key k
        | None => _SENTINEL
        end in
      match rest with
      | [] => ret (Some category, None, None)
      | dataset_name :: deeper =>
          match deeper with
          | [] => ret (Some category, Some dataset_name, None)
          | _ :: _ =>
              ret (Some category, Some dataset_name, Some (py.join "/" deeper))
          end
      end
  end.

(** [t = mtime or self._mount_time]. *)
Definition _dir_stat (mtime : option Z) : stat :=
  let t := match mtime with
           | None | Some 0 => _mount_time self
           | Some m => m
           end in
  mkStat (Z.lor S_IFDIR 365) 0 t.

Definition node_size (n : os.node) : Z :=
  match n with
  | os.File s _ => s
  | os.Dir _ _ => 0
  end.

Definition _dir_stat_from_path (real_path : os.path) : M stat :=
  found <- gets (fun w => os.lookup (fs w) real_path) ;;
  match found with
  | None => raise OSError
  | Some n => ret (mkStat (Z.lor S_IFDIR 365) (node_size n) (os.mtime_of n))
  end.

Definition _file_stat_from_path (real_path : os.path) : M stat :=
  found <- gets (fun w => os.lookup (fs w) real_path) ;;
  match found with
  | None => raise OSError
  | Some n => ret (mkStat (Z.lor S_IFREG 292) (node_size n) (os.mtime_of n))
  end.

Definition _resolve_dataset_id (category : CategoryKey) (dataset_name : string)
    : M Z :=
  ds <- get_dataset_by_folder_name isoformat_minutes isoformat_epoch
          (_catalog self) category dataset_name ;;
  match ds with
  | None => raise (FuseOSError ENOENT)
  | Some d => ret (id d)
  end.

Definition _resolve_version_id (dataset_name version_label : string) : M Z :=
  listing <- listing_of (Builtin PUBLISHED) ;;
  match py.get String.eqb (version_map listing) dataset_name with
  | None => raise (FuseOSError ENOENT)
  | Some versions =>
      match py.get String.eqb versions version_label with
      | None => raise (FuseOSError ENOENT)
      | Some i => ret i
      end
  end.

Definition _download (dataset_id : Z) : M unit :=
  ensure_downloaded (_cache self) dataset_id ;;; ret tt.

(** [listing.timestamps.get(dataset_name, self._mount_time)]. *)
Definition listed_time (listing : CachedListing) (dataset_name : string) : Z :=
  match py.get String.eqb (timestamps listing) dataset_name with
  | Some t => t
  | None => _mount_time self
  end.

(** [listing.version_map.get(dataset_name, {})]. *)
Definition listed_versions (listing : CachedListing) (dataset_name : string)
    : list (string * Z) :=
  match py.get String.eqb (version_map listing) dataset_name with
  | Some v => v
  | None => []
  end.

(** ** Read-only operations *)

Definition getattr (path : string) : M stat :=
  parsed <- _parse_path path ;;
  let '(category, dataset_name, subpath) := parsed in
  match category with
  | None => ret (_dir_stat None)
  | Some category =>
      cats <- available_categories (_catalog self) ;;
      if negb (in_categories category cats) then raise (FuseOSError ENOENT)
      else
        match category, dataset_name with
        | _SENTINEL, _ => raise (FuseOSError ENOENT)
        | Key _, None => ret (_dir_stat None)
        | Key key, Some dataset_name =>
            listing <- listing_of key ;;
            if negb (py.contains String.eqb (folder_lookup listing) dataset_name)
            then raise (FuseOSError ENOENT)
            else
              match subpath with
              | None => ret (_dir_stat (Some (listed_time listing dataset_name)))
              | Some subpath =>
                  if is_published category then
                    let '(version_label, inner_path) := py.split1 "/"%char subpath in
                    let versions := listed_versions listing dataset_name in
                    if negb (py.contains String.eqb versions version_label)
                    then raise (FuseOSError ENOENT)
                    else
                      match inner_path with
                      | None =>
                          ret (_dir_stat (Some (listed_time listing dataset_name)))
                      | Some inner_path =>
                          ds_id <- _resolve_version_id dataset_name version_label ;;
                          real <- gets (fun w =>
                                    resolve_path (_cache self) (fs w) ds_id inner_path) ;;
                          match real with
                          | None => raise (FuseOSError ENOENT)
                          | Some real =>
                              isdir <- gets (fun w => os.is_dir (fs w) real) ;;
                              if isdir then _dir_stat_from_path real
                              else _file_stat_from_path real
                          end
                      end
                  else
                    ds_id <- _resolve_dataset_id key dataset_name ;;
                    real <- gets (fun w =>
                              resolve_path (_cache self) (fs w) ds_id subpath) ;;
                    match real with
                    | None => raise (FuseOSError ENOENT)
                    | Some real =>
                        found <- gets (fun w => os.lookup (fs w) real) ;;
                        match found with
                        | Some (os.Dir mtime _) => ret (_dir_stat (Some mtime))
                        | _ => _file_stat_from_path real
                        end
                    end
              end
        end
  end.

Definition readdir (path : string) (fh : Z) : M (list string) :=
  parsed <- _parse_path path ;;
  let '(category, dataset_name, subpath) := parsed in
  let entries := ["."; ".."] in
  match category with
  | None =>
      cats <- available_categories (_catalog self) ;;
      ret (entries ++ map category_display_name cats)
  | Some category =>
      cats <- available_categories (_catalog self) ;;
      if negb (in_categories category cats) then raise (FuseOSError ENOENT)
      else
        match category, dataset_name with
        | _SENTINEL, _ => raise (FuseOSError ENOENT)
        | Key key, None =>
            listing <- listing_of key ;;
            ret (entries ++ py.keys (folder_lookup listing))
        | Key key, Some dataset_name =>
            if is_published category then
              listing <- listing_of key ;;
              if negb (py.contains String.eqb (folder_lookup listing) dataset_name)
              then raise (FuseOSError ENOENT)
              else
                let versions := listed_versions listing dataset_name in
                match subpath with
                | None =>
                    ret (entries ++ fold_right insert_name [] (py.keys versions))
                | Some subpath =>
                    let '(version_label, inner) := py.split1 "/"%char subpath in
                    let inner_path := match inner with
                                      | Some i => i
                                      | None => ""
                                      end in
                    ds_id <- _resolve_version_id dataset_name version_label ;;
                    _download ds_id ;;;
                    children <- gets (fun w =>
                                  list_entries (_cache self) (fs w) ds_id inner_path) ;;
                    ret (entries ++ children)
                end
            else
              ds_id <- _resolve_dataset_id key dataset_name ;;
              _download ds_id ;;;
              children <- gets (fun w =>
                            list_entries (_cache self) (fs w) ds_id
                              (match subpath with Some s => s | None => "" end)) ;;
              ret (entries ++ children)
        end
  end.

(** [os.open(str(real), os.O_RDONLY)]: the lowest free descriptor, bound
    to the length of the file. *)
Fixpoint lowest_free (used : list Z) (from : Z) (fuel : nat) : Z :=
  match fuel with
  | O => from
  | S fuel' =>
      if existsb (Z.eqb from) used then lowest_free used (from + 1) fuel'
      else from
  end.

Definition os_open (real : os.path) : M Z :=
  found <- gets (fun w => os.lookup (fs w) real) ;;
  match found with
  | Some (os.File size _) =>
      fds <- gets os_fds ;;
      let fd := lowest_free (py.keys fds) 3 (List.length fds) in
      modify (fun w => set_os_fds w (py.set Z.eqb (os_fds w) fd size)) ;;;
      ret fd
  | _ => raise OSError
  end.

(** The tail shared by both branches of [open]. *)
Definition open_real (ds_id : Z) (inner : string) : M Z :=
  _download ds_id ;;;
  real <- gets (fun w => resolve_path (_cache self) (fs w) ds_id inner) ;;
  match real with
  | None => raise (FuseOSError ENOENT)
  | Some real =>
      isdir <- gets (fun w => os.is_dir (fs w) real) ;;
      if isdir then raise (FuseOSError ENOENT)
      else
        os_fd <- os_open real ;;
        fh <- gets _next_fh ;;
        modify (fun w => set_next_fh w (_next_fh w + 1)) ;;;
        modify (fun w => set_open_fds w (py.set Z.eqb (_open_fds w) fh os_fd)) ;;;
        ret fh
  end.

Definition open (path : string) (flags : Z) : M Z :=
  parsed <- _parse_path path ;;
  match parsed with
  | (Some category, Some dataset_name, Some subpath) =>
      cats <- available_categories (_catalog self) ;;
      if negb (in_categories category cats) then raise (FuseOSError ENOENT)
      else
        match category with
        | _SENTINEL => raise (FuseOSError ENOENT)
        | Key key =>
            if is_published category then
              match py.split1 "/"%char subpath with
              | (version_label, None) => raise (FuseOSError EISDIR)
              | (version_label, Some inner_path) =>
                  ds_id <- _resolve_version_id dataset_name version_label ;;
                  open_real ds_id inner_path
              end
            else
              ds_id <- _resolve_dataset_id key dataset_name ;;
              open_real ds_id subpath
        end
  | _ => raise (FuseOSError EISDIR)
  end.

(** [os.lseek] and [os.read]: of the bytes read, the model keeps their
    number. *)
Definition read (path : string) (size offset fh : Z) : M Z :=
  os_fd <- gets (fun w => py.get Z.eqb (_open_fds w) fh) ;;
  match os_fd with
  | None => raise (FuseOSError EBADF)
  | Some fd =>
      file <- gets (fun w => py.get Z.eqb (os_fds w) fd) ;;
      match file with
      | None => raise OSError
      | Some len => ret (Z.max 0 (Z.min size (len - offset)))
      end
  end.

Definition release (path : string) (fh : Z) : M unit :=
  os_fd <- gets (fun w => py.get Z.eqb (_open_fds w) fh) ;;
  modify (fun w => set_open_fds w (py.remove Z.eqb (_open_fds w) fh)) ;;;
  match os_fd with
  | None => ret tt
  | Some fd => modify (fun w => set_os_fds w (py.remove Z.eqb (os_fds w) fd))
  end.

Definition readlink (path : string) : M string :=
  raise (FuseOSError ENOENT).

Definition statfs (path : string) : M statvfs :=
  ret (mkStatvfs 4096 4096 0 0 0 0 0 0 255).

(** ** Write operations *)

Definition chmod (path : string) (mode : Z) : M unit :=
  raise (FuseOSError EROFS).

Definition chown (path : string) (uid gid : Z) : M unit :=
  raise (FuseOSError EROFS).

Definition create (path : string) (mode : Z) (fi : option Z) : M Z :=
  raise (FuseOSError EROFS).

Definition link (target source : string) : M unit :=
  raise (FuseOSError EROFS).

Definition mkdir (path : string) (mode : Z) : M unit :=
  raise (FuseOSError EROFS).

Definition mknod (path : string) (mode dev : Z) : M unit :=
  raise (FuseOSError EROFS).

Definition rename (old new : string) : M unit :=
  raise (FuseOSError EROFS).

Definition rmdir (path : string) : M unit :=
  raise (FuseOSError EROFS).

Definition symlink (target source : string) : M unit :=
  raise (FuseOSError EROFS).

Definition truncate (path : string) (length : Z) (fh : option Z) : M unit :=
  raise (FuseOSError EROFS).

Definition unlink (path : string) : M unit :=
  raise (FuseOSError EROFS).

Definition utimens (path : string) (times : option (Z * Z)) : M unit :=
  raise (FuseOSError EROFS).

Definition write (path : string) (data : string) (offset fh : Z) : M Z :=
  raise (FuseOSError EROFS).
End WithDatetime.

End fuse.

(* ================================================================== *)
(** * Properties *)
(* ================================================================== *)

(** ** Dictionaries *)

Section DictFacts.
Context {K V : Type}.
Variable eqb : K -> K -> bool.
Hypothesis eqb_eq : forall a b, eqb a b = true <-> a = b.

Lemma eqb_refl_true (k : K) : eqb k k = true.
Proof. now apply eqb_eq. Qed.

Lemma eqb_neq_false (a b : K) : a <> b -> eqb a b = false.
Proof.
  intro H. destruct (eqb a b) eqn:E; [|reflexivity].
  apply eqb_eq in E. contradiction.
Qed.

Lemma get_set_same (d : list (K * V)) k v : py.get eqb (py.set eqb d k v) k = Some v.
Proof.
  induction d as [|[k' v'] d IH]; simpl.
  - now rewrite eqb_refl_true.
  - destruct (eqb k k') eqn:E; simpl; rewrite E; auto.
Qed.

Lemma get_set_other (d : list (K * V)) k k' v :
  k' <> k -> py.get eqb (py.set eqb d k v) k' = py.get eqb d k'.
Proof.
  intro N. induction d as [|[k0 v0] d IH]; simpl.
  - now rewrite (eqb_neq_false _ _ N).
  - destruct (eqb k k0) eqn:E; simpl.
    + apply eqb_eq in E. subst k0. now rewrite (eqb_neq_false _ _ N).
    + destruct (eqb k' k0); auto.
Qed.

Lemma get_app_some (d e : list (K * V)) k v :
  py.get eqb d k = Some v -> py.get eqb (d ++ e) k = Some v.
Proof.
  induction d as [|[k0 v0] d IH]; simpl; [discriminate|].
  destruct (eqb k k0); auto.
Qed.

Lemma get_app_none (d e : list (K * V)) k :
  py.get eqb d k = None -> py.get eqb (d ++ e) k = py.get eqb e k.
Proof.
  induction d as [|[k0 v0] d IH]; simpl; auto.
  destruct (eqb k k0); [discriminate|auto].
Qed.

Lemma get_some_in (d : list (K * V)) k v :
  py.get eqb d k = Some v -> In (k, v) d.
Proof.
  induction d as [|[k0 v0] d IH]; simpl; [discriminate|].
  destruct (eqb k k0) eqn:E.
  - apply eqb_eq in E. intros [= ->]. left. now subst.
  - auto.
Qed.

Lemma contains_set (d : list (K * V)) k v k' :
  py.contains eqb d k' = true -> py.contains eqb (py.set eqb d k v) k' = true.
Proof.
  unfold py.contains. intro H.
  destruct (eqb k' k) eqn:E.
  - apply eqb_eq in E. subst. now rewrite get_set_same.
  - rewrite get_set_other; auto. intros ->. now rewrite eqb_refl_true in E.
Qed.

Lemma set_get_id (d : list (K * V)) k v :
  py.get eqb d k = Some v -> py.set eqb d k v = d.
Proof.
  induction d as [|[k0 v0] d IH]; simpl; [discriminate|].
  destruct (eqb k k0) eqn:E.
  - now intros [= ->].
  - intro H. now rewrite IH.
Qed.
End DictFacts.

Lemma Zeqb_eq (a b : Z) : Z.eqb a b = true <-> a = b.
Proof. apply Z.eqb_eq. Qed.

Lemma Seqb_eq (a b : string) : String.eqb a b = true <-> a = b.
Proof. apply String.eqb_eq. Qed.

(** ** C6: the write operations *)

(** A call of one of the thirteen write operations of [NMRHubFS]. *)
Inductive mutation :=
| Chmod (path : string) (mode : Z)
| Chown (path : string) (uid gid : Z)
| Create (path : string) (mode : Z) (fi : option Z)
| Link (target source : string)
| Mkdir (path : string) (mode : Z)
| Mknod (path : string) (mode dev : Z)
| Rename (old new : string)
| Rmdir (path : string)
| Symlink (target source : string)
| Truncate (path : string) (length : Z) (fh : option Z)
| Unlink (path : string)
| Utimens (path : string) (times : option (Z * Z))
| Write (path : string) (data : string) (offset fh : Z).

(** The outcome of a call, its value forgotten. *)
Definition outcome_of {A} (r : result A * world) : result unit * world :=
  match r with
  | (Return _, w) => (Return tt, w)
  | (Raise e, w) => (Raise e, w)
  end.

Definition run_mutation (m : mutation) : M unit :=
  fun w =>
    match m with
    | Chmod p mode => outcome_of (fuse.chmod p mode w)
    | Chown p u g => outcome_of (fuse.chown p u g w)
    | Create p mode fi => outcome_of (fuse.create p mode fi w)
    | Link t s => outcome_of (fuse.link t s w)
    | Mkdir p mode => outcome_of (fuse.mkdir p mode w)
    | Mknod p mode dev => outcome_of (fuse.mknod p mode dev w)
    | Rename o n => outcome_of (fuse.rename o n w)
    | Rmdir p => outcome_of (fuse.rmdir p w)
    | Symlink t s => outcome_of (fuse.symlink t s w)
    | Truncate p l fh => outcome_of (fuse.truncate p l fh w)
    | Unlink p => outcome_of (fuse.unlink p w)
    | Utimens p t => outcome_of (fuse.utimens p t w)
    | Write p d o fh => outcome_of (fuse.write p d o fh w)
    end.

(** C6: every write operation, on every path and with every argument,
    raises [FuseOSError(EROFS)] and leaves the whole world as it was: the
    cache tree, the log of downloads, the catalog listings and the map
    of open handles. *)
Theorem mutations_rejected_read_only (m : mutation) (w : world) :
  run_mutation m w = (Raise (FuseOSError EROFS), w).
Proof. destruct m; reflexivity. Qed.

(** ** C10: [is_cached] and [cached_size] *)

(** C10: [cached_size] returns a value exactly when [is_cached] is true,
    and both exactly when the directory named by the identifier exists
    under the cache root and has an entry. *)
Theorem cached_size_iff_is_cached (self : cache.DownloadCache) (fs : os.node)
    (dataset_id : Z) :
  let d := cache._root self ++ [py.str dataset_id] in
  ((exists n, cache.cached_size self fs dataset_id = Some n)
   <-> cache.is_cached self fs dataset_id = true)
  /\ (cache.is_cached self fs dataset_id = true
      <-> exists t e es, os.lookup fs d = Some (os.Dir t (e :: es))).
Proof.
  unfold cache.cached_size, cache.is_cached, cache._dataset_dir,
    cache.any_entry, os.is_dir, os.iterdir.
  cbv zeta.
  destruct (os.lookup fs (cache._root self ++ [py.str dataset_id]))
    as [[s t | t [|e es]]|]; simpl; split; split;
    try (intros [n H]; discriminate);
    try discriminate;
    try (intros (t' & e' & es' & H); discriminate);
    eauto.
Qed.

(** ** C1: [resolve_path] and the boundary of a dataset directory *)

(** [p] lies in the directory [dir], or is [dir] itself. *)
Definition within (dir p : os.path) : Prop := exists rest, p = dir ++ rest.

(** A cache root [/c] holding datasets 1 and 12. *)
Definition two_datasets : os.node :=
  os.Dir 0
    [("c", os.Dir 0 [("1", os.Dir 0 [("a", os.File 10 0)]);
                     ("12", os.Dir 0 [("f", os.File 7 0)])]);
     ("etc", os.Dir 0 [("passwd", os.File 1 0)])].

(** C1 fails on the code: the traversal guard compares the rendered
    paths as strings, so [/c/12/f] passes as "inside" [/c/1].  Asked for
    dataset 1, [resolve_path] hands out a file of dataset 12. *)
Theorem resolve_path_escapes_to_sibling :
  let self := cache.mkDownloadCache ["c"] 4294967296 in
  cache.resolve_path self two_datasets 1 "../12/f" = Some ["c"; "12"; "f"]
  /\ ~ within (cache._dataset_dir self 1) ["c"; "12"; "f"]
  /\ cache.resolve_path self two_datasets 1 "../../etc/passwd" = None.
Proof.
  cbv zeta. split; [reflexivity|]. split; [|reflexivity].
  intros [rest H]. vm_compute in H. discriminate.
Qed.

(** ** C2: [deduplicate_names] *)

(** Two datasets named [x] without a timestamp, and a third whose own
    name is the fallback name of the first. *)
Definition colliding_datasets : list Dataset :=
  [mkDataset 1 (Some "x") None None;
   mkDataset 2 (Some "x") None None;
   mkDataset 3 (Some "x [1]") None None].

(** C2 fails on the code: names are made unique inside one base-name
    group only.  Datasets 1 and 3 have distinct identifiers and both
    receive the folder name [x [1]], whatever the timestamp formatter. *)
Theorem deduplicate_names_cross_group_collision
    (isoformat_minutes : string -> option string) :
  let names := utils.deduplicate_names isoformat_minutes colliding_datasets in
  NoDup (map id colliding_datasets)
  /\ py.get Z.eqb names 1 = Some "x [1]"
  /\ py.get Z.eqb names 3 = Some "x [1]".
Proof.
  cbv zeta. split.
  - simpl. repeat constructor; simpl; intuition discriminate.
  - split; reflexivity.
Qed.

(** *** Every identifier receives a name *)

Section Grouping.
Context {X : Type}.
Variable key : X -> string.

(** [x] sits in the group filed under its own key. *)
Definition filed (groups : list (string * list X)) (x : X) : Prop :=
  exists g, py.get String.eqb groups (key x) = Some g /\ In x g.

Lemma filed_step groups y x :
  x = y \/ filed groups x ->
  filed (py.setdefault_append String.eqb groups (key y) y) x.
Proof.
  unfold py.setdefault_append, filed.
  destruct (py.get String.eqb groups (key y)) as [l|] eqn:E.
  - intros [->|(g & G & I)].
    + exists (l ++ [y]). split; [apply (get_set_same _ Seqb_eq)|].
      apply in_or_app. right. now left.
    + destruct (String.eqb (key x) (key y)) eqn:K.
      * apply String.eqb_eq in K. rewrite K in *.
        exists (l ++ [y]). split; [apply (get_set_same _ Seqb_eq)|].
        rewrite G in E. injection E as <-. apply in_or_app. now left.
      * exists g. split; [|assumption].
        rewrite (get_set_other _ Seqb_eq); [assumption|].
        intro H. rewrite H, String.eqb_refl in K. discriminate.
  - intros [->|(g & G & I)].
    + exists [y]. split; [|now left].
      rewrite (get_app_none _ _ _ _ E). simpl. now rewrite String.eqb_refl.
    + exists g. split; [|assumption]. now apply get_app_some.
Qed.

Lemma filed_fold (l : list X) groups x :
  In x l \/ filed groups x ->
  filed (fold_left (fun g y => py.setdefault_append String.eqb g (key y) y) l groups) x.
Proof.
  revert groups. induction l as [|y l IH]; intros groups H; simpl.
  - destruct H as [[]|H]; assumption.
  - apply IH. destruct H as [[->|H]|H].
    + right. apply filed_step. now left.
    + now left.
    + right. apply filed_step. now right.
Qed.
End Grouping.

Lemma fold_left_covers {A : Type} (step : list (Z * string) -> A -> list (Z * string))
    (sets : A -> Z -> Prop) :
  (forall acc a k, py.contains Z.eqb acc k = true ->
                   py.contains Z.eqb (step acc a) k = true) ->
  (forall acc a k, sets a k -> py.contains Z.eqb (step acc a) k = true) ->
  forall items acc k,
    py.contains Z.eqb acc k = true \/ (exists a, In a items /\ sets a k) ->
    py.contains Z.eqb (fold_left step items acc) k = true.
Proof.
  intros Mono Sets items. induction items as [|a items IH]; intros acc k H; simpl.
  - destruct H as [H|(a & [] & _)]. assumption.
  - apply IH. destruct H as [H|(b & [->|I] & S)].
    + left. now apply Mono.
    + left. now apply Sets.
    + right. now exists b.
Qed.

Lemma fold_left_over_map {A B C : Type} (f : A -> B -> A) (h : C -> B)
    (l : list C) (acc : A) :
  fold_left f (map h l) acc = fold_left (fun a x => f a (h x)) l acc.
Proof. revert acc. induction l; intros; simpl; auto. Qed.

Lemma contains_set_same (d : list (Z * string)) k v :
  py.contains Z.eqb (py.set Z.eqb d k v) k = true.
Proof. unfold py.contains. now rewrite (get_set_same _ Zeqb_eq). Qed.

Section DedupTotal.
Variable isoformat_minutes : string -> option string.

Lemma assign_ids_covers (display : string) (sub : list Dataset) acc k :
  py.contains Z.eqb acc k = true \/ (exists d, In d sub /\ id d = k) ->
  py.contains Z.eqb
    (fold_left
       (fun r ds =>
          py.set Z.eqb r (id ds) (display ++ " [" ++ py.str (id ds) ++ "]")%string)
       sub acc) k = true.
Proof.
  apply (fold_left_covers _ (fun d k => id d = k)).
  - intros. now apply (contains_set _ Zeqb_eq).
  - intros r d k' <-. apply contains_set_same.
Qed.

Lemma assign_subgroup_mono acc item k :
  py.contains Z.eqb acc k = true ->
  py.contains Z.eqb (utils.assign_subgroup acc item) k = true.
Proof.
  destruct item as [display sub]. unfold utils.assign_subgroup. intro H.
  destruct sub as [|d [|d' sub]].
  - apply assign_ids_covers. now left.
  - now apply (contains_set _ Zeqb_eq).
  - apply assign_ids_covers. now left.
Qed.

Lemma assign_subgroup_sets acc display sub d :
  In d sub ->
  py.contains Z.eqb (utils.assign_subgroup acc (display, sub)) (id d) = true.
Proof.
  unfold utils.assign_subgroup. intro I.
  destruct sub as [|d0 [|d1 sub]].
  - destruct I.
  - destruct I as [->|[]]. apply contains_set_same.
  - apply assign_ids_covers. right. now exists d.
Qed.

Lemma assign_subgroups_covers items acc k :
  py.contains Z.eqb acc k = true
  \/ (exists item, In item items /\ exists d, In d (snd item) /\ id d = k) ->
  py.contains Z.eqb (fold_left utils.assign_subgroup items acc) k = true.
Proof.
  apply (fold_left_covers _ (fun item k => exists d, In d (snd item) /\ id d = k)).
  - intros. now apply assign_subgroup_mono.
  - intros r [display sub] k' (d & I & <-). now apply assign_subgroup_sets.
Qed.

Lemma assign_group_mono acc item k :
  py.contains Z.eqb acc k = true ->
  py.contains Z.eqb (utils.assign_group isoformat_minutes acc item) k = true.
Proof.
  destruct item as [name group]. unfold utils.assign_group. intro H.
  destruct group as [|d [|d' group]].
  - assumption.
  - now apply (contains_set _ Zeqb_eq).
  - apply assign_subgroups_covers. now left.
Qed.

Lemma assign_group_sets acc name group d :
  In d group ->
  py.contains Z.eqb (utils.assign_group isoformat_minutes acc (name, group)) (id d) = true.
Proof.
  unfold utils.assign_group. intro I.
  destruct group as [|d0 [|d1 group]].
  - destruct I.
  - destruct I as [->|[]]. apply contains_set_same.
  - apply assign_subgroups_covers. right.
    destruct (filed_fold (utils.display_name isoformat_minutes name)
                (d0 :: d1 :: group) [] d (or_introl I)) as (g & G & Ig).
    exists (utils.display_name isoformat_minutes name d, g). split.
    + now apply (get_some_in _ Seqb_eq).
    + now exists d.
Qed.

(** Every dataset of the collection has an entry in the result. *)
Lemma deduplicate_names_total (datasets : list Dataset) (d : Dataset) :
  In d datasets ->
  py.contains Z.eqb (utils.deduplicate_names isoformat_minutes datasets) (id d) = true.
Proof.
  intro I. unfold utils.deduplicate_names.
  rewrite fold_left_over_map.
  apply (fold_left_covers _ (fun item k => exists d, In d (snd item) /\ id d = k)).
  - intros. now apply assign_group_mono.
  - intros r [name group] k' (d' & I' & <-). now apply assign_group_sets.
  - right.
    destruct (filed_fold (fun ds => utils._sanitize (utils.raw_name ds))
                datasets [] d (or_introl I)) as (g & G & Ig).
    exists (utils._sanitize (utils.raw_name d), g). split.
    + apply (get_some_in _ Seqb_eq). exact G.
    + now exists d.
Qed.
End DedupTotal.

(** ** Decimal rendering of identifiers *)

Lemma str_parses_back (n : Z) :
  NilZero.int_of_string (py.str n) = Some (Z.to_int n).
Proof.
  unfold py.str. apply NilZero.isi; destruct n; simpl; try discriminate;
    intros [= H]; now apply DecimalPos.Unsigned.to_uint_nonnil in H.
Qed.

Lemma str_inj (n m : Z) : py.str n = py.str m -> n = m.
Proof.
  intro H. apply DecimalZ.to_int_inj.
  assert (E : Some (Z.to_int n) = Some (Z.to_int m)).
  { rewrite <- !str_parses_back. now rewrite H. }
  now injection E.
Qed.

Lemma str_not_dotdot (n : Z) : py.str n <> "..".
Proof.
  intro H. pose proof (str_parses_back n) as P. rewrite H in P. discriminate.
Qed.

(** ** C8: the version map of the Published listing *)

(** The label of a recorded version: [f"v{v.version}"]. *)
Definition version_label (v : Version) : string :=
  ("v" ++ py.str (version v))%string.

(** [ds.versions], nothing recorded when it is [None]. *)
Definition recorded (ds : Dataset) : list Version :=
  match versions ds with
  | Some vs => vs
  | None => []
  end.

Section LastWins.
Context {A V : Type}.
Variable label : A -> string.
Variable val : A -> V.

(** After a loop of assignments [d[label a] = val a], a key on whose
    value all its assignments agree holds that value. *)
Lemma fold_set_agreed (l : list A) (d : list (string * V)) k x :
  (forall a, In a l -> label a = k -> val a = x) ->
  py.get String.eqb d k = Some x \/ (exists a, In a l /\ label a = k) ->
  py.get String.eqb (fold_left (fun d a => py.set String.eqb d (label a) (val a)) l d) k
  = Some x.
Proof.
  revert d. induction l as [|a l IH]; intros d Agree H; simpl.
  - destruct H as [H|(a & [] & _)]. assumption.
  - apply IH; [intros; apply Agree; simpl; auto|].
    destruct (String.eqb_spec (label a) k) as [E|N].
    + left. rewrite E, (get_set_same _ Seqb_eq). f_equal. apply Agree; simpl; auto.
    + destruct H as [H|(b & [->|I] & E)].
      * left. rewrite (get_set_other _ Seqb_eq); auto.
      * contradiction.
      * right. now exists b.
Qed.

(** The keys after the loop: those before it and the labels assigned. *)
Lemma fold_set_keys (l : list A) (d : list (string * V)) k :
  py.contains String.eqb
    (fold_left (fun d a => py.set String.eqb d (label a) (val a)) l d) k = true
  <-> py.contains String.eqb d k = true \/ (exists a, In a l /\ label a = k).
Proof.
  revert d. induction l as [|a l IH]; intro d; simpl.
  - split; [auto|]. intros [H|(a & [] & _)]. assumption.
  - rewrite IH. unfold py.contains. split.
    + intros [H|(b & I & E)].
      * destruct (String.eqb_spec (label a) k) as [E|N].
        -- right. exists a. auto.
        -- left. rewrite (get_set_other _ Seqb_eq) in H; auto.
      * right. exists b. auto.
    + intros [H|(b & [->|I] & E)].
      * left. now apply (contains_set _ Seqb_eq).
      * left. rewrite E, (get_set_same _ Seqb_eq). reflexivity.
      * right. now exists b.
Qed.
End LastWins.

Lemma version_labels_fold (ds : Dataset) :
  catalog.version_labels ds
  = fold_left (fun d v => py.set String.eqb d (version_label v) (version_dataset_id v))
      (recorded ds) [("Original", id ds)].
Proof.
  unfold catalog.version_labels, recorded.
  destruct (versions ds) as [[|v vs]|]; reflexivity.
Qed.

Lemma version_label_not_original (v : Version) : version_label v <> "Original".
Proof. unfold version_label. simpl. discriminate. Qed.

Lemma version_label_inj (v v' : Version) :
  version_label v = version_label v' -> version v = version v'.
Proof.
  unfold version_label. simpl. intros [= H]. now apply str_inj.
Qed.

Lemma version_labels_original (ds : Dataset) :
  py.get String.eqb (catalog.version_labels ds) "Original" = Some (id ds).
Proof.
  rewrite version_labels_fold. apply fold_set_agreed.
  - intros v _ E. now apply version_label_not_original in E.
  - now left.
Qed.

Lemma version_labels_version (ds : Dataset) (v : Version) :
  In v (recorded ds) ->
  (forall v', In v' (recorded ds) -> version v' = version v ->
              version_dataset_id v' = version_dataset_id v) ->
  py.get String.eqb (catalog.version_labels ds) (version_label v)
  = Some (version_dataset_id v).
Proof.
  intros I Agree. rewrite version_labels_fold. apply fold_set_agreed.
  - intros v' I' E. apply Agree; [assumption|]. now apply version_label_inj.
  - right. now exists v.
Qed.

Lemma version_labels_keys (ds : Dataset) (l : string) :
  py.contains String.eqb (catalog.version_labels ds) l = true
  <-> l = "Original" \/ (exists v, In v (recorded ds) /\ l = version_label v).
Proof.
  rewrite version_labels_fold, fold_set_keys. unfold py.contains. simpl.
  split; intros [H|(v & I & E)].
  - left. destruct (String.eqb_spec l "Original"); [assumption|discriminate].
  - right. now exists v.
  - left. now subst.
  - right. now exists v.
Qed.

Section Listing.
Variable isoformat_minutes : string -> option string.
Variable isoformat_epoch : string -> option Z.

(** [name_map[ds.id]] where the identifier has a name. *)
Definition folder_of (name_map : list (Z * string)) (ds : Dataset) : string :=
  match py.get Z.eqb name_map (id ds) with
  | Some f => f
  | None => ""
  end.

(** With a name for every identifier the loop of [get_listing] never
    raises, and its three dictionaries are three loops of assignments. *)
Lemma add_dataset_fold category name_map (ds : list Dataset) fl ts vm :
  (forall d, In d ds -> py.contains Z.eqb name_map (id d) = true) ->
  fold_left (catalog.add_dataset isoformat_epoch category name_map) ds
    (Return (fl, ts, vm))
  = Return
      (fold_left (fun m d => py.set String.eqb m (folder_of name_map d) d) ds fl,
       fold_left
         (fun m d => py.set String.eqb m (folder_of name_map d)
                       (catalog.parse_iso_timestamp isoformat_epoch
                          (experiment_start_time d))) ds ts,
       if catalog.key_eqb category (Builtin PUBLISHED)
       then fold_left
              (fun m d => py.set String.eqb m (folder_of name_map d)
                            (catalog.version_labels d)) ds vm
       else vm).
Proof.
  revert fl ts vm. induction ds as [|d ds IH]; intros fl ts vm Named; simpl.
  - now destruct (catalog.key_eqb category (Builtin PUBLISHED)).
  - assert (N : py.contains Z.eqb name_map (id d) = true) by (apply Named; now left).
    unfold py.contains in N.
    destruct (py.get Z.eqb name_map (id d)) as [f|] eqn:G; [|discriminate].
    assert (E : folder_of name_map d = f) by (unfold folder_of; now rewrite G).
    rewrite !E, IH.
    + now destruct (catalog.key_eqb category (Builtin PUBLISHED)).
    + intros d' Id'. apply Named. now right.
Qed.

(** [get_listing] has to build a listing: no snapshot, or an expired one. *)
Definition stale (self : catalog.DatasetCatalog) (category : CategoryKey)
    (w : world) : Prop :=
  match py.get catalog.key_eqb (_cache w) category with
  | Some c => catalog._ttl self <= clock w - fetched_at c
  | None => True
  end.

Lemma get_listing_stale self category w :
  stale self category w ->
  catalog.get_listing isoformat_minutes isoformat_epoch self category w
  = catalog.refresh isoformat_minutes isoformat_epoch self category w.
Proof.
  unfold stale, catalog.get_listing, bind, gets. simpl.
  destruct (py.get catalog.key_eqb (_cache w) category) as [c|]; [|reflexivity].
  intro H. destruct (Z.ltb_spec (clock w - fetched_at c) (catalog._ttl self)).
  - lia.
  - reflexivity.
Qed.

End Listing.

(** Datasets without timestamps never reach the parser of the standard
    library; it may as well reject everything. *)
Definition no_datetime {A : Type} (s : string) : option A := None.

Definition a_catalog : catalog.DatasetCatalog := catalog.mkDatasetCatalog 300 [].

(** A world whose remote side answers every search with [found], and
    fails every download. *)
Definition world_listing (found : list Dataset) : world :=
  mkWorld (os.Dir 0 []) 1000 [] []
          (mkClient false (fun _ => found) (fun _ => Failed []))
          [] [] [] 1.

(** A dataset with recorded versions 2 and 5. *)
Definition versioned : Dataset :=
  mkDataset 7 (Some "spectra") None (Some [mkVersion 2 20; mkVersion 5 50]).


(** The example of the specification: versions 2 and 5 give exactly the
    labels [Original], [v2] and [v5]. *)
Example published_versions_2_and_5 :
  option_map version_map
    (match catalog.get_listing no_datetime no_datetime a_catalog (Builtin PUBLISHED)
             (world_listing [versioned]) with
     | (Return L, _) => Some L
     | _ => None
     end)
  = Some [("spectra", [("Original", 7); ("v2", 20); ("v5", 50)])].
Proof. reflexivity. Qed.

(** A dataset that records the version number 2 twice. *)
Definition twice_versioned : Dataset :=
  mkDataset 7 (Some "spectra") None (Some [mkVersion 2 20; mkVersion 2 21]).


(** ** The host file system *)

Section Entries.
Implicit Types (es : list (string * os.node)) (name c : string).

Lemma find_map_first_same c g es n :
  os.find c es = Some n -> os.find c (os.map_first c g es) = Some (g n).
Proof.
  induction es as [|[k m] es IH]; simpl; [discriminate|].
  destruct (String.eqb k c) eqn:E; simpl; rewrite E; [now intros [= ->]|auto].
Qed.

Lemma find_map_first_other c c' g es :
  c' <> c -> os.find c' (os.map_first c g es) = os.find c' es.
Proof.
  intro N. induction es as [|[k m] es IH]; simpl; [reflexivity|].
  destruct (String.eqb_spec k c) as [->|Nk]; simpl.
  - destruct (String.eqb_spec c c'); [congruence|reflexivity].
  - now rewrite IH.
Qed.

Lemma map_first_absent c g es :
  os.find c es = None -> os.map_first c g es = es.
Proof.
  induction es as [|[k m] es IH]; simpl; [reflexivity|].
  destruct (String.eqb k c); [discriminate|]. intro H. now rewrite IH.
Qed.

Lemma map_first_app_absent c g es es' :
  os.find c es = None ->
  os.map_first c g (es ++ es') = es ++ os.map_first c g es'.
Proof.
  induction es as [|[k m] es IH]; simpl; [reflexivity|].
  destruct (String.eqb k c); [discriminate|]. intro H. now rewrite IH.
Qed.

Lemma map_first_single c g n : os.map_first c g [(c, n)] = [(c, g n)].
Proof. simpl. now rewrite String.eqb_refl. Qed.

Lemma find_app_absent c es es' :
  os.find c es = None -> os.find c (es ++ es') = os.find c es'.
Proof.
  induction es as [|[k m] es IH]; simpl; [reflexivity|].
  destruct (String.eqb k c); [discriminate|auto].
Qed.

Lemma find_app_present c es es' n :
  os.find c es = Some n -> os.find c (es ++ es') = Some n.
Proof.
  induction es as [|[k m] es IH]; simpl; [discriminate|].
  destruct (String.eqb k c); auto.
Qed.

Lemma find_remove_same name es : os.find name (os.remove_entry name es) = None.
Proof.
  induction es as [|[k m] es IH]; simpl; [reflexivity|].
  destruct (String.eqb k name) eqn:E; simpl; [assumption|]. now rewrite E.
Qed.

Lemma find_remove_other name c es :
  c <> name -> os.find c (os.remove_entry name es) = os.find c es.
Proof.
  intro N. induction es as [|[k m] es IH]; simpl; [reflexivity|].
  destruct (String.eqb_spec k name) as [->|Nk]; simpl.
  - destruct (String.eqb_spec name c); [congruence|assumption].
  - now rewrite IH.
Qed.

Lemma remove_entry_absent name es :
  os.find name es = None -> os.remove_entry name es = es.
Proof.
  induction es as [|[k m] es IH]; simpl; [reflexivity|].
  destruct (String.eqb k name); [discriminate|]. simpl. intro H. now rewrite IH.
Qed.

Lemma remove_entry_app name es es' :
  os.remove_entry name (es ++ es') = os.remove_entry name es ++ os.remove_entry name es'.
Proof. apply filter_app. Qed.

Lemma find_none_not_in name es :
  os.find name es = None -> ~ In name (map fst es).
Proof.
  induction es as [|[k m] es IH]; simpl; [tauto|].
  destruct (String.eqb_spec k name); [discriminate|]. intros H [E|I]; [auto|].
  now apply IH.
Qed.

Lemma find_in_nodup name n es :
  NoDup (map fst es) -> In (name, n) es -> os.find name es = Some n.
Proof.
  induction es as [|[k m] es IH]; simpl; [tauto|].
  intros ND [E|I].
  - injection E as -> ->. now rewrite String.eqb_refl.
  - inversion ND as [|? ? NI ND']; subst.
    destruct (String.eqb_spec k name) as [->|_].
    + exfalso. apply NI. apply (in_map fst) in I. exact I.
    + auto.
Qed.
End Entries.

Section Trees.
Implicit Types (fs n : os.node) (p q : os.path).

Lemma lookup_app fs p q :
  os.lookup fs (p ++ q)
  = match os.lookup fs p with
    | Some n => os.lookup n q
    | None => None
    end.
Proof.
  revert fs. induction p as [|c p IH]; intro fs; simpl; [reflexivity|].
  destruct fs as [s t|t es]; [reflexivity|].
  destruct (os.find c es); [apply IH|reflexivity].
Qed.

(** Rewriting the entries of the directory at [p]. *)
Lemma lookup_with_dir fs p now f t es :
  os.lookup fs p = Some (os.Dir t es) ->
  os.lookup (os.with_dir fs p now f) p = Some (os.Dir now (f es)).
Proof.
  revert fs. induction p as [|c p IH]; intro fs; simpl.
  - now intros [= ->].
  - destruct fs as [s t0|t0 es0]; [discriminate|].
    destruct (os.find c es0) as [n|] eqn:F; [|discriminate].
    intro H. simpl. rewrite (find_map_first_same _ _ _ _ F). now apply IH.
Qed.

(** Rewriting below the entry [c] of the directory at [p] changes that
    entry only. *)
Lemma lookup_with_dir_below fs p c q now f t es :
  os.lookup fs p = Some (os.Dir t es) ->
  os.lookup (os.with_dir fs (p ++ c :: q) now f) p
  = Some (os.Dir t (os.map_first c (fun m => os.with_dir m q now f) es)).
Proof.
  revert fs. induction p as [|c0 p IH]; intro fs; simpl.
  - now intros [= ->].
  - destruct fs as [s t0|t0 es0]; [discriminate|].
    destruct (os.find c0 es0) as [n|] eqn:F; [|discriminate].
    intro H. simpl. rewrite (find_map_first_same _ _ _ _ F). now apply IH.
Qed.

Lemma with_dir_keeps_dir t es q now f :
  exists t' es', os.with_dir (os.Dir t es) q now f = os.Dir t' es'.
Proof. destruct q; simpl; eauto. Qed.

Lemma lookup_touch fs p now t es :
  os.lookup fs p = Some (os.Dir t es) ->
  os.lookup (os.touch fs p now) p = Some (os.Dir now es).
Proof.
  revert fs. induction p as [|c p IH]; intro fs; simpl.
  - now intros [= ->].
  - destruct fs as [s t0|t0 es0]; [discriminate|].
    destruct (os.find c es0) as [n|] eqn:F; [|discriminate].
    intro H. simpl. rewrite (find_map_first_same _ _ _ _ F). now apply IH.
Qed.

Lemma lookup_child fs p c t es :
  os.lookup fs p = Some (os.Dir t es) ->
  os.lookup fs (p ++ [c]) = os.find c es.
Proof.
  intro H. rewrite lookup_app, H. simpl. now destruct (os.find c es).
Qed.
End Trees.

Lemma resolve_snoc (p : list string) (c : string) :
  c <> ".." -> os.resolve (p ++ [c]) = os.resolve p ++ [c].
Proof.
  intro N. unfold os.resolve. rewrite fold_left_app. simpl.
  destruct (String.eqb_spec c ".."); [contradiction|reflexivity].
Qed.

Lemma parse_empty : os.parse "" = [].
Proof. reflexivity. Qed.

Lemma prefix_refl (s : string) : String.prefix s s = true.
Proof.
  induction s as [|c s IH]; simpl; [reflexivity|].
  destruct (Ascii.ascii_dec c c); [assumption|contradiction].
Qed.

(** ** C7: the eviction sweep *)

Definition entry_mtime (e : Z * Z * string) : Z := fst (fst e).
Definition entry_size (e : Z * Z * string) : Z := snd (fst e).
Definition entry_name (e : Z * Z * string) : string := snd e.

(** The summed size of the entries. *)
Definition total_size (entries : list (Z * Z * string)) : Z :=
  fold_right Z.add 0 (map entry_size entries).

(** The tree after the whole directories of [victims] left the root. *)
Definition remove_all (root : os.path) (now : Z)
    (victims : list (Z * Z * string)) (fs : os.node) : os.node :=
  fold_left (fun f e => os.remove f root (entry_name e) now) victims fs.

Definition older_or_equal (a b : Z * Z * string) : Prop :=
  entry_mtime a <= entry_mtime b.

Lemma insert_by_mtime_perm e l : Permutation (e :: l) (cache.insert_by_mtime e l).
Proof.
  induction l as [|e' l IH]; simpl; [reflexivity|].
  destruct (fst (fst e) <=? fst (fst e')); [reflexivity|].
  rewrite perm_swap. now constructor.
Qed.

Lemma sort_by_mtime_perm l : Permutation l (cache.sort_by_mtime l).
Proof.
  induction l as [|e l IH]; simpl; [constructor|].
  rewrite <- insert_by_mtime_perm. now constructor.
Qed.

Lemma insert_by_mtime_hd a e l :
  HdRel older_or_equal a l -> older_or_equal a e ->
  HdRel older_or_equal a (cache.insert_by_mtime e l).
Proof.
  intros H Hae. destruct l as [|e' l]; simpl; [now constructor|].
  destruct (fst (fst e) <=? fst (fst e')); constructor; [assumption|].
  now inversion H.
Qed.

Lemma insert_by_mtime_sorted e l :
  Sorted older_or_equal l -> Sorted older_or_equal (cache.insert_by_mtime e l).
Proof.
  induction l as [|e' l IH]; simpl; intro S.
  - repeat constructor.
  - destruct (Z.leb_spec (fst (fst e)) (fst (fst e'))) as [L|G].
    + constructor; [assumption|]. constructor. exact L.
    + inversion S as [|? ? S' Hd]; subst. constructor; [auto|].
      apply insert_by_mtime_hd; [assumption|].
      unfold older_or_equal, entry_mtime. lia.
Qed.

Lemma sort_by_mtime_sorted l : Sorted older_or_equal (cache.sort_by_mtime l).
Proof.
  induction l as [|e l IH]; simpl; [constructor|].
  now apply insert_by_mtime_sorted.
Qed.

Lemma set_fs_same (w : world) : set_fs w (fs w) = w.
Proof. now destruct w. Qed.

Section Eviction.
Variable self : cache.DownloadCache.

Let root := cache._root self.
Let budget := cache._max_bytes self.

Lemma eviction_entries_dirs fs e :
  In e (cache.eviction_entries self fs) ->
  exists t es, In (entry_name e, os.Dir t es) (os.iterdir fs root).
Proof.
  unfold cache.eviction_entries. fold root.
  induction (os.iterdir fs root) as [|[name n] l IH]; simpl; [tauto|].
  intro H. apply in_app_or in H. destruct H as [H|H].
  - destruct n as [s t|t es]; [destruct H|].
    destruct (py.int_parses name); [|destruct H].
    destruct H as [<-|[]]. exists t, es. now left.
  - destruct (IH H) as (t & es & I). exists t, es. now right.
Qed.

Lemma eviction_entries_names fs :
  NoDup (map fst (os.iterdir fs root)) ->
  NoDup (map entry_name (cache.eviction_entries self fs)).
Proof.
  pose proof (eviction_entries_dirs fs) as Dirs.
  unfold cache.eviction_entries in *. fold root in Dirs |- *.
  induction (os.iterdir fs root) as [|[name n] l IH]; simpl; [constructor|].
  intro ND. inversion ND as [|? ? NI ND']; subst.
  assert (Rest : forall e,
    In e (flat_map
            (fun child : string * os.node =>
               let '(name, n) := child in
               match n with
               | os.File _ _ => []
               | os.Dir mtime _ =>
                   if py.int_parses name
                   then [(mtime, cache._dir_size fs (root ++ [name]), name)]
                   else []
               end) l) -> In (entry_name e) (map fst l)).
  { clear - root. induction l as [|[k m] l IHl]; simpl; [tauto|].
    intros e H. apply in_app_or in H. destruct H as [H|H].
    - destruct m as [s t|t es]; [destruct H|].
      destruct (py.int_parses k); [|destruct H].
      destruct H as [<-|[]]. now left.
    - right. now apply IHl. }
  rewrite map_app. 
  assert (Tail : NoDup (map entry_name
    (flat_map
       (fun child : string * os.node =>
          let '(name, n) := child in
          match n with
          | os.File _ _ => []
          | os.Dir mtime _ =>
              if py.int_parses name
              then [(mtime, cache._dir_size fs (root ++ [name]), name)]
              else []
          end) l))).
  { apply IH; [|assumption]. intros e H. 
    destruct (Dirs e) as (t & es & I); [simpl; apply in_or_app; now right|].
    simpl in I. destruct I as [E|I].
    - exfalso. apply NI. injection E as -> _. now apply Rest.
    - eauto. }
  destruct n as [s t|t es]; [exact Tail|].
  destruct (py.int_parses name); [|exact Tail].
  simpl. constructor; [|exact Tail].
  intro H. apply NI. apply in_map_iff in H. destruct H as (e & <- & I).
  now apply Rest.
Qed.

Lemma evict_loop_spec (entries : list (Z * Z * string)) :
  forall total w t es,
    os.lookup (fs w) root = Some (os.Dir t es) ->
    (forall e, In e entries ->
               exists t' es', os.find (entry_name e) es = Some (os.Dir t' es')) ->
    NoDup (map entry_name entries) ->
    exists k,
      (k <= List.length entries)%nat
      /\ cache.evict_loop self entries total w
         = (Return tt, set_fs w (remove_all root (clock w) (firstn k entries) (fs w)))
      /\ (forall j, (j < k)%nat -> budget < total - total_size (firstn j entries))
      /\ ((k < List.length entries)%nat ->
          total - total_size (firstn k entries) <= budget).
Proof.
  induction entries as [|[[m s] name] rest IH]; intros total w t es Root Dirs ND.
  - exists 0%nat. simpl. rewrite set_fs_same. repeat split; [lia|lia|lia].
  - simpl. fold budget. destruct (Z.leb_spec total budget) as [L|G].
    + exists 0%nat. simpl. rewrite set_fs_same.
      repeat split; [lia|intros; lia|intros _; unfold total_size; simpl; lia].
    + destruct (Dirs (m, s, name) (or_introl eq_refl)) as (t' & es' & F).
      simpl in F.
      unfold bind, os_do, os.rmtree, os.is_dir. fold root.
      rewrite (lookup_child _ _ name _ _ Root), F.
      inversion ND as [|? ? NI ND']; subst.
      set (w1 := set_fs w (os.remove (fs w) root name (clock w))).
      destruct (IH (total - s) w1 (clock w) (os.remove_entry name es))
        as (k & Hk & Run & Before & After).
      * unfold w1, os.remove. simpl. now apply (lookup_with_dir _ _ _ _ t es).
      * intros e I. destruct (Dirs e (or_intror I)) as (t'' & es'' & F').
        exists t'', es''. rewrite find_remove_other; [assumption|].
        intro E. apply NI. apply in_map_iff. exists e. split; [exact E|exact I].
      * assumption.
      * exists (S k). split; [simpl; lia|]. split; [|split].
        -- rewrite Run. reflexivity.
        -- intros [|j] Hj; simpl.
           ++ unfold total_size. simpl. lia.
           ++ specialize (Before j ltac:(lia)). unfold total_size in *. simpl.
              unfold entry_size at 1. simpl. lia.
        -- intro Hlt. simpl in Hlt. specialize (After ltac:(lia)).
           unfold total_size in *. simpl. unfold entry_size at 1. simpl. lia.
Qed.

End Eviction.

Definition GB : Z := 1024 * 1024 * 1024.

(** A cache of 4 GB under [/c]. *)
Definition a_cache : cache.DownloadCache := cache.mkDownloadCache ["c"] (4 * GB).

(** Three cached datasets of 3, 1 and 2 GB, last touched in that order,
    beside a staging directory that does not count. *)
Definition three_entries : os.node :=
  os.Dir 0
    [("c", os.Dir 0
       [("12", os.Dir 20 [("fid", os.File (1 * GB) 20)]);
        (".dl-14-k3", os.Dir 5 [("fid", os.File (9 * GB) 5)]);
        ("11", os.Dir 10 [("pdata", os.Dir 10 [("1r", os.File (3 * GB) 10)])]);
        ("13", os.Dir 30 [("fid", os.File (2 * GB) 30)])])].

(** A world around a file system: clock at 100, two staging names to
    try, a remote side that lists nothing and delivers [remote]. *)
Definition world_of (tree : os.node) (remote : Z -> outcome) : world :=
  mkWorld tree 100 ["k3"; "x7"] [] (mkClient false (fun _ => []) remote)
          [] [] [] 1.

Definition no_remote (dataset_id : Z) : outcome := Failed [].


(** The example of the specification: with a budget of 4 GB and entries
    of 3, 1 and 2 GB from oldest to newest, the sweep removes the 3 GB
    entry and nothing else, and 3 GB stay. *)
Example eviction_three_entries :
  let w := world_of three_entries no_remote in
  exists w',
    cache._evict_if_needed a_cache w = (Return tt, w')
    /\ map fst (os.iterdir (fs w') ["c"]) = ["12"; ".dl-14-k3"; "13"]
    /\ total_size (cache.eviction_entries a_cache (fs w')) = 3 * GB.
Proof.
  cbv zeta.
  exists (snd (cache._evict_if_needed a_cache (world_of three_entries no_remote))).
  split; [|split]; vm_compute; reflexivity.
Qed.

(** ** Reasoning about stateful code *)

(** From a world in [P], the computation returns into [Q] or raises
    into [E]. *)
Definition hoare {A} (P : world -> Prop) (c : M A)
    (Q : A -> world -> Prop) (E : exn -> world -> Prop) : Prop :=
  forall w, P w ->
    match c w with
    | (Return a, w') => Q a w'
    | (Raise e, w') => E e w'
    end.

(** The computation leaves the observation [obs] of the world as it
    found it, whether it returns or raises. *)
Definition keeps {A X} (obs : world -> X) (c : M A) : Prop :=
  forall x, hoare (fun w => obs w = x) c (fun _ w => obs w = x) (fun _ w => obs w = x).

Section Rules.
Context {A B : Type}.
Implicit Types (P : world -> Prop) (E : exn -> world -> Prop).

Lemma hoare_ret P (a : A) Q E :
  (forall w, P w -> Q a w) -> hoare P (ret a) Q E.
Proof. intros H w Pw. now apply H. Qed.

Lemma hoare_raise P (e : exn) (Q : A -> world -> Prop) E :
  (forall w, P w -> E e w) -> hoare P (raise e) Q E.
Proof. intros H w Pw. now apply H. Qed.

Lemma hoare_gets P (f : world -> A) Q E :
  (forall w, P w -> Q (f w) w) -> hoare P (gets f) Q E.
Proof. intros H w Pw. now apply H. Qed.

Lemma hoare_modify P (f : world -> world) Q E :
  (forall w, P w -> Q tt (f w)) -> hoare P (modify f) Q E.
Proof. intros H w Pw. now apply H. Qed.

Lemma hoare_bind P (c : M A) (k : A -> M B) R Q E :
  hoare P c R E -> (forall a, hoare (R a) (k a) Q E) -> hoare P (bind c k) Q E.
Proof.
  intros Hc Hk w Pw. unfold bind. specialize (Hc w Pw).
  destruct (c w) as [[a|e] w']; [now apply Hk|assumption].
Qed.

(** Sequencing under an invariant. *)
Lemma hoare_bind_inv P (c : M A) (k : A -> M B) Q E :
  hoare P c (fun _ => P) E -> (forall a, hoare P (k a) Q E) -> hoare P (bind c k) Q E.
Proof. intros Hc Hk. now apply (hoare_bind P c k (fun _ => P)). Qed.

Lemma hoare_os_do P (op : os.node -> Z -> result os.node) Q E :
  (forall w, P w ->
     match op (fs w) (clock w) with
     | Return fs' => Q tt (set_fs w fs')
     | Raise e => E e w
     end) ->
  hoare P (os_do op) Q E.
Proof.
  intros H w Pw. unfold os_do. specialize (H w Pw).
  now destruct (op (fs w) (clock w)).
Qed.

Lemma hoare_weaken P P' (c : M A) (Q Q' : A -> world -> Prop) E E' :
  hoare P' c Q' E' ->
  (forall w, P w -> P' w) ->
  (forall a w, Q' a w -> Q a w) ->
  (forall e w, E' e w -> E e w) ->
  hoare P c Q E.
Proof.
  intros H HP HQ HE w Pw. specialize (H w (HP w Pw)).
  destruct (c w) as [[a|e] w']; auto.
Qed.

Lemma hoare_run P (c : M A) Q E w :
  hoare P c Q E -> P w ->
  (exists a w', c w = (Return a, w') /\ Q a w')
  \/ (exists e w', c w = (Raise e, w') /\ E e w').
Proof.
  intros H Pw. specialize (H w Pw).
  destruct (c w) as [[a|e] w']; [left|right]; eauto.
Qed.
End Rules.

Lemma hoare_for_each {A} P (l : list A) (body : A -> M unit) E :
  (forall x, hoare P (body x) (fun _ => P) E) ->
  hoare P (for_each l body) (fun _ => P) E.
Proof.
  intro H. induction l as [|x l IH]; simpl.
  - now apply hoare_ret.
  - apply hoare_bind_inv; [apply H|intros _; exact IH].
Qed.

(** A handler that ends in [E] whatever it does turns every exception
    of the body into [E]. *)
Lemma hoare_try_cleanup {A} P (body : M A) (handler : M unit) Q R
    (E : exn -> world -> Prop) (E0 : world -> Prop) :
  hoare P body Q (fun _ => R) ->
  hoare R handler (fun _ => E0) (fun _ => E0) ->
  (forall e w, E0 w -> E e w) ->
  hoare P (try_cleanup body handler) Q E.
Proof.
  intros Hb Hh HE w Pw. unfold try_cleanup. specialize (Hb w Pw).
  destruct (body w) as [[a|e] w']; [assumption|].
  specialize (Hh w' Hb). destruct (handler w') as [[u|e'] w'']; now apply HE.
Qed.

(** One step through the structure of a computation. *)
Ltac hoare_step :=
  lazymatch goal with
  | |- hoare _ (ret _) _ _ => apply hoare_ret
  | |- hoare _ (raise _) _ _ => apply hoare_raise
  | |- hoare _ (gets _) _ _ => apply hoare_gets
  | |- hoare _ (modify _) _ _ => apply hoare_modify
  | |- hoare _ (os_do _) _ _ => apply hoare_os_do
  | |- hoare _ (bind _ _) _ _ => apply hoare_bind_inv; [|intro]
  | |- hoare _ (for_each _ _) _ _ => apply hoare_for_each; intro
  | |- hoare _ (match ?x with _ => _ end) _ _ => destruct x
  end.

(** ** What the catalog and the path parser leave alone *)

(** The world without its listings. *)
Definition but_listings (w : world) : world := set_cache w [].

(** The download cache as the rest of the package can see it: the tree,
    the log of downloads and the staging names left. *)
Definition cache_state (w : world) : os.node * list Z * list string :=
  (fs w, downloaded w, tmp_names w).

Ltac keeps_leaf :=
  try solve [ intros ? <-; reflexivity
            | intros ? ?; assumption ].

Section CatalogFrame.
Variable isoformat_minutes : string -> option string.
Variable isoformat_epoch : string -> option Z.

Lemma available_categories_keeps (c : catalog.DatasetCatalog) :
  keeps but_listings (catalog.available_categories c).
Proof.
  intro x. unfold catalog.available_categories.
  repeat hoare_step; keeps_leaf.
Qed.

Lemma get_listing_keeps (c : catalog.DatasetCatalog) (category : CategoryKey) :
  keeps but_listings
    (catalog.get_listing isoformat_minutes isoformat_epoch c category).
Proof.
  intro x.
  unfold catalog.get_listing, catalog.refresh, catalog._fetch, catalog._build_config.
  repeat hoare_step; keeps_leaf.
Qed.
End CatalogFrame.

Lemma keeps_run {A X} (obs : world -> X) (c : M A) (w : world) :
  keeps obs c -> obs (snd (c w)) = obs w.
Proof.
  intro H. specialize (H (obs w) w eq_refl).
  now destruct (c w) as [[a|e] w'].
Qed.

(** ** The layer of operations *)

Section Operations.
Variable isoformat_minutes : string -> option string.
Variable isoformat_epoch : string -> option Z.
Variable self : fuse.NMRHubFS.

Let getattr := fuse.getattr isoformat_minutes isoformat_epoch self.
Let readdir := fuse.readdir isoformat_minutes isoformat_epoch self.
Let open := fuse.open isoformat_minutes isoformat_epoch self.
Let _parse_path := fuse._parse_path self.
Let _resolve_dataset_id :=
  fuse._resolve_dataset_id isoformat_minutes isoformat_epoch self.
Let _resolve_version_id :=
  fuse._resolve_version_id isoformat_minutes isoformat_epoch self.
Let the_cache := fuse._cache self.

(** The available categories are a function of the world. *)
Definition categories (w : world) : list CategoryKey :=
  (if authenticated (client w)
   then [Builtin PUBLIC; Builtin PUBLISHED; Builtin LAB_GROUP; Builtin MY_DATASETS]
   else [Builtin PUBLIC; Builtin PUBLISHED])
  ++ map Custom (py.keys (catalog._custom_dirs (fuse._catalog self))).

Lemma available_categories_run (w : world) :
  catalog.available_categories (fuse._catalog self) w = (Return (categories w), w).
Proof. reflexivity. Qed.

Lemma published_available (w : world) :
  fuse.in_categories (fuse.Key (Builtin PUBLISHED)) (categories w) = true.
Proof. unfold categories. now destruct (authenticated (client w)). Qed.

Lemma resolve_category_run (name : string) (w : world) :
  exists r, fuse._resolve_category self name w = (Return r, w).
Proof.
  unfold fuse._resolve_category.
  repeat match goal with
         | |- context [if ?b then _ else _] => destruct b
         end;
    try (eexists; reflexivity);
    unfold bind; rewrite available_categories_run;
    match goal with
    | |- context [if ?b then _ else _] => destruct b
    end; eexists; reflexivity.
Qed.

(** Parsing a path never raises and changes nothing. *)
Lemma parse_path_run (path : string) (w : world) :
  exists r, _parse_path path w = (Return r, w).
Proof.
  unfold _parse_path, fuse._parse_path.
  destruct (fuse.path_parts path) as [|top rest]; [eexists; reflexivity|].
  unfold bind. destruct (resolve_category_run top w) as [r ->].
  destruct rest as [|d [|x deeper]]; eexists; reflexivity.
Qed.

Lemma listing_of_keeps (category : CategoryKey) :
  keeps but_listings
    (fuse.listing_of isoformat_minutes isoformat_epoch self category).
Proof. apply get_listing_keeps. Qed.

Lemma resolve_dataset_id_keeps (category : CategoryKey) (dataset_name : string) :
  keeps but_listings (_resolve_dataset_id category dataset_name).
Proof.
  intro x. unfold _resolve_dataset_id, fuse._resolve_dataset_id,
    catalog.get_dataset_by_folder_name.
  repeat hoare_step; keeps_leaf; apply get_listing_keeps.
Qed.

Lemma resolve_version_id_keeps (dataset_name version_label : string) :
  keeps but_listings (_resolve_version_id dataset_name version_label).
Proof.
  intro x. unfold _resolve_version_id, fuse._resolve_version_id.
  repeat hoare_step; keeps_leaf; apply listing_of_keeps.
Qed.

(** [getattr] changes nothing but the listings of the catalog. *)
Lemma getattr_keeps (path : string) : keeps but_listings (getattr path).
Proof.
  intro x. unfold getattr, fuse.getattr.
  apply hoare_bind_inv.
  - intros w <-. destruct (parse_path_run path w) as [r E].
    unfold _parse_path in E. now rewrite E.
  - intros [[category dataset_name] subpath].
    unfold fuse._dir_stat_from_path, fuse._file_stat_from_path.
    repeat hoare_step; keeps_leaf;
      first [ apply available_categories_keeps
            | apply listing_of_keeps
            | apply resolve_dataset_id_keeps
            | apply resolve_version_id_keeps ].
Qed.
End Operations.

(** ** C4: what a download leaves behind *)

Lemma str_not_hidden (n : Z) (s : string) : py.str n <> String "."%char s.
Proof.
  intro H. pose proof (str_parses_back n) as P. rewrite H in P.
  simpl in P. unfold NilZero.uint_of_string, NilEmpty.uint_of_string in P.
  fold NilEmpty.uint_of_string in P. unfold uint_of_char in P.
  destruct (NilEmpty.uint_of_string s); discriminate.
Qed.

Lemma app_one_neq {A} (l : list A) (x : A) : l ++ [x] <> l.
Proof.
  intro H. apply (f_equal (@List.length A)) in H.
  rewrite length_app in H. simpl in H. lia.
Qed.

Section Staging.
Variable self : cache.DownloadCache.
Variable dataset_id : Z.

Let root := cache._root self.
Let name := py.str dataset_id.

(** The entries of the cache root. *)
Definition root_entries (es : list (string * os.node)) (w : world) : Prop :=
  exists t, os.lookup (fs w) root = Some (os.Dir t es).

Variable es1 : list (string * os.node).
Variable tmp : string.
Hypothesis tmp_free : os.find tmp es1 = None.
Hypothesis name_free : os.find name es1 = None.
Hypothesis tmp_not_name : tmp <> name.

(** The staging directory [tmp] stands beside the entries [es1]. *)
Definition staged (w : world) : Prop :=
  exists t t' es',
    os.lookup (fs w) root = Some (os.Dir t (es1 ++ [(tmp, os.Dir t' es')])).

(** The staged tree stands under the name of the dataset. *)
Definition installed (w : world) : Prop :=
  exists t t' es',
    os.lookup (fs w) root = Some (os.Dir t (es1 ++ [(name, os.Dir t' es')])).

Lemma staged_with_dir w q now f :
  staged w -> staged (set_fs w (os.with_dir (fs w) (root ++ tmp :: q) now f)).
Proof.
  intros (t & t' & es' & L). unfold staged. simpl.
  rewrite (lookup_with_dir_below _ _ _ _ _ _ _ _ L).
  rewrite (map_first_app_absent _ _ _ _ tmp_free), map_first_single.
  destruct (with_dir_keeps_dir t' es' q now f) as (t2 & es2 & ->). eauto.
Qed.

Lemma staged_remove w q c now :
  staged w -> staged (set_fs w (os.remove (fs w) (root ++ tmp :: q) c now)).
Proof. apply staged_with_dir. Qed.

Lemma staged_put w q c n now :
  staged w -> staged (set_fs w (os.put (fs w) (root ++ tmp :: q) c n now)).
Proof. apply staged_with_dir. Qed.

Lemma staged_lookup_tmp w :
  staged w -> exists t' es', os.lookup (fs w) (root ++ [tmp]) = Some (os.Dir t' es').
Proof.
  intros (t & t' & es' & L). exists t', es'.
  rewrite (lookup_child _ _ _ _ _ L), (find_app_absent _ _ _ tmp_free). simpl.
  now rewrite String.eqb_refl.
Qed.

Lemma client_download_staged :
  hoare staged (client_download dataset_id (root ++ [tmp]))
    (fun _ => staged) (fun _ => staged).
Proof.
  intros w S. unfold client_download.
  destruct (download (client w) dataset_id) as [es|es];
    apply (staged_with_dir (set_downloaded w (downloaded w ++ [dataset_id])) []);
    exact S.
Qed.

Lemma unwrap_staged :
  hoare staged (cache._unwrap (root ++ [tmp])) (fun _ => staged) (fun _ => staged).
Proof.
  unfold cache._unwrap.
  repeat hoare_step; try (intros ? ?; assumption).
  - intros w S. unfold os.unlink.
    destruct (os.is_file (fs w) ((root ++ [tmp]) ++ ["experiments.csv"]));
      [now apply (staged_remove w [])|assumption].
  - intros w S. unfold os.rename.
    rewrite <- !app_assoc. simpl.
    destruct (os.lookup (fs w) (root ++ [tmp; s; fst x])) as [n0|]; [|assumption].
    destruct (negb (os.is_dir (fs w) (root ++ [tmp]))); [assumption|].
    assert (Moved : staged
      (set_fs w (os.put (os.remove (fs w) (root ++ [tmp; s]) (fst x) (clock w))
                        (root ++ [tmp]) (fst x) n0 (clock w)))).
    { apply (staged_put
               (set_fs w (os.remove (fs w) (root ++ [tmp; s]) (fst x) (clock w))) []).
      now apply (staged_remove w [s]). }
    destruct (os.lookup (fs w) (root ++ [tmp; fst x])) as [[? ?|? [|? ?]]|];
      destruct n0; assumption.
  - intros w S. unfold os.rmdir.
    destruct (os.lookup (fs w) ((root ++ [tmp]) ++ [s])) as [[? ?|? [|? ?]]|];
      try assumption.
    now apply (staged_remove w []).
Qed.

(** The installing rename: into place, or nothing at all. *)
Lemma install_staged :
  hoare staged
    (os_do (fun fs now => os.rename fs root tmp root name now))
    (fun _ => installed) (fun _ => staged).
Proof.
  apply hoare_os_do. intros w S.
  destruct (staged_lookup_tmp w S) as (t' & es' & Ltmp).
  destruct S as (t & t2 & es2 & L).
  unfold os.rename. rewrite Ltmp. unfold os.is_dir. rewrite L. simpl.
  rewrite (lookup_child _ _ _ _ _ L), (find_app_absent _ _ _ name_free). simpl.
  destruct (String.eqb_spec tmp name) as [E|_]; [contradiction|].
  unfold installed, os.put, os.remove. simpl.
  assert (L1 : os.lookup (os.with_dir (fs w) root (clock w) (os.remove_entry tmp)) root
               = Some (os.Dir (clock w) es1)).
  { rewrite (lookup_with_dir _ _ _ _ _ _ L). do 2 f_equal.
    rewrite remove_entry_app, (remove_entry_absent _ _ tmp_free). simpl.
    rewrite String.eqb_refl. simpl. apply app_nil_r. }
  exists (clock w), t', es'. rewrite (lookup_with_dir _ _ _ _ _ _ L1).
  unfold os.put_entry. now rewrite name_free.
Qed.

(** The handler of [ensure_downloaded] takes the staging directory
    away. *)
Lemma cleanup_staged :
  hoare staged
    (left <- gets (fun w => os.exists_ (fs w) (root ++ [tmp])) ;;
     if left then os_do (fun fs now => os.rmtree fs root tmp now) else ret tt)
    (fun _ => root_entries es1) (fun _ => root_entries es1).
Proof.
  intros w S. destruct (staged_lookup_tmp w S) as (t' & es' & Ltmp).
  destruct S as (t & t2 & es2 & L).
  unfold bind, gets, os.exists_, os_do, os.rmtree, os.is_dir. rewrite Ltmp.
  unfold root_entries, os.remove. simpl. rewrite Ltmp. simpl.
  eexists. rewrite (lookup_with_dir _ _ _ _ _ _ L). do 2 f_equal.
  rewrite remove_entry_app, (remove_entry_absent _ _ tmp_free). simpl.
  rewrite String.eqb_refl. simpl. apply app_nil_r.
Qed.

(** The guarded part of [ensure_downloaded]: the entry is installed, or
    the root is left with the entries it had beside the staging
    directory. *)
Lemma staging_outcome :
  hoare staged
    (try_cleanup
       (client_download dataset_id (root ++ [tmp]) ;;;
        cache._unwrap (root ++ [tmp]) ;;;
        os_do (fun fs now => os.rename fs root tmp root name now))
       (left <- gets (fun w => os.exists_ (fs w) (root ++ [tmp])) ;;
        if left then os_do (fun fs now => os.rmtree fs root tmp now) else ret tt))
    (fun _ => installed) (fun _ => root_entries es1).
Proof.
  apply (hoare_try_cleanup _ _ _ _ staged _ (root_entries es1)).
  - apply hoare_bind_inv; [apply client_download_staged|intros _].
    apply hoare_bind_inv; [apply unwrap_staged|intros _].
    apply install_staged.
  - apply cleanup_staged.
  - auto.
Qed.
End Staging.

Lemma hoare_conj {A} (c : M A) P P' (Q Q' : A -> world -> Prop)
    (E E' : exn -> world -> Prop) :
  hoare P c Q E -> hoare P' c Q' E' ->
  hoare (fun w => P w /\ P' w) c
        (fun a w => Q a w /\ Q' a w) (fun e w => E e w /\ E' e w).
Proof.
  intros H H' w [Pw Pw']. specialize (H w Pw). specialize (H' w Pw').
  destruct (c w) as [[a|e] w']; now split.
Qed.

(** An observation of the world that does not look at the tree. *)
Definition blind_to_fs {X} (obs : world -> X) : Prop :=
  forall w tree, obs (set_fs w tree) = obs w.

Section BlindToFs.
Context {X : Type}.
Variable obs : world -> X.
Hypothesis blind : blind_to_fs obs.

Lemma os_do_keeps op : keeps obs (os_do op).
Proof.
  intro x. apply hoare_os_do. intros w <-.
  destruct (op (fs w) (clock w)); [apply blind|reflexivity].
Qed.

Lemma unwrap_keeps p : keeps obs (cache._unwrap p).
Proof.
  intro x. unfold cache._unwrap.
  repeat (lazymatch goal with
          | |- hoare _ (os_do _) _ _ => apply os_do_keeps
          | _ => hoare_step
          end); keeps_leaf.
Qed.

Lemma evict_loop_keeps self entries total :
  keeps obs (cache.evict_loop self entries total).
Proof.
  intro x. revert total.
  induction entries as [|[[m s] name] rest IH]; intro total; simpl.
  - hoare_step. keeps_leaf.
  - destruct (total <=? cache._max_bytes self).
    + hoare_step. keeps_leaf.
    + apply hoare_bind_inv; [apply os_do_keeps|intros _; apply IH].
Qed.

Lemma evict_keeps self : keeps obs (cache._evict_if_needed self).
Proof.
  intro x. unfold cache._evict_if_needed.
  apply hoare_bind_inv; [hoare_step; keeps_leaf|intros [|]]; cbn [negb].
  - apply hoare_bind_inv; [hoare_step; keeps_leaf|intro entries].
    destruct (_ <=? _); [hoare_step; keeps_leaf|apply evict_loop_keeps].
  - hoare_step. keeps_leaf.
Qed.

Lemma cleanup_keeps root tmp :
  keeps obs
    (left <- gets (fun w => os.exists_ (fs w) (root ++ [tmp])) ;;
     if left then os_do (fun fs now => os.rmtree fs root tmp now) else ret tt).
Proof.
  intro x. apply hoare_bind_inv; [hoare_step; keeps_leaf|intros [|]].
  - apply os_do_keeps.
  - hoare_step. keeps_leaf.
Qed.
End BlindToFs.

Lemma downloaded_blind : blind_to_fs downloaded.
Proof. intros w tree. reflexivity. Qed.

(** The guarded part of [ensure_downloaded] asks the remote side for
    the dataset once, whatever comes of it. *)
Lemma staging_logs (self : cache.DownloadCache) (dataset_id : Z) (tmp : string)
    (d : list Z) :
  let root := cache._root self in
  hoare (fun w => downloaded w = d)
    (try_cleanup
       (client_download dataset_id (root ++ [tmp]) ;;;
        cache._unwrap (root ++ [tmp]) ;;;
        os_do (fun fs now => os.rename fs root tmp root (py.str dataset_id) now))
       (left <- gets (fun w => os.exists_ (fs w) (root ++ [tmp])) ;;
        if left then os_do (fun fs now => os.rmtree fs root tmp now) else ret tt))
    (fun _ w => downloaded w = d ++ [dataset_id])
    (fun _ w => downloaded w = d ++ [dataset_id]).
Proof.
  intro root.
  apply (hoare_try_cleanup _ _ _ _ (fun w => downloaded w = d ++ [dataset_id]) _
           (fun w => downloaded w = d ++ [dataset_id])).
  - apply (hoare_bind _ _ _ (fun _ w => downloaded w = d ++ [dataset_id])).
    + intros w <-. unfold client_download.
      destruct (download (client w) dataset_id); reflexivity.
    + intros _. apply hoare_bind_inv; [apply (unwrap_keeps _ downloaded_blind)|].
      intros _. apply (os_do_keeps _ downloaded_blind).
  - apply (cleanup_keeps _ downloaded_blind).
  - auto.
Qed.

Lemma fresh_name_spec fs dir prefix candidates n rest :
  fresh_name fs dir prefix candidates = Some (n, rest) ->
  os.exists_ fs (dir ++ [n]) = false /\ exists c, n = (prefix ++ c)%string.
Proof.
  induction candidates as [|c cs IH]; simpl; [discriminate|].
  destruct (os.exists_ fs (dir ++ [(prefix ++ c)%string])) eqn:E; [exact IH|].
  intros [= <- <-]. split; [assumption|now exists c].
Qed.

Lemma lookup_child_inv fs p c n :
  os.lookup fs (p ++ [c]) = Some n ->
  exists t es, os.lookup fs p = Some (os.Dir t es) /\ os.find c es = Some n.
Proof.
  rewrite lookup_app. destruct (os.lookup fs p) as [[s t|t es]|]; simpl;
    try discriminate.
  destruct (os.find c es) as [m|] eqn:F; [|discriminate].
  intros [= ->]. eauto.
Qed.

Section Fetch.
Variable self : cache.DownloadCache.
Variable dataset_id : Z.

Let root := cache._root self.
Let name := py.str dataset_id.
Let ds_dir := cache._dataset_dir self dataset_id.

(** [ensure_downloaded] from [mkdtemp] to the end of [with lock]. *)
Definition stage_and_install : M (os.path * bool) :=
  tmp <- mkdtemp (".dl-" ++ py.str dataset_id ++ "-")%string root ;;
  try_cleanup
    (client_download dataset_id (root ++ [tmp]) ;;;
     cache._unwrap (root ++ [tmp]) ;;;
     os_do (fun fs now => os.rename fs root tmp root (py.str dataset_id) now))
    (left <- gets (fun w => os.exists_ (fs w) (root ++ [tmp])) ;;
     if left then os_do (fun fs now => os.rmtree fs root tmp now) else ret tt) ;;;
  ret (ds_dir, true).

Lemma fetch_unfold :
  cache.fetch self dataset_id
  = (hit <- gets (fun w => os.is_dir (fs w) ds_dir && cache.any_entry (fs w) ds_dir) ;;
     if hit then
       modify (fun w => set_fs w (os.touch (fs w) ds_dir (clock w))) ;;;
       ret (ds_dir, false)
     else
       stale <- gets (fun w => os.exists_ (fs w) ds_dir) ;;
       (if stale
        then os_do (fun fs now => os.rmtree fs root (py.str dataset_id) now)
        else ret tt) ;;;
       stage_and_install).
Proof. reflexivity. Qed.

(** What [stage_and_install] makes of a root holding [es1]. *)
Definition staging_result (es1 : list (string * os.node)) (d : list Z)
    (r : result (os.path * bool) * world) : Prop :=
  match r with
  | (Return (p, inst), w') =>
      p = ds_dir /\ inst = true /\ installed self dataset_id es1 w'
      /\ downloaded w' = d ++ [dataset_id]
  | (Raise e, w') =>
      downloaded w' = d
      \/ (root_entries self es1 w' /\ downloaded w' = d ++ [dataset_id])
  end.

Lemma stage_and_install_spec (w1 : world) (es1 : list (string * os.node)) :
  (os.is_dir (fs w1) root = true -> root_entries self es1 w1) ->
  os.find name es1 = None ->
  staging_result es1 (downloaded w1) (stage_and_install w1).
Proof.
  intros Root name_free. unfold stage_and_install, bind at 1, mkdtemp.
  destruct (os.is_dir (fs w1) root) eqn:R; simpl; [|now left].
  destruct (Root eq_refl) as [t L].
  destruct (fresh_name _ _ _ _) as [[tmp rest]|] eqn:F; [|simpl; now left].
  destruct (fresh_name_spec _ _ _ _ _ _ F) as [Free [c Etmp]].
  assert (tmp_free : os.find tmp es1 = None).
  { unfold os.exists_ in Free. rewrite (lookup_child _ _ _ _ _ L) in Free.
    now destruct (os.find tmp es1). }
  assert (tmp_not_name : tmp <> name).
  { rewrite Etmp. simpl. intro H. symmetry in H. now apply str_not_hidden in H. }
  set (w2 := set_tmp_names
               (set_fs w1 (os.put (fs w1) root tmp (os.Dir (clock w1) []) (clock w1)))
               rest).
  assert (S : staged self es1 tmp w2).
  { exists (clock w1), (clock w1), []. unfold w2, os.put. simpl.
    rewrite (lookup_with_dir _ _ _ _ _ _ L). unfold os.put_entry.
    now rewrite tmp_free. }
  pose proof (hoare_conj _ _ _ _ _ _ _
                (staging_outcome self dataset_id es1 tmp tmp_free name_free tmp_not_name)
                (staging_logs self dataset_id tmp (downloaded w1))
                w2 (conj S eq_refl)) as H.
  unfold bind. fold root in H. fold name in H.
  destruct (try_cleanup _ _ w2) as [[u|e] w3]; simpl.
  - destruct H as [I D]. auto.
  - destruct H as [I D]. right. auto.
Qed.

Lemma fetch_hit (w : world) :
  cache.is_cached self (fs w) dataset_id = true ->
  cache.fetch self dataset_id w
  = (Return (ds_dir, false), set_fs w (os.touch (fs w) ds_dir (clock w))).
Proof.
  intro H. rewrite fetch_unfold. unfold bind, gets.
  unfold cache.is_cached in H. fold ds_dir in H. now rewrite H.
Qed.

Lemma fetch_miss (w : world) :
  cache.is_cached self (fs w) dataset_id = false ->
  staging_result (os.remove_entry name (os.iterdir (fs w) root)) (downloaded w)
    (cache.fetch self dataset_id w).
Proof.
  intro H. rewrite fetch_unfold. unfold bind at 1, gets at 1.
  unfold cache.is_cached in H. fold ds_dir in H. rewrite H.
  unfold bind at 1, gets at 1.
  destruct (os.exists_ (fs w) ds_dir) eqn:Stale.
  - unfold bind at 1, os_do, os.rmtree.
    destruct (os.is_dir (fs w) (root ++ [py.str dataset_id])) eqn:D;
      [|simpl; now left].
    unfold os.is_dir in D.
    destruct (os.lookup (fs w) (root ++ [py.str dataset_id])) as [n|] eqn:L;
      [|discriminate].
    destruct (lookup_child_inv _ _ _ _ L) as (t & es & Lr & F).
    apply (stage_and_install_spec
             (set_fs w (os.remove (fs w) root (py.str dataset_id) (clock w)))).
    + intros _. exists (clock w). unfold os.remove, os.iterdir. simpl.
      rewrite (lookup_with_dir _ _ _ _ _ _ Lr), Lr. reflexivity.
    + apply find_remove_same.
  - unfold bind at 1, ret at 1.
    apply (stage_and_install_spec w).
    + intro R. unfold os.is_dir in R. unfold os.iterdir.
      destruct (os.lookup (fs w) root) as [[s t|t es]|] eqn:Lr; try discriminate.
      exists t. fold root. rewrite remove_entry_absent; [exact Lr|].
      unfold os.exists_, ds_dir, cache._dataset_dir in Stale. fold root in Stale.
      rewrite (lookup_child _ _ _ _ _ Lr) in Stale.
      unfold name. now destruct (os.find (py.str dataset_id) es).
    + apply find_remove_same.
Qed.
End Fetch.

Lemma is_cached_lookup self fs dataset_id :
  cache.is_cached self fs dataset_id = true ->
  exists t e es,
    os.lookup fs (cache._dataset_dir self dataset_id) = Some (os.Dir t (e :: es)).
Proof.
  unfold cache.is_cached, cache.any_entry, os.is_dir, os.iterdir.
  destruct (os.lookup fs (cache._dataset_dir self dataset_id))
    as [[s t|t [|e es]]|]; simpl; try discriminate. eauto.
Qed.

Lemma lookup_is_cached self fs dataset_id t e es :
  os.lookup fs (cache._dataset_dir self dataset_id) = Some (os.Dir t (e :: es)) ->
  cache.is_cached self fs dataset_id = true.
Proof.
  intro L. unfold cache.is_cached, cache.any_entry, os.is_dir, os.iterdir.
  now rewrite L.
Qed.

(** With a canonical root, the empty subpath resolves to the dataset
    directory itself. *)
Lemma resolve_path_root self fs dataset_id :
  os.resolve (cache._root self) = cache._root self ->
  cache.resolve_path self fs dataset_id ""
  = if os.exists_ fs (cache._dataset_dir self dataset_id)
    then Some (cache._dataset_dir self dataset_id)
    else None.
Proof.
  intro Canon. unfold cache.resolve_path, os.joinpath. simpl.
  rewrite parse_empty, app_nil_r. unfold cache._dataset_dir.
  rewrite resolve_snoc by apply str_not_dotdot. rewrite Canon.
  unfold py.startswith. now rewrite prefix_refl.
Qed.


(** A remote side: dataset 5 arrives as a manifest and one experiment
    directory, dataset 6 with a child named like its experiment
    directory (the unwrap fails on it), dataset 8 is larger than the
    budget, dataset 9 is a manifest and nothing else, and every other
    download fails half way. *)
Definition a_remote (dataset_id : Z) : outcome :=
  if dataset_id =? 5 then
    Populated [("experiments.csv", os.File 120 90);
               ("exp", os.Dir 90 [("fid", os.File 4096 90);
                                  ("pdata", os.Dir 90 [("1r", os.File 2048 90)])])]
  else if dataset_id =? 6 then
    Populated [("exp", os.Dir 90 [("exp", os.File 1 90)])]
  else if dataset_id =? 8 then
    Populated [("exp", os.Dir 90 [("fid", os.File (5 * GB) 90)])]
  else if dataset_id =? 9 then
    Populated [("experiments.csv", os.File 120 90)]
  else Failed [("part", os.File 1 90)].


(** A failing unwrap is cleaned up like a failing download. *)
Example failed_unwrap_leaves_no_entry :
  let w := world_of two_datasets a_remote in
  exists w',
    cache.ensure_downloaded a_cache 6 w = (Raise OSError, w')
    /\ downloaded w' = [6]
    /\ os.iterdir (fs w') ["c"] = os.iterdir (fs w) ["c"].
Proof.
  cbv zeta.
  exists (snd (cache.ensure_downloaded a_cache 6 (world_of two_datasets a_remote))).
  split; [|split]; vm_compute; reflexivity.
Qed.


(** Dataset 8 is larger than the byte budget: the sweep that follows
    its install evicts it, and everything older.  [ensure_downloaded]
    returns the path of a directory that is gone, and neither accessor
    reports the entry. *)
Example oversized_entry_evicted_on_install :
  let w := world_of two_datasets a_remote in
  exists p w',
    cache.ensure_downloaded a_cache 8 w = (Return p, w')
    /\ cache.is_cached a_cache (fs w') 8 = false
    /\ cache.resolve_path a_cache (fs w') 8 "" = None
    /\ os.iterdir (fs w') ["c"] = [].
Proof.
  cbv zeta. exists ["c"; "8"].
  exists (snd (cache.ensure_downloaded a_cache 8 (world_of two_datasets a_remote))).
  split; [|split; [|split]]; vm_compute; reflexivity.
Qed.

(** ** Listings are built without exceptions, and built once *)

Lemma key_eqb_eq (a b : CategoryKey) : catalog.key_eqb a b = true <-> a = b.
Proof.
  destruct a as [x|x], b as [y|y]; simpl.
  - destruct x, y; simpl; split; intro H; try reflexivity; try discriminate.
  - split; discriminate.
  - split; discriminate.
  - rewrite String.eqb_eq. split; [now intros ->|now intros [= ->]].
Qed.

Section ListingRuns.
Variable isoformat_minutes : string -> option string.
Variable isoformat_epoch : string -> option Z.
Variable c : catalog.DatasetCatalog.

Let get_listing := catalog.get_listing isoformat_minutes isoformat_epoch c.
Let refresh := catalog.refresh isoformat_minutes isoformat_epoch c.

Lemma fetch_run (category : CategoryKey) (w : world) :
  exists found, catalog._fetch c category w = (Return found, w)
                /\ forall l, catalog._fetch c category (set_cache w l)
                             = (Return found, set_cache w l).
Proof.
  unfold catalog._fetch, catalog._build_config.
  destruct category as [[| | |]|n]; try (eexists; split; [reflexivity|reflexivity]).
  destruct (py.get String.eqb (catalog._custom_dirs c) n);
    eexists; split; reflexivity.
Qed.

Lemma build_listing_returns (category : CategoryKey) (found : list Dataset) (now : Z) :
  exists L,
    catalog.build_listing isoformat_minutes isoformat_epoch category found now
    = Return L
    /\ fetched_at L = now.
Proof.
  unfold catalog.build_listing.
  rewrite add_dataset_fold by (intros; now apply deduplicate_names_total).
  eexists. split; reflexivity.
Qed.

Lemma refresh_run (category : CategoryKey) (w : world) :
  exists L,
    refresh category w
    = (Return L, set_cache w (py.set catalog.key_eqb (_cache w) category L))
    /\ fetched_at L = clock w
    /\ forall l, refresh category (set_cache w l)
                 = (Return L, set_cache w (py.set catalog.key_eqb l category L)).
Proof.
  unfold refresh, catalog.refresh, bind.
  destruct (fetch_run category w) as (found & -> & Same).
  unfold gets at 1.
  destruct (build_listing_returns category found (clock w)) as (L & B & T).
  exists L. rewrite B. split; [reflexivity|]. split; [assumption|].
  intro l. rewrite Same. unfold gets. simpl. now rewrite B.
Qed.

(** [get_listing] returns a listing, and asked again at once it returns
    the same listing and changes nothing. *)
Lemma get_listing_run (category : CategoryKey) (w : world) :
  exists L w1,
    get_listing category w = (Return L, w1)
    /\ but_listings w1 = but_listings w
    /\ get_listing category w1 = (Return L, w1).
Proof.
  unfold get_listing, catalog.get_listing, bind, gets. fold refresh.
  destruct (py.get catalog.key_eqb (_cache w) category) as [cached|] eqn:G.
  - destruct (clock w - fetched_at cached <? catalog._ttl c) eqn:Fresh.
    + exists cached, w. simpl. rewrite G, Fresh. auto.
    + destruct (refresh_run category w) as (L & R & T & Again).
      exists L, (set_cache w (py.set catalog.key_eqb (_cache w) category L)).
      rewrite R. split; [reflexivity|]. split; [reflexivity|]. simpl.
      rewrite (get_set_same _ key_eqb_eq).
      destruct (clock w - fetched_at L <? catalog._ttl c); [reflexivity|].
      rewrite Again. f_equal. f_equal.
      apply set_get_id. apply (get_set_same _ key_eqb_eq).
  - destruct (refresh_run category w) as (L & R & T & Again).
    exists L, (set_cache w (py.set catalog.key_eqb (_cache w) category L)).
    rewrite R. split; [reflexivity|]. split; [reflexivity|]. simpl.
    rewrite (get_set_same _ key_eqb_eq).
    destruct (clock w - fetched_at L <? catalog._ttl c); [reflexivity|].
    rewrite Again. f_equal. f_equal.
    apply set_get_id. apply (get_set_same _ key_eqb_eq).
Qed.
End ListingRuns.

(** ** Which exceptions an operation can raise *)

Definition raises {A} (ok : exn -> Prop) (c : M A) : Prop :=
  hoare (fun _ => True) c (fun _ _ => True) (fun e _ => ok e).

Lemma raises_run {A} (ok : exn -> Prop) (c : M A) w e w' :
  raises ok c -> c w = (Raise e, w') -> ok e.
Proof. intros H E. specialize (H w I). now rewrite E in H. Qed.

Lemma raises_try_cleanup {A} (ok : exn -> Prop) (body : M A) (handler : M unit) :
  raises ok body -> raises ok handler -> raises ok (try_cleanup body handler).
Proof.
  intros Hb Hh w _. unfold try_cleanup. specialize (Hb w I).
  destruct (body w) as [[a|e] w']; [exact I|].
  specialize (Hh w' I). now destruct (handler w') as [[u|e'] w''].
Qed.

Section Raises.
Variable ok : exn -> Prop.
Hypothesis ok_os : ok OSError.
Hypothesis ok_download : ok DownloadError.
Hypothesis ok_key : ok KeyError.
Hypothesis ok_enoent : ok (FuseOSError ENOENT).

Ltac raises_leaf :=
  try solve [ intros; exact I
            | intros; assumption
            | intros ? _;
              repeat match goal with
                     | |- context [match ?x with _ => _ end] => destruct x
                     end; first [exact I | assumption] ].

Lemma os_do_raises op :
  (forall fs now e, op fs now = Raise e -> e = OSError) -> raises ok (os_do op).
Proof.
  intros H. apply hoare_os_do. intros w _.
  destruct (op (fs w) (clock w)) as [fs'|e] eqn:E; [exact I|].
  now rewrite (H _ _ _ E).
Qed.

Lemma rmtree_raises root n :
  raises ok (os_do (fun fs now => os.rmtree fs root n now)).
Proof.
  apply os_do_raises. intros fs now e. unfold os.rmtree.
  destruct (os.is_dir fs (root ++ [n])); [discriminate|now intros [= <-]].
Qed.

Lemma rename_raises sdir sname ddir dname :
  raises ok (os_do (fun fs now => os.rename fs sdir sname ddir dname now)).
Proof.
  apply os_do_raises. intros fs now e. unfold os.rename.
  repeat match goal with
         | |- context [match ?x with _ => _ end] => destruct x
         end; try discriminate; now intros [= <-].
Qed.

Lemma unwrap_raises p : raises ok (cache._unwrap p).
Proof.
  unfold cache._unwrap, raises.
  repeat (lazymatch goal with
          | |- hoare _ (os_do _) _ _ => apply os_do_raises
          | _ => hoare_step
          end); raises_leaf.
  - intros fs now e. unfold os.unlink.
    destruct (os.is_file fs _); [discriminate|now intros [= <-]].
  - intros fs now e. unfold os.rename.
    repeat match goal with
           | |- context [match ?x with _ => _ end] => destruct x
           end; try discriminate; now intros [= <-].
  - intros fs now e. unfold os.rmdir.
    repeat match goal with
           | |- context [match ?x with _ => _ end] => destruct x
           end; try discriminate; now intros [= <-].
Qed.

Lemma evict_raises self : raises ok (cache._evict_if_needed self).
Proof.
  unfold cache._evict_if_needed, raises.
  apply hoare_bind_inv; [hoare_step; raises_leaf|intros [|]]; cbn [negb];
    [|hoare_step; raises_leaf].
  apply hoare_bind_inv; [hoare_step; raises_leaf|intro entries].
  destruct (_ <=? _); [hoare_step; raises_leaf|].
  generalize (fold_right Z.add 0 (map (fun e => snd (fst e)) entries)).
  induction (cache.sort_by_mtime entries) as [|[[m s] n] rest IH]; intro total; simpl.
  - hoare_step. raises_leaf.
  - destruct (total <=? cache._max_bytes self); [hoare_step; raises_leaf|].
    apply hoare_bind_inv; [apply rmtree_raises|intros _; apply IH].
Qed.

Lemma ensure_downloaded_raises self dataset_id :
  raises ok (cache.ensure_downloaded self dataset_id).
Proof.
  unfold cache.ensure_downloaded, raises.
  apply hoare_bind_inv.
  - rewrite fetch_unfold. unfold stage_and_install.
    repeat (lazymatch goal with
            | |- hoare _ (os_do _) _ _ =>
                first [apply rmtree_raises | apply rename_raises]
            | |- hoare _ (try_cleanup _ _) _ _ => apply raises_try_cleanup
            | |- hoare _ (mkdtemp _ _) _ _ =>
                intros w _; unfold mkdtemp;
                destruct (negb _); [exact ok_os|];
                destruct (fresh_name _ _ _ _) as [[? ?]|]; [exact I|exact ok_os]
            | |- hoare _ (client_download _ _) _ _ =>
                intros w _; unfold client_download;
                destruct (download _ _); [exact I|exact ok_download]
            | |- hoare _ (cache._unwrap _) _ _ => apply unwrap_raises
            | |- raises _ _ => unfold raises
            | _ => hoare_step
            end); raises_leaf.
  - intros [p installed]. destruct installed.
    + apply hoare_bind_inv; [apply evict_raises|intros _; hoare_step; raises_leaf].
    + hoare_step. raises_leaf.
Qed.

Section CatalogRaises.
Variable isoformat_minutes : string -> option string.
Variable isoformat_epoch : string -> option Z.

Lemma get_listing_raises c category :
  raises ok (catalog.get_listing isoformat_minutes isoformat_epoch c category).
Proof.
  intros w _.
  destruct (get_listing_run isoformat_minutes isoformat_epoch c category w)
    as (L & w1 & -> & _). exact I.
Qed.
End CatalogRaises.
End Raises.

(** ** Paths and what they name *)

Section Paths.
Variable isoformat_minutes : string -> option string.
Variable isoformat_epoch : string -> option Z.
Variable self : fuse.NMRHubFS.

Let getattr := fuse.getattr isoformat_minutes isoformat_epoch self.
Let readdir := fuse.readdir isoformat_minutes isoformat_epoch self.
Let open := fuse.open isoformat_minutes isoformat_epoch self.
Let open_real := fuse.open_real self.
Let _download := fuse._download self.
Let _parse_path := fuse._parse_path self.
Let listing_of := fuse.listing_of isoformat_minutes isoformat_epoch self.
Let _resolve_dataset_id :=
  fuse._resolve_dataset_id isoformat_minutes isoformat_epoch self.
Let _resolve_version_id :=
  fuse._resolve_version_id isoformat_minutes isoformat_epoch self.
Let the_cache := fuse._cache self.

(** The paths that are directories by the grammar alone: the root, a
    category, a dataset folder, and a version folder of the Published
    category. *)
Definition directory_shaped (path : string) (w : world) : Prop :=
  exists category dataset_name subpath,
    _parse_path path w = (Return (category, dataset_name, subpath), w)
    /\ (category = None \/ dataset_name = None \/ subpath = None
        \/ (category = Some (fuse.Key (Builtin PUBLISHED))
            /\ exists sub label,
                 subpath = Some sub /\ py.split1 "/"%char sub = (label, None))).

(** The path reaches into the content of dataset [i], at [inner]: below
    a listed dataset folder of an available category, and for the
    Published category below one of its version labels. *)
Definition names_content (path : string) (w : world) (i : Z) (inner : string)
    : Prop :=
  exists key dataset_name subpath,
    _parse_path path w = (Return (Some (fuse.Key key), Some dataset_name, Some subpath), w)
    /\ fuse.in_categories (fuse.Key key) (categories self w) = true
    /\ ((fuse.is_published (fuse.Key key) = false
         /\ inner = subpath
         /\ fst (_resolve_dataset_id key dataset_name w) = Return i)
        \/ (fuse.is_published (fuse.Key key) = true
            /\ (exists j, fst (_resolve_dataset_id key dataset_name w) = Return j)
            /\ exists label,
                 py.split1 "/"%char subpath = (label, Some inner)
                 /\ fst (_resolve_version_id dataset_name label w) = Return i)).

Lemma is_published_key key :
  fuse.is_published (fuse.Key key) = true -> key = Builtin PUBLISHED.
Proof. destruct key as [[| | |]|n]; simpl; congruence. Qed.

Lemma listing_of_run category w :
  exists L w1,
    listing_of category w = (Return L, w1)
    /\ but_listings w1 = but_listings w
    /\ listing_of category w1 = (Return L, w1).
Proof. apply get_listing_run. Qed.

(** Resolving a folder name after the listing was taken is resolving it
    in that listing. *)
Lemma resolve_dataset_id_via category dataset_name w L w1 :
  listing_of category w = (Return L, w1) ->
  _resolve_dataset_id category dataset_name w
  = (match py.get String.eqb (folder_lookup L) dataset_name with
     | Some d => Return (id d)
     | None => Raise (FuseOSError ENOENT)
     end, w1)
  /\ _resolve_dataset_id category dataset_name w1
     = _resolve_dataset_id category dataset_name w.
Proof.
  intro H.
  destruct (listing_of_run category w) as (L' & w1' & H' & _ & Again).
  rewrite H in H'. injection H' as <- <-.
  unfold _resolve_dataset_id, fuse._resolve_dataset_id,
    catalog.get_dataset_by_folder_name, bind.
  unfold listing_of, fuse.listing_of in H, Again. rewrite H, Again.
  unfold ret. split; now destruct (py.get String.eqb (folder_lookup L) dataset_name).
Qed.

Lemma resolve_version_id_via dataset_name label w L w1 :
  listing_of (Builtin PUBLISHED) w = (Return L, w1) ->
  _resolve_version_id dataset_name label w
  = (match py.get String.eqb (version_map L) dataset_name with
     | Some versions =>
         match py.get String.eqb versions label with
         | Some i => Return i
         | None => Raise (FuseOSError ENOENT)
         end
     | None => Raise (FuseOSError ENOENT)
     end, w1)
  /\ _resolve_version_id dataset_name label w1
     = _resolve_version_id dataset_name label w.
Proof.
  intro H.
  destruct (listing_of_run (Builtin PUBLISHED) w) as (L' & w1' & H' & _ & Again).
  rewrite H in H'. injection H' as <- <-.
  unfold _resolve_version_id, fuse._resolve_version_id, bind.
  unfold listing_of in H, Again. rewrite H, Again.
  split; destruct (py.get String.eqb (version_map L) dataset_name) as [vs|];
    try reflexivity; now destruct (py.get String.eqb vs label).
Qed.

Lemma download_raises ok i :
  ok OSError -> ok DownloadError -> raises ok (_download i).
Proof.
  intros ok_os ok_dl. unfold _download, fuse._download.
  apply hoare_bind_inv; [now apply ensure_downloaded_raises|].
  intros _. hoare_step. intros; exact I.
Qed.

Lemma open_real_raises i inner :
  raises (fun e => e <> FuseOSError EISDIR) (open_real i inner).
Proof.
  unfold open_real, fuse.open_real, fuse.os_open.
  apply hoare_bind_inv; [apply download_raises; discriminate|intros _].
  repeat hoare_step; try solve [intros; exact I]; intros; discriminate.
Qed.

Lemma open_real_returns i inner w1 fh w' :
  open_real i inner w1 = (Return fh, w') ->
  exists real,
    cache.resolve_path the_cache (fs w') i inner = Some real
    /\ os.is_file (fs w') real = true.
Proof.
  unfold open_real, fuse.open_real. unfold bind at 1.
  destruct (fuse._download self i w1) as [[u|e] w2]; [|discriminate].
  unfold bind at 1, gets at 1. fold the_cache.
  destruct (cache.resolve_path the_cache (fs w2) i inner) as [real|] eqn:R;
    [|discriminate].
  unfold bind at 1, gets at 1.
  destruct (os.is_dir (fs w2) real); [discriminate|].
  unfold fuse.os_open, bind, gets, modify, ret.
  destruct (os.lookup (fs w2) real) as [[s t|t es]|] eqn:L; try discriminate.
  intros [= <- <-]. simpl. exists real. split; [assumption|].
  unfold os.is_file. now rewrite L.
Qed.

(** Of a cached dataset, [open] refuses a directory with [ENOENT]. *)
Lemma open_real_cached_dir i inner w1 r w' real :
  cache.is_cached the_cache (fs w1) i = true ->
  open_real i inner w1 = (r, w') ->
  cache.resolve_path the_cache (fs w') i inner = Some real ->
  os.is_dir (fs w') real = true ->
  r = Raise (FuseOSError ENOENT).
Proof.
  intro C. unfold open_real, fuse.open_real, fuse._download,
    cache.ensure_downloaded.
  unfold bind at 1 2 3. fold the_cache. rewrite (fetch_hit _ _ _ C).
  unfold ret at 1 2. unfold bind at 1, gets at 1.
  remember (set_fs w1 _) as w2 eqn:Ew2. clear Ew2.
  destruct (cache.resolve_path the_cache (fs w2) i inner) as [real'|] eqn:R.
  2:{ now intros [= <- <-]. }
  unfold bind at 1, gets at 1.
  destruct (os.is_dir (fs w2) real') eqn:D; [now intros [= <- <-]|].
  unfold fuse.os_open, bind, gets, modify, ret, raise.
  destruct (os.lookup (fs w2) real') as [[s t|t es]|] eqn:L;
    intros [= <- <-]; simpl; intros R' D'; rewrite R in R';
    injection R' as <-; congruence.
Qed.
End Paths.

(** ** C9: [open] on directories *)

Section Open.
Variable isoformat_minutes : string -> option string.
Variable isoformat_epoch : string -> option Z.
Variable self : fuse.NMRHubFS.

Let open := fuse.open isoformat_minutes isoformat_epoch self.
Let names_content := names_content isoformat_minutes isoformat_epoch self.

Lemma open_directory_shaped path flags w :
  directory_shaped self path w ->
  open path flags w = (Raise (FuseOSError EISDIR), w).
Proof.
  intros (category & dataset_name & subpath & P & Shape).
  unfold open, fuse.open. unfold bind at 1. rewrite P.
  destruct category as [category|]; [|reflexivity].
  destruct dataset_name as [dataset_name|]; [|reflexivity].
  destruct subpath as [subpath|]; [|reflexivity].
  destruct Shape as [H|[H|[H|(E & sub & label & Es & Split)]]]; try discriminate.
  injection E as ->. injection Es as <-.
  unfold bind. rewrite available_categories_run, published_available. simpl.
  now rewrite Split.
Qed.

Lemma open_eisdir_shaped path flags w w' :
  open path flags w = (Raise (FuseOSError EISDIR), w') ->
  directory_shaped self path w.
Proof.
  destruct (parse_path_run self path w) as [[[category dataset_name] subpath] P].
  intro H. exists category, dataset_name, subpath. split; [exact P|].
  destruct category as [category|]; [|now left].
  destruct dataset_name as [dataset_name|]; [|right; now left].
  destruct subpath as [subpath|]; [|right; right; now left].
  right. right. right.
  unfold open, fuse.open in H. unfold bind at 1 in H. rewrite P in H.
  unfold bind at 1 in H. rewrite available_categories_run in H.
  destruct (fuse.in_categories category (categories self w)); [|discriminate].
  simpl in H. destruct category as [|key]; [discriminate|].
  destruct (fuse.is_published (fuse.Key key)) eqn:Pub.
  - apply is_published_key in Pub. subst key. split; [reflexivity|].
    destruct (py.split1 "/" subpath) as [label [inner|]] eqn:Split.
    + exfalso.
      assert (R : raises (fun e => e <> FuseOSError EISDIR)
                    (ds_id <- fuse._resolve_version_id isoformat_minutes
                                isoformat_epoch self dataset_name label ;;
                     fuse.open_real self ds_id inner)).
      { apply hoare_bind_inv; [|intro; apply open_real_raises].
        unfold fuse._resolve_version_id.
        apply hoare_bind_inv; [apply get_listing_raises|intro L].
        repeat hoare_step; try solve [intros; exact I]; intros; discriminate. }
      now apply (raises_run _ _ _ _ _ R H).
    + exists subpath, label. auto.
  - exfalso.
    assert (R : raises (fun e => e <> FuseOSError EISDIR)
                  (ds_id <- fuse._resolve_dataset_id isoformat_minutes
                              isoformat_epoch self key dataset_name ;;
                   fuse.open_real self ds_id subpath)).
    { apply hoare_bind_inv; [|intro; apply open_real_raises].
      unfold fuse._resolve_dataset_id, catalog.get_dataset_by_folder_name.
      apply hoare_bind_inv.
      - apply hoare_bind_inv; [apply get_listing_raises|intro L].
        hoare_step. intros; exact I.
      - intro d. repeat hoare_step; try solve [intros; exact I]; intros; discriminate. }
    now apply (raises_run _ _ _ _ _ R H).
Qed.

(** C9, as the code has it.  [open] raises [EISDIR], changing nothing,
    on every path that is a directory by its shape: the root, a
    category, a dataset folder, a Published version folder; and on no
    other path.  A deeper path of a cached dataset whose real path is a
    directory is refused with [ENOENT].  [open] returns a handle only
    for a path with a non-empty rest whose real path is a regular
    file. *)
Theorem open_rejects_directories (path : string) (flags : Z) (w : world) :
  (directory_shaped self path w ->
   open path flags w = (Raise (FuseOSError EISDIR), w))
  /\ (forall w', open path flags w = (Raise (FuseOSError EISDIR), w') ->
                 directory_shaped self path w)
  /\ (forall i inner real r w',
        names_content path w i inner ->
        cache.is_cached (fuse._cache self) (fs w) i = true ->
        open path flags w = (r, w') ->
        cache.resolve_path (fuse._cache self) (fs w') i inner = Some real ->
        os.is_dir (fs w') real = true ->
        r = Raise (FuseOSError ENOENT))
  /\ (forall fh w',
        open path flags w = (Return fh, w') ->
        exists category dataset_name subpath i inner real,
          fuse._parse_path self path w
          = (Return (Some category, Some dataset_name, Some subpath), w)
          /\ (inner = subpath
              \/ exists label, py.split1 "/"%char subpath = (label, Some inner))
          /\ cache.resolve_path (fuse._cache self) (fs w') i inner = Some real
          /\ os.is_file (fs w') real = true).
Proof.
  split; [apply open_directory_shaped|]. split; [apply open_eisdir_shaped|]. split.
  - intros i inner real r w' (key & dataset_name & subpath & P & In & Which) C H R D.
    unfold open, fuse.open in H. unfold bind at 1 in H. rewrite P in H.
    unfold bind at 1 in H. rewrite available_categories_run, In in H.
    cbn [negb] in H.
    destruct Which as [(Pub & -> & Id)|(Pub & _ & label & Split & Id)];
      rewrite Pub in H.
    + unfold bind at 1 in H.
      pose proof (keeps_run but_listings _ w
                    (resolve_dataset_id_keeps isoformat_minutes isoformat_epoch
                       self key dataset_name)) as K.
      destruct (fuse._resolve_dataset_id _ _ _ _ _ w) as [r1 w1].
      simpl in Id, K. subst r1.
      apply (open_real_cached_dir self i subpath w1 r w' real); try assumption.
      replace (fs w1) with (fs w); [assumption|].
      now apply (f_equal fs) in K.
    + rewrite Split in H. unfold bind at 1 in H.
      pose proof (keeps_run but_listings _ w
                    (resolve_version_id_keeps isoformat_minutes isoformat_epoch
                       self dataset_name label)) as K.
      destruct (fuse._resolve_version_id _ _ _ _ _ w) as [r1 w1].
      simpl in Id, K. subst r1.
      apply (open_real_cached_dir self i inner w1 r w' real); try assumption.
      replace (fs w1) with (fs w); [assumption|].
      now apply (f_equal fs) in K.
  - intros fh w' H.
    destruct (parse_path_run self path w) as [[[category dataset_name] subpath] P].
    unfold open, fuse.open in H. unfold bind at 1 in H. rewrite P in H.
    destruct category as [category|]; [|discriminate].
    destruct dataset_name as [dataset_name|]; [|discriminate].
    destruct subpath as [subpath|]; [|discriminate].
    exists category, dataset_name, subpath.
    unfold bind at 1 in H. rewrite available_categories_run in H.
    destruct (fuse.in_categories category (categories self w)); [|discriminate].
    simpl in H. destruct category as [|key]; [discriminate|].
    destruct (fuse.is_published (fuse.Key key)).
    + destruct (py.split1 "/" subpath) as [label [inner|]] eqn:Split;
        [|discriminate].
      unfold bind at 1 in H.
      destruct (fuse._resolve_version_id _ _ _ _ _ w) as [[i|e] w1]; [|discriminate].
      destruct (open_real_returns self i inner w1 fh w' H) as (real & R & F).
      exists i, inner, real. split; [exact P|]. split; [right; now exists label|].
      now split.
    + unfold bind at 1 in H.
      destruct (fuse._resolve_dataset_id _ _ _ _ _ w) as [[i|e] w1]; [|discriminate].
      destruct (open_real_returns self i subpath w1 fh w' H) as (real & R & F).
      exists i, subpath, real. split; [exact P|]. split; [now left|]. now split.
Qed.
End Open.

(** A mounted file system over the example catalog and cache. *)
Definition a_mount : fuse.NMRHubFS := fuse.mkNMRHubFS a_catalog a_cache 50.

(** Dataset 5, listed as [A], cached with a file and a directory. *)
Definition cached_tree : os.node :=
  os.Dir 0
    [("c", os.Dir 0
       [("5", os.Dir 90 [("fid", os.File 4096 90);
                         ("pdata", os.Dir 90 [("1r", os.File 2048 90)])])])].

(** A world in which every search finds the datasets [found]. *)
Definition world_with (tree : os.node) (found : list Dataset) : world :=
  mkWorld tree 100 ["k3"; "x7"] []
          (mkClient false (fun _ => found) a_remote) [] [] [] 1.

Definition dataset_A : Dataset := mkDataset 5 (Some "A") None None.

(** C9 as stated fails: the real path of [/Public Datasets/A/pdata] is
    a directory of the cache, and [open] refuses it with [ENOENT], not
    with [EISDIR]. *)
Lemma open_cached_directory_not_found :
  let w := world_with cached_tree [dataset_A] in
  exists real w',
    cache.resolve_path a_cache (fs w) 5 "pdata" = Some real
    /\ os.is_dir (fs w) real = true
    /\ fuse.open no_datetime no_datetime a_mount "/Public Datasets/A/pdata" 0 w
       = (Raise (FuseOSError ENOENT), w').
Proof.
  cbv zeta. exists ["c"; "5"; "pdata"].
  exists (snd (fuse.open no_datetime no_datetime a_mount "/Public Datasets/A/pdata" 0
                 (world_with cached_tree [dataset_A]))).
  split; [|split]; vm_compute; reflexivity.
Qed.

Lemma open_rejects_directories_witness :
  let w := world_with cached_tree [dataset_A] in
  fuse.open no_datetime no_datetime a_mount "/Public Datasets/A" 0 w
  = (Raise (FuseOSError EISDIR), w)
  /\ (exists category dataset_name subpath i inner real,
        fuse._parse_path a_mount "/Public Datasets/A/fid" w
        = (Return (Some category, Some dataset_name, Some subpath), w)
        /\ (inner = subpath
            \/ exists label, py.split1 "/"%char subpath = (label, Some inner))
        /\ cache.resolve_path a_cache
             (fs (snd (fuse.open no_datetime no_datetime a_mount
                         "/Public Datasets/A/fid" 0 w))) i inner = Some real
        /\ os.is_file
             (fs (snd (fuse.open no_datetime no_datetime a_mount
                         "/Public Datasets/A/fid" 0 w))) real = true).
Proof.
  cbv zeta. split.
  - apply (proj1 (open_rejects_directories no_datetime no_datetime a_mount
                    "/Public Datasets/A" 0 (world_with cached_tree [dataset_A]))).
    exists (Some (fuse.Key (Builtin PUBLIC))), (Some "A"), None.
    split; [reflexivity|]. right. right. now left.
  - apply (proj2 (proj2 (proj2
             (open_rejects_directories no_datetime no_datetime a_mount
                "/Public Datasets/A/fid" 0 (world_with cached_tree [dataset_A]))))
             1).
    vm_compute. reflexivity.
Defined.

(** ** C5: what triggers a download *)

Lemma resolve_path_absent self fs i inner :
  os.exists_ fs (cache._dataset_dir self i) = false ->
  within (cache._dataset_dir self i)
         (os.resolve (os.joinpath (cache._dataset_dir self i) inner)) ->
  cache.resolve_path self fs i inner = None.
Proof.
  intros Absent [rest E]. unfold cache.resolve_path.
  destruct (negb _); [reflexivity|].
  rewrite E. unfold os.exists_ in *. rewrite lookup_app.
  now destruct (os.lookup fs (cache._dataset_dir self i)).
Qed.

Lemma resolve_app_normal (p q : list string) :
  ~ In ".." q -> os.resolve (p ++ q) = os.resolve p ++ q.
Proof.
  intro N. induction q as [|c q IH] using rev_ind.
  - now rewrite !app_nil_r.
  - rewrite app_assoc, resolve_snoc, IH, <- app_assoc; try reflexivity.
    + intro I. apply N. apply in_or_app. now left.
    + intros ->. apply N. apply in_or_app. right. now left.
Qed.

(** A relative subpath without a [..] component stays inside the
    dataset directory; such are the paths the kernel hands to a file
    system. *)
Lemma within_without_dotdot self i inner :
  os.resolve (cache._root self) = cache._root self ->
  py.startswith inner "/" = false ->
  ~ In ".." (os.parse inner) ->
  within (cache._dataset_dir self i)
         (os.resolve (os.joinpath (cache._dataset_dir self i) inner)).
Proof.
  intros Canon Rel Normal. exists (os.parse inner).
  unfold os.joinpath. rewrite Rel, resolve_app_normal by assumption.
  f_equal. unfold cache._dataset_dir.
  rewrite resolve_snoc by apply str_not_dotdot. now rewrite Canon.
Qed.

(** A dataset without a directory in the cache is downloaded by
    [ensure_downloaded], once, whether the download succeeds or not,
    provided the root exists and [mkdtemp] finds a free name. *)
Lemma ensure_downloaded_logs self i w :
  os.exists_ (fs w) (cache._dataset_dir self i) = false ->
  os.is_dir (fs w) (cache._root self) = true ->
  fresh_name (fs w) (cache._root self) (".dl-" ++ py.str i ++ "-") (tmp_names w)
  <> None ->
  downloaded (snd (cache.ensure_downloaded self i w)) = downloaded w ++ [i].
Proof.
  intros Absent Root Fresh.
  unfold cache.ensure_downloaded. unfold bind at 1. rewrite fetch_unfold.
  unfold bind at 1, gets at 1.
  assert (Nd : os.is_dir (fs w) (cache._dataset_dir self i) = false).
  { unfold os.is_dir, os.exists_ in *.
    now destruct (os.lookup (fs w) (cache._dataset_dir self i)). }
  rewrite Nd. cbn [andb]. unfold bind at 1, gets at 1. rewrite Absent.
  unfold bind at 1, ret at 1. unfold stage_and_install.
  unfold bind at 1, mkdtemp. rewrite Root. cbn [negb].
  destruct (fresh_name _ _ _ _) as [[tmp rest]|]; [|contradiction].
  set (w2 := set_tmp_names _ rest).
  pose proof (staging_logs self i tmp (downloaded w) w2 eq_refl) as H.
  cbv zeta in H. unfold bind at 1.
  destruct (try_cleanup _ _ w2) as [[u|e] w3]; [|exact H].
  unfold ret at 1.
  pose proof (keeps_run downloaded _ w3 (evict_keeps _ downloaded_blind self)) as K.
  unfold bind. destruct (cache._evict_if_needed self w3) as [[u'|e'] w4];
    simpl in *; congruence.
Qed.

Section Triggers.
Variable isoformat_minutes : string -> option string.
Variable isoformat_epoch : string -> option Z.
Variable self : fuse.NMRHubFS.

Let getattr := fuse.getattr isoformat_minutes isoformat_epoch self.
Let readdir := fuse.readdir isoformat_minutes isoformat_epoch self.
Let open := fuse.open isoformat_minutes isoformat_epoch self.
Let names_content := names_content isoformat_minutes isoformat_epoch self.
Let the_cache := fuse._cache self.

(** The dataset [i] was never downloaded, and can be: it has no
    directory under the cache root, the root is there, and [mkdtemp]
    has a free name to give. *)
Definition downloadable (w : world) (i : Z) : Prop :=
  os.exists_ (fs w) (cache._dataset_dir the_cache i) = false
  /\ os.is_dir (fs w) (cache._root the_cache) = true
  /\ fresh_name (fs w) (cache._root the_cache) (".dl-" ++ py.str i ++ "-")
       (tmp_names w) <> None.

Lemma downloadable_but_listings w w1 i :
  but_listings w1 = but_listings w -> downloadable w i -> downloadable w1 i.
Proof.
  intros K (A & R & F). unfold downloadable.
  assert (Ef : fs w1 = fs w) by now apply (f_equal fs) in K.
  assert (Et : tmp_names w1 = tmp_names w) by now apply (f_equal tmp_names) in K.
  now rewrite Ef, Et.
Qed.

Lemma download_logs i w :
  downloadable w i ->
  downloaded (snd (fuse._download self i w)) = downloaded w ++ [i].
Proof.
  intros (A & R & F). unfold fuse._download. fold the_cache.
  pose proof (ensure_downloaded_logs the_cache i w A R F) as H.
  unfold bind. now destruct (cache.ensure_downloaded the_cache i w) as [[p|e] w'].
Qed.

Lemma open_real_logs i inner w :
  downloadable w i ->
  downloaded (snd (fuse.open_real self i inner w)) = downloaded w ++ [i].
Proof.
  intro D. pose proof (download_logs i w D) as H.
  unfold fuse.open_real. unfold bind at 1.
  destruct (fuse._download self i w) as [[u|e] w2]; [|exact H].
  simpl in H. rewrite <- H.
  apply (keeps_run downloaded). intro x. unfold fuse.os_open.
  repeat hoare_step; keeps_leaf.
Qed.

Lemma list_after_download_logs i inner w :
  downloadable w i ->
  downloaded
    (snd ((fuse._download self i ;;;
           children <- gets (fun w => cache.list_entries the_cache (fs w) i inner) ;;
           ret (["."; ".."] ++ children)) w))
  = downloaded w ++ [i].
Proof.
  intro D. pose proof (download_logs i w D) as H.
  unfold bind at 1.
  destruct (fuse._download self i w) as [[u|e] w2]; [|exact H].
  exact H.
Qed.

Lemma getattr_not_found path w i inner :
  names_content path w i inner ->
  os.exists_ (fs w) (cache._dataset_dir the_cache i) = false ->
  within (cache._dataset_dir the_cache i)
         (os.resolve (os.joinpath (cache._dataset_dir the_cache i) inner)) ->
  fst (getattr path w) = Raise (FuseOSError ENOENT).
Proof.
  intros (key & dataset_name & subpath & P & In & Which) Absent Inside.
  unfold getattr, fuse.getattr. unfold bind at 1. rewrite P.
  cbv beta iota. unfold bind at 1. rewrite available_categories_run, In.
  cbn [negb]. unfold bind at 1.
  destruct (listing_of_run isoformat_minutes isoformat_epoch self key w)
    as (L & w1 & EL & K & _).
  rewrite EL.
  destruct (negb (py.contains String.eqb (folder_lookup L) dataset_name));
    [reflexivity|].
  assert (Ef : fs w1 = fs w) by now apply (f_equal fs) in K.
  destruct Which as [(Pub & -> & Id)|(Pub & _ & label & Split & Id)]; rewrite Pub.
  - destruct (resolve_dataset_id_via isoformat_minutes isoformat_epoch self
                key dataset_name w L w1 EL) as [At Again].
    unfold bind at 1. rewrite Again, At. rewrite At in Id. simpl in Id.
    rewrite Id. unfold bind at 1, gets at 1. fold the_cache.
    rewrite Ef, (resolve_path_absent _ _ _ _ Absent Inside). reflexivity.
  - rewrite Split.
    destruct (negb (py.contains String.eqb (fuse.listed_versions L dataset_name) label));
      [reflexivity|].
    apply is_published_key in Pub. subst key.
    destruct (resolve_version_id_via isoformat_minutes isoformat_epoch self
                dataset_name label w L w1 EL) as [At Again].
    unfold bind at 1. rewrite Again, At. rewrite At in Id. simpl in Id.
    rewrite Id. unfold bind at 1, gets at 1. fold the_cache.
    rewrite Ef, (resolve_path_absent _ _ _ _ Absent Inside). reflexivity.
Qed.

Lemma open_logs path flags w i inner :
  names_content path w i inner -> downloadable w i ->
  downloaded (snd (open path flags w)) = downloaded w ++ [i].
Proof.
  intros (key & dataset_name & subpath & P & In & Which) D.
  unfold open, fuse.open. unfold bind at 1. rewrite P.
  unfold bind at 1. rewrite available_categories_run, In. cbn [negb].
  destruct Which as [(Pub & -> & Id)|(Pub & _ & label & Split & Id)]; rewrite Pub.
  - unfold bind at 1.
    pose proof (keeps_run but_listings _ w
                  (resolve_dataset_id_keeps isoformat_minutes isoformat_epoch
                     self key dataset_name)) as K.
    destruct (fuse._resolve_dataset_id _ _ _ _ _ w) as [r1 w1].
    simpl in Id, K. subst r1.
    rewrite (open_real_logs i subpath w1 (downloadable_but_listings _ _ _ K D)).
    now apply (f_equal downloaded) in K; simpl in K; rewrite K.
  - rewrite Split. unfold bind at 1.
    pose proof (keeps_run but_listings _ w
                  (resolve_version_id_keeps isoformat_minutes isoformat_epoch
                     self dataset_name label)) as K.
    destruct (fuse._resolve_version_id _ _ _ _ _ w) as [r1 w1].
    simpl in Id, K. subst r1.
    rewrite (open_real_logs i inner w1 (downloadable_but_listings _ _ _ K D)).
    now apply (f_equal downloaded) in K; simpl in K; rewrite K.
Qed.

Lemma readdir_logs path fh w i inner :
  names_content path w i inner -> downloadable w i ->
  downloaded (snd (readdir path fh w)) = downloaded w ++ [i].
Proof.
  intros (key & dataset_name & subpath & P & In & Which) D.
  unfold readdir, fuse.readdir. unfold bind at 1. rewrite P.
  cbv beta iota. unfold bind at 1. rewrite available_categories_run, In.
  cbn [negb].
  destruct Which as [(Pub & -> & Id)|(Pub & [j Listed] & label & Split & Id)];
    rewrite Pub.
  - unfold bind at 1.
    pose proof (keeps_run but_listings _ w
                  (resolve_dataset_id_keeps isoformat_minutes isoformat_epoch
                     self key dataset_name)) as K.
    destruct (fuse._resolve_dataset_id _ _ _ _ _ w) as [r1 w1].
    simpl in Id, K. subst r1. fold the_cache.
    rewrite (list_after_download_logs i subpath w1
               (downloadable_but_listings _ _ _ K D)).
    now apply (f_equal downloaded) in K; simpl in K; rewrite K.
  - unfold bind at 1.
    destruct (listing_of_run isoformat_minutes isoformat_epoch self key w)
      as (L & w1 & EL & K & _).
    rewrite EL.
    destruct (resolve_dataset_id_via isoformat_minutes isoformat_epoch self
                key dataset_name w L w1 EL) as [AtD _].
    rewrite AtD in Listed. simpl in Listed. unfold py.contains.
    destruct (py.get String.eqb (folder_lookup L) dataset_name); [|discriminate].
    cbn [negb]. rewrite Split.
    apply is_published_key in Pub. subst key.
    destruct (resolve_version_id_via isoformat_minutes isoformat_epoch self
                dataset_name label w L w1 EL) as [At Again].
    unfold bind at 1. rewrite Again, At. rewrite At in Id. simpl in Id.
    rewrite Id. fold the_cache.
    rewrite (list_after_download_logs i inner w1
               (downloadable_but_listings _ _ _ K D)).
    now apply (f_equal downloaded) in K; simpl in K; rewrite K.
Qed.

(** Listing the root, a category, or a Published dataset folder touches
    the listings only. *)
Lemma readdir_above_content path fh w category dataset_name :
  fuse._parse_path self path w = (Return (category, dataset_name, None), w) ->
  dataset_name = None \/ category = Some (fuse.Key (Builtin PUBLISHED)) ->
  but_listings (snd (readdir path fh w)) = but_listings w.
Proof.
  intros P Above. unfold readdir, fuse.readdir. unfold bind at 1. rewrite P.
  cbv beta iota.
  destruct category as [category|]; [|reflexivity].
  unfold bind at 1. rewrite available_categories_run.
  destruct (fuse.in_categories category (categories self w)); [|reflexivity].
  cbn [negb]. destruct category as [|key]; [reflexivity|].
  assert (KL : forall k,
    but_listings (snd (fuse.listing_of isoformat_minutes isoformat_epoch self k w))
    = but_listings w)
    by (intro k; apply keeps_run, listing_of_keeps).
  destruct dataset_name as [dataset_name|].
  - destruct Above as [E|E]; [discriminate|]. injection E as ->.
    cbn [fuse.is_published]. unfold bind at 1. specialize (KL (Builtin PUBLISHED)).
    destruct (fuse.listing_of _ _ _ _ w) as [[L|e] w1]; [|exact KL].
    now destruct (negb _).
  - unfold bind at 1. specialize (KL key).
    destruct (fuse.listing_of _ _ _ _ w) as [[L|e] w1]; exact KL.
Qed.

Lemma read_keeps path size offset fh :
  keeps but_listings (fuse.read path size offset fh).
Proof. intro x. unfold fuse.read. repeat hoare_step; keeps_leaf. Qed.
End Triggers.

Lemma cache_state_but_listings (w w1 : world) :
  but_listings w1 = but_listings w -> cache_state w1 = cache_state w.
Proof.
  intro K. unfold cache_state.
  assert (Ef : fs w1 = fs w) by now apply (f_equal fs) in K.
  assert (Ed : downloaded w1 = downloaded w) by now apply (f_equal downloaded) in K.
  assert (Et : tmp_names w1 = tmp_names w) by now apply (f_equal tmp_names) in K.
  now rewrite Ef, Ed, Et.
Qed.

Section StatNeverDownloads.
Variable isoformat_minutes : string -> option string.
Variable isoformat_epoch : string -> option Z.
Variable self : fuse.NMRHubFS.

Let getattr := fuse.getattr isoformat_minutes isoformat_epoch self.
Let readdir := fuse.readdir isoformat_minutes isoformat_epoch self.
Let open := fuse.open isoformat_minutes isoformat_epoch self.
Let names_content := names_content isoformat_minutes isoformat_epoch self.
Let dataset_dir := cache._dataset_dir (fuse._cache self).

End StatNeverDownloads.


(** The example of the specification: the file of a dataset that was
    never downloaded is not found by [getattr]; [open] on the same path
    downloads the dataset, once, and returns a handle; and then
    [getattr] finds the file. *)
Example stat_then_open :
  let w := world_with two_datasets [dataset_A] in
  let path := "/Public Datasets/A/fid" in
  fuse.getattr no_datetime no_datetime a_mount path w
  = (Raise (FuseOSError ENOENT),
     snd (fuse.getattr no_datetime no_datetime a_mount path w))
  /\ exists w',
       fuse.open no_datetime no_datetime a_mount path 0 w = (Return 1, w')
       /\ downloaded w' = [5]
       /\ fst (fuse.getattr no_datetime no_datetime a_mount path w')
          = Return (fuse.mkStat (Z.lor fuse.S_IFREG 292) 4096 90).
Proof.
  cbv zeta. split; [vm_compute; reflexivity|].
  exists (snd (fuse.open no_datetime no_datetime a_mount "/Public Datasets/A/fid" 0
                 (world_with two_datasets [dataset_A]))).
  split; [|split]; vm_compute; reflexivity.
Qed.

(** What C5 leaves out: a path that leaves its dataset through [..] is
    judged by [resolve_path], and with it reaches a sibling entry even
    though its own dataset (here dataset 1, beside the cached dataset
    12) was never downloaded. *)
Example stat_through_dotdot :
  let tree := os.Dir 0 [("c", os.Dir 0 [("12", os.Dir 0 [("f", os.File 7 0)])])] in
  let w := world_with tree [mkDataset 1 (Some "B") None None] in
  os.exists_ (fs w) (cache._dataset_dir a_cache 1) = false
  /\ fst (fuse.getattr no_datetime no_datetime a_mount "/Public Datasets/B/../12/f" w)
     = Return (fuse.mkStat (Z.lor fuse.S_IFREG 292) 7 0).
Proof. split; vm_compute; reflexivity. Qed.

(* ================================================================== *)
(** * Further properties of the package *)
(* ================================================================== *)

(** ** Strings by their characters *)

Definition chars (s : string) : list ascii := list_ascii_of_string s.

(** The character [c] occurs in [s]. *)
Definition occurs (c : ascii) (s : string) : Prop := In c (chars s).

Lemma chars_inj (a b : string) : chars a = chars b -> a = b.
Proof.
  intro H. rewrite <- (string_of_list_ascii_of_string a),
    <- (string_of_list_ascii_of_string b).
  unfold chars in H. now rewrite H.
Qed.

Lemma chars_append (a b : string) : chars (a ++ b)%string = chars a ++ chars b.
Proof. induction a as [|c a IH]; simpl; [reflexivity|]. now rewrite <- IH. Qed.

Lemma chars_rev (s : string) : chars (py.rev_string s) = rev (chars s).
Proof.
  induction s as [|c s IH]; simpl; [reflexivity|].
  now rewrite chars_append, IH.
Qed.

Lemma rev_string_involutive (s : string) : py.rev_string (py.rev_string s) = s.
Proof. apply chars_inj. rewrite !chars_rev. apply rev_involutive. Qed.

Lemma append_empty_r (s : string) : (s ++ "")%string = s.
Proof. apply chars_inj. rewrite chars_append. apply app_nil_r. Qed.

Lemma append_assoc (a b c : string) : ((a ++ b) ++ c = a ++ (b ++ c))%string.
Proof. apply chars_inj. rewrite !chars_append. symmetry. apply app_assoc. Qed.

Lemma append_inv_head (a b c : string) : (a ++ b = a ++ c)%string -> b = c.
Proof.
  intro H. apply chars_inj. apply (f_equal chars) in H.
  rewrite !chars_append in H. now apply app_inv_head in H.
Qed.

Lemma append_inv_tail (a b c : string) : (a ++ c = b ++ c)%string -> a = b.
Proof.
  intro H. apply chars_inj. apply (f_equal chars) in H.
  rewrite !chars_append in H. now apply app_inv_tail in H.
Qed.

Lemma occurs_append c a b : occurs c (a ++ b)%string <-> occurs c a \/ occurs c b.
Proof. unfold occurs. rewrite chars_append. apply in_app_iff. Qed.

Lemma occurs_rev c s : occurs c (py.rev_string s) <-> occurs c s.
Proof. unfold occurs. rewrite chars_rev. symmetry. apply in_rev. Qed.

(** [lstrip] cuts a prefix of characters to strip, and stops at a
    character to keep. *)
Lemma lstrip_suffix f s :
  exists p, s = (p ++ py.lstrip_by f s)%string.
Proof.
  induction s as [|c s [p IH]]; simpl.
  - now exists "".
  - destruct (f c).
    + exists (String c p). simpl. now rewrite <- IH.
    + now exists "".
Qed.

Lemma lstrip_head f s c s' : py.lstrip_by f s = String c s' -> f c = false.
Proof.
  induction s as [|a s IH]; simpl; [discriminate|].
  destruct (f a) eqn:F; [assumption|]. now intros [= <- _].
Qed.

Lemma lstrip_kept f s :
  match s with EmptyString => True | String c _ => f c = false end ->
  py.lstrip_by f s = s.
Proof. destruct s as [|c s]; simpl; [reflexivity|]. now intros ->. Qed.

Lemma occurs_lstrip c f s : occurs c (py.lstrip_by f s) -> occurs c s.
Proof.
  destruct (lstrip_suffix f s) as [p E]. intro H.
  rewrite E. apply occurs_append. now right.
Qed.

Lemma occurs_strip c f s : occurs c (py.strip_by f s) -> occurs c s.
Proof.
  unfold py.strip_by. intro H.
  apply occurs_rev, occurs_lstrip, occurs_rev, occurs_lstrip in H. exact H.
Qed.

(** What [strip] returns neither starts nor ends with a character to
    strip. *)
Lemma strip_leading f s c s' : py.strip_by f s = String c s' -> f c = false.
Proof.
  unfold py.strip_by. intro H.
  destruct (lstrip_suffix f (py.rev_string (py.lstrip_by f s))) as [p E].
  apply (f_equal py.rev_string) in E.
  rewrite rev_string_involutive in E.
  assert (R : py.rev_string (p ++ py.lstrip_by f (py.rev_string (py.lstrip_by f s)))
              = (String c s' ++ py.rev_string p)%string).
  { apply chars_inj. rewrite chars_rev, !chars_append, rev_app_distr.
    rewrite <- !chars_rev. now rewrite H. }
  rewrite R in E. simpl in E. now apply lstrip_head in E.
Qed.

Lemma strip_trailing f s c s' :
  py.strip_by f s = (s' ++ String c "")%string -> f c = false.
Proof.
  unfold py.strip_by. intro H. apply (f_equal py.rev_string) in H.
  rewrite rev_string_involutive in H.
  assert (R : py.rev_string (s' ++ String c "") = String c (py.rev_string s')).
  { apply chars_inj. rewrite chars_rev, chars_append, rev_app_distr. simpl.
    now rewrite <- chars_rev. }
  rewrite R in H. now apply lstrip_head in H.
Qed.

Lemma strip_idempotent f s : py.strip_by f (py.strip_by f s) = py.strip_by f s.
Proof.
  assert (L : py.lstrip_by f (py.strip_by f s) = py.strip_by f s).
  { apply lstrip_kept. destruct (py.strip_by f s) as [|c s'] eqn:E; [exact I|].
    now apply strip_leading in E. }
  unfold py.strip_by at 1. rewrite L. unfold py.strip_by.
  rewrite rev_string_involutive. f_equal.
  apply lstrip_kept.
  destruct (py.lstrip_by f (py.rev_string (py.lstrip_by f s))) as [|c s'] eqn:E;
    [exact I|]. now apply lstrip_head in E.
Qed.

Lemma occurs_replace x c r s :
  occurs x (py.replace_char c r s) -> occurs x r \/ (occurs x s /\ x <> c).
Proof.
  induction s as [|a s IH]; simpl; [intros []|].
  destruct (Ascii.eqb_spec a c) as [->|N].
  - intro H. apply occurs_append in H. destruct H as [H|H]; [now left|].
    destruct (IH H) as [H'|[H' Nx]]; [now left|]. right. split; [now right|assumption].
  - intros [<-|H].
    + right. split; [now left|assumption].
    + destruct (IH H) as [H'|[H' Nx]]; [now left|]. right. split; [now right|assumption].
Qed.

Lemma replace_absent c r s : ~ occurs c s -> py.replace_char c r s = s.
Proof.
  induction s as [|a s IH]; simpl; [reflexivity|]. intro N.
  destruct (Ascii.eqb_spec a c) as [->|Na].
  - exfalso. apply N. now left.
  - f_equal. apply IH. intro H. apply N. now right.
Qed.

Lemma sanitize_excludes (c : ascii) (name : string) :
  c = "/"%char \/ c = "000"%char -> ~ occurs c (utils._sanitize name).
Proof.
  unfold utils._sanitize, py.strip. intros C H. apply occurs_strip in H.
  apply occurs_replace in H. destruct H as [[H|[]]|[H N]].
  - destruct C; subst; discriminate.
  - apply occurs_replace in H. destruct H as [[H|[]]|[_ N']].
    + destruct C; subst; discriminate.
    + destruct C; contradiction.
Qed.

(** X1: what [_sanitize] returns is safe as one path component as far as
    its characters go: it holds neither a slash nor a NUL, and no blank
    at either end; sanitizing it again changes nothing. *)
Theorem sanitize_path_safe (name : string) :
  ~ occurs "/" (utils._sanitize name)
  /\ ~ occurs "000" (utils._sanitize name)
  /\ (forall c s, utils._sanitize name = String c s -> py.isspace c = false)
  /\ (forall c s, utils._sanitize name = (s ++ String c "")%string ->
                  py.isspace c = false)
  /\ utils._sanitize (utils._sanitize name) = utils._sanitize name.
Proof.
  assert (S : ~ occurs "/" (utils._sanitize name))
    by (apply sanitize_excludes; now left).
  assert (Z : ~ occurs "000" (utils._sanitize name))
    by (apply sanitize_excludes; now right).
  split; [exact S|]. split; [exact Z|].
  split; [intros c s; apply strip_leading|].
  split; [intros c s; apply strip_trailing|].
  unfold utils._sanitize at 1.
  rewrite (replace_absent "000"%char) by exact Z.
  rewrite (replace_absent "/"%char) by exact S.
  unfold utils._sanitize, py.strip. apply strip_idempotent.
Qed.

(** ** Grouping by a key *)

Section DictMore.
Context {K V : Type}.
Variable eqb : K -> K -> bool.
Hypothesis eqb_eq : forall a b, eqb a b = true <-> a = b.

Lemma get_none_not_key (d : list (K * V)) k :
  py.get eqb d k = None -> ~ In k (py.keys d).
Proof.
  induction d as [|[k0 v0] d IH]; simpl; [tauto|].
  destruct (eqb k k0) eqn:E; [discriminate|].
  intros H [->|I]; [|now apply IH].
  now rewrite (eqb_refl_true _ eqb_eq) in E.
Qed.

Lemma not_key_get_none (d : list (K * V)) k :
  ~ In k (py.keys d) -> py.get eqb d k = None.
Proof.
  induction d as [|[k0 v0] d IH]; simpl; [reflexivity|].
  intro N. destruct (eqb k k0) eqn:E.
  - apply eqb_eq in E. subst. tauto.
  - apply IH. tauto.
Qed.

Lemma keys_set_present (d : list (K * V)) k v v0 :
  py.get eqb d k = Some v0 -> py.keys (py.set eqb d k v) = py.keys d.
Proof.
  induction d as [|[k1 v1] d IH]; simpl; [discriminate|].
  destruct (eqb k k1); simpl; [reflexivity|]. intro H. f_equal. now apply IH.
Qed.

Lemma keys_set_absent (d : list (K * V)) k v :
  py.get eqb d k = None -> py.set eqb d k v = d ++ [(k, v)].
Proof.
  induction d as [|[k1 v1] d IH]; simpl; [reflexivity|].
  destruct (eqb k k1); [discriminate|]. intro H. f_equal. now apply IH.
Qed.

Lemma in_get_nodup (d : list (K * V)) k v :
  NoDup (py.keys d) -> In (k, v) d -> py.get eqb d k = Some v.
Proof.
  induction d as [|[k0 v0] d IH]; simpl; [tauto|].
  intros ND [E|I].
  - injection E as -> ->. now rewrite (eqb_refl_true _ eqb_eq).
  - inversion ND as [|? ? NI ND']; subst.
    destruct (eqb k k0) eqn:E; [|now apply IH].
    apply eqb_eq in E. subst. exfalso. apply NI.
    apply in_map_iff. now exists (k0, v).
Qed.

Lemma nodup_keys_set (d : list (K * V)) k v :
  NoDup (py.keys d) -> NoDup (py.keys (py.set eqb d k v)).
Proof.
  intro ND. destruct (py.get eqb d k) as [v0|] eqn:G.
  - now rewrite (keys_set_present _ _ _ _ G).
  - rewrite (keys_set_absent _ _ _ G). unfold py.keys. rewrite map_app. simpl.
    apply NoDup_app; [assumption|repeat constructor; tauto|].
    intros x I [<-|[]]. now apply (get_none_not_key _ _ G).
Qed.

(** A loop of steps, each of which either assigns [v] to the key [k]
    or leaves that key alone, one of them assigning: [k] ends at [v]. *)
Lemma fold_left_agreed {A : Type} (step : list (K * V) -> A -> list (K * V))
    (items : list A) (k : K) (v : V) :
  (forall a, In a items ->
     (forall acc, py.get eqb (step acc a) k = Some v)
     \/ (forall acc, py.get eqb (step acc a) k = py.get eqb acc k)) ->
  forall acc,
    py.get eqb acc k = Some v
    \/ (exists a, In a items /\ forall acc, py.get eqb (step acc a) k = Some v) ->
    py.get eqb (fold_left step items acc) k = Some v.
Proof.
  induction items as [|a items IH]; intros Each acc H; simpl.
  - destruct H as [H|(a & [] & _)]. assumption.
  - apply IH; [intros; apply Each; now right|].
    destruct H as [H|(b & [->|I] & S)].
    + left. destruct (Each a (or_introl eq_refl)) as [S|U]; [apply S|].
      now rewrite U.
    + left. apply S.
    + right. now exists b.
Qed.

Lemma fold_left_untouched {A : Type} (step : list (K * V) -> A -> list (K * V))
    (items : list A) (k : K) :
  (forall a, In a items -> forall acc, py.get eqb (step acc a) k = py.get eqb acc k) ->
  forall acc, py.get eqb (fold_left step items acc) k = py.get eqb acc k.
Proof.
  induction items as [|a items IH]; intros Each acc; simpl; [reflexivity|].
  rewrite IH by (intros; apply Each; now right). apply Each. now left.
Qed.

(** Where a key of the result comes from. *)
Lemma fold_left_keys_from {A : Type} (step : list (K * V) -> A -> list (K * V))
    (sets : A -> K -> Prop) (items : list A) :
  (forall acc a k, py.contains eqb (step acc a) k = true ->
                   py.contains eqb acc k = true \/ sets a k) ->
  forall acc k,
    py.contains eqb (fold_left step items acc) k = true ->
    py.contains eqb acc k = true \/ (exists a, In a items /\ sets a k).
Proof.
  intro Step. induction items as [|a items IH]; intros acc k H; simpl in *.
  - now left.
  - destruct (IH _ _ H) as [H'|(b & I & S)].
    + destruct (Step _ _ _ H') as [H''|S]; [now left|]. right. exists a. auto.
    + right. exists b. auto.
Qed.

Lemma contains_set_inv (d : list (K * V)) k v k' :
  py.contains eqb (py.set eqb d k v) k' = true ->
  py.contains eqb d k' = true \/ k' = k.
Proof.
  unfold py.contains. destruct (eqb k' k) eqn:E.
  - apply eqb_eq in E. auto.
  - rewrite (get_set_other _ eqb_eq); [auto|].
    intros ->. now rewrite (eqb_refl_true _ eqb_eq) in E.
Qed.
End DictMore.

Section GroupBy.
Context {X : Type}.
Variable key : X -> string.

(** The members of [l] filed under [k], in the order of [l]. *)
Definition members (k : string) (l : list X) : list X :=
  filter (fun x => String.eqb (key x) k) l.

(** The loop [for x in l: groups.setdefault(key(x), []).append(x)]. *)
Definition group_by (l : list X) (groups : list (string * list X))
    : list (string * list X) :=
  fold_left (fun g y => py.setdefault_append String.eqb g (key y) y) l groups.

(** [groups] is the grouping of [l]: each key once, holding its members
    in order, and no empty group. *)
Definition grouped (groups : list (string * list X)) (l : list X) : Prop :=
  NoDup (py.keys groups)
  /\ forall k, py.get String.eqb groups k
               = match members k l with [] => None | xs => Some xs end.

Lemma members_snoc k l y :
  members k (l ++ [y]) = members k l ++ (if String.eqb (key y) k then [y] else []).
Proof. unfold members. now rewrite filter_app. Qed.

Lemma grouped_step groups l y :
  grouped groups l ->
  grouped (py.setdefault_append String.eqb groups (key y) y) (l ++ [y]).
Proof.
  intros [ND G]. unfold py.setdefault_append.
  pose proof (G (key y)) as Gy.
  destruct (py.get String.eqb groups (key y)) as [l0|] eqn:E.
  - split; [now apply (nodup_keys_set _ Seqb_eq)|].
    intro k. rewrite members_snoc.
    destruct (String.eqb_spec (key y) k) as [<-|N].
    + rewrite (get_set_same _ Seqb_eq).
      destruct (members (key y) l) as [|x xs]; [discriminate|].
      injection Gy as ->. reflexivity.
    + rewrite (get_set_other _ Seqb_eq) by congruence.
      now rewrite app_nil_r.
  - split.
    + rewrite <- (keys_set_absent _ _ _ _ E). now apply (nodup_keys_set _ Seqb_eq).
    + intro k. rewrite members_snoc.
      destruct (String.eqb_spec (key y) k) as [<-|N].
      * rewrite (get_app_none _ _ _ _ E). simpl. rewrite String.eqb_refl.
        destruct (members (key y) l) as [|x xs]; [reflexivity|discriminate].
      * rewrite app_nil_r.
        destruct (py.get String.eqb groups k) as [g|] eqn:Gk.
        -- rewrite (get_app_some _ _ _ _ _ Gk). now rewrite <- G, Gk.
        -- rewrite (get_app_none _ _ _ _ Gk). simpl.
           destruct (String.eqb_spec k (key y)); [congruence|].
           now rewrite <- G, Gk.
Qed.

Lemma grouped_fold l : forall groups l0,
  grouped groups l0 -> grouped (group_by l groups) (l0 ++ l).
Proof.
  unfold group_by. induction l as [|y l IH]; intros groups l0 H; simpl.
  - now rewrite app_nil_r.
  - replace (l0 ++ y :: l) with ((l0 ++ [y]) ++ l) by now rewrite <- app_assoc.
    apply IH. now apply grouped_step.
Qed.

Lemma group_by_grouped l : grouped (group_by l []) l.
Proof.
  apply (grouped_fold l [] []). split; [constructor|reflexivity].
Qed.

(** An item of the grouping holds the members of its key. *)
Lemma grouped_item groups l k g :
  grouped groups l -> In (k, g) groups -> g = members k l /\ g <> [].
Proof.
  intros [ND G] I. apply (in_get_nodup _ Seqb_eq _ _ _ ND) in I.
  rewrite G in I. destruct (members k l) as [|x xs]; [discriminate|].
  injection I as <-. split; [reflexivity|discriminate].
Qed.

(** Every member of [l] has its group in the grouping. *)
Lemma grouped_member groups l x :
  grouped groups l -> In x l -> In (key x, members (key x) l) groups.
Proof.
  intros [ND G] I. apply (get_some_in _ Seqb_eq). rewrite G.
  assert (M : In x (members (key x) l)).
  { apply filter_In. split; [assumption|apply String.eqb_refl]. }
  destruct (members (key x) l); [destruct M|reflexivity].
Qed.

Lemma members_in k l x : In x (members k l) -> In x l /\ key x = k.
Proof.
  intro H. apply filter_In in H. destruct H as [I E].
  now apply String.eqb_eq in E.
Qed.
End GroupBy.

(** ** utils.py: the name [deduplicate_names] gives a dataset *)

Lemma nodup_ids_filter (f : Dataset -> bool) (l : list Dataset) :
  NoDup (map id l) -> NoDup (map id (filter f l)).
Proof.
  induction l as [|d l IH]; simpl; [constructor|].
  intro ND. inversion ND as [|? ? NI ND']; subst.
  destruct (f d); simpl; [|auto].
  constructor; [|auto]. intro H. apply NI.
  apply in_map_iff in H. destruct H as (x & E & I).
  apply filter_In in I. apply in_map_iff. exists x. tauto.
Qed.

Lemma nodup_ids_inj (l : list Dataset) (a b : Dataset) :
  NoDup (map id l) -> In a l -> In b l -> id a = id b -> a = b.
Proof.
  induction l as [|d l IH]; simpl; [tauto|].
  intro ND. inversion ND as [|? ? NI ND']; subst.
  intros [->|Ia] [->|Ib] E; auto.
  - exfalso. apply NI. rewrite E. now apply in_map.
  - exfalso. apply NI. rewrite <- E. now apply in_map.
Qed.

Section DedupSpec.
Variable isoformat_minutes : string -> option string.

(** The sanitized base name of a dataset. *)
Definition base (d : Dataset) : string := utils._sanitize (utils.raw_name d).

(** The datasets of the collection sharing the base name of [d]. *)
Definition same_base (datasets : list Dataset) (d : Dataset) : list Dataset :=
  members base (base d) datasets.

(** Those of them that also share its formatted start time. *)
Definition same_display (datasets : list Dataset) (d : Dataset) : list Dataset :=
  members (utils.display_name isoformat_minutes (base d))
    (utils.display_name isoformat_minutes (base d) d) (same_base datasets d).

(** The name of [d] in closed form: the base name when no other dataset
    has it, else the base name with the start time when no other
    dataset of that base name has that time, else that with the
    identifier. *)
Definition assigned_name (datasets : list Dataset) (d : Dataset) : string :=
  match same_base datasets d with
  | [_] => base d
  | _ =>
      let display := utils.display_name isoformat_minutes (base d) d in
      match same_display datasets d with
      | [_] => display
      | _ => (display ++ " [" ++ py.str (id d) ++ "]")%string
      end
  end.

Lemma name_groups_group_by (datasets : list Dataset) :
  fold_left
    (fun g '(ds, safe_name) => py.setdefault_append String.eqb g safe_name ds)
    (map (fun ds => (ds, utils._sanitize (utils.raw_name ds))) datasets) []
  = group_by base datasets [].
Proof. unfold group_by. now rewrite fold_left_over_map. Qed.

Lemma assign_ids_other (display : string) (sub : list Dataset) acc i :
  (forall x, In x sub -> id x <> i) ->
  py.get Z.eqb
    (fold_left
       (fun r ds =>
          py.set Z.eqb r (id ds) (display ++ " [" ++ py.str (id ds) ++ "]")%string)
       sub acc) i
  = py.get Z.eqb acc i.
Proof.
  intro N. apply fold_left_untouched. intros x I acc'.
  apply (get_set_other _ Zeqb_eq). intro E. now apply (N x I).
Qed.

Lemma assign_ids_member (display : string) (sub : list Dataset) acc d :
  In d sub ->
  py.get Z.eqb
    (fold_left
       (fun r ds =>
          py.set Z.eqb r (id ds) (display ++ " [" ++ py.str (id ds) ++ "]")%string)
       sub acc) (id d)
  = Some (display ++ " [" ++ py.str (id d) ++ "]")%string.
Proof.
  intro I. apply fold_left_agreed.
  - intros x _. destruct (Z.eq_dec (id x) (id d)) as [E|N].
    + left. intro acc'. rewrite E. apply (get_set_same _ Zeqb_eq).
    + right. intro acc'. apply (get_set_other _ Zeqb_eq). congruence.
  - right. exists d. split; [assumption|]. intro acc'.
    apply (get_set_same _ Zeqb_eq).
Qed.

Lemma assign_subgroup_other acc display sub i :
  (forall x, In x sub -> id x <> i) ->
  py.get Z.eqb (utils.assign_subgroup acc (display, sub)) i = py.get Z.eqb acc i.
Proof.
  intro N. unfold utils.assign_subgroup.
  destruct sub as [|d0 [|d1 sub]]; try now apply assign_ids_other.
  apply (get_set_other _ Zeqb_eq). intro E. apply (N d0); [now left|congruence].
Qed.

Lemma assign_subgroup_member acc display sub d :
  In d sub ->
  py.get Z.eqb (utils.assign_subgroup acc (display, sub)) (id d)
  = Some match sub with
         | [_] => display
         | _ => (display ++ " [" ++ py.str (id d) ++ "]")%string
         end.
Proof.
  intro I. unfold utils.assign_subgroup.
  destruct sub as [|d0 [|d1 sub]]; try now apply assign_ids_member.
  destruct I as [->|[]]. apply (get_set_same _ Zeqb_eq).
Qed.

Lemma assign_group_other acc name group i :
  (forall x, In x group -> id x <> i) ->
  py.get Z.eqb (utils.assign_group isoformat_minutes acc (name, group)) i
  = py.get Z.eqb acc i.
Proof.
  intro N. unfold utils.assign_group.
  assert (Sub : forall acc',
    py.get Z.eqb
      (fold_left utils.assign_subgroup
         (group_by (utils.display_name isoformat_minutes name) group []) acc') i
    = py.get Z.eqb acc' i).
  { apply fold_left_untouched. intros [display sub] I acc'.
    apply assign_subgroup_other. intros x Ix. apply N.
    destruct (grouped_item _ _ _ _ _ (group_by_grouped _ group) I) as [-> _].
    now apply members_in in Ix. }
  destruct group as [|d0 [|d1 group]]; try apply Sub.
  apply (get_set_other _ Zeqb_eq). intro E. apply (N d0); [now left|congruence].
Qed.

Lemma assign_group_member acc name group d :
  NoDup (map id group) -> In d group ->
  py.get Z.eqb (utils.assign_group isoformat_minutes acc (name, group)) (id d)
  = Some match group with
         | [_] => name
         | _ =>
             let display := utils.display_name isoformat_minutes name d in
             match members (utils.display_name isoformat_minutes name) display group with
             | [_] => display
             | _ => (display ++ " [" ++ py.str (id d) ++ "]")%string
             end
         end.
Proof.
  intros ND I. unfold utils.assign_group.
  assert (Sub : forall acc',
    py.get Z.eqb
      (fold_left utils.assign_subgroup
         (group_by (utils.display_name isoformat_minutes name) group []) acc') (id d)
    = Some (let display := utils.display_name isoformat_minutes name d in
            match members (utils.display_name isoformat_minutes name) display group with
            | [_] => display
            | _ => (display ++ " [" ++ py.str (id d) ++ "]")%string
            end)).
  { intro acc'. cbv zeta.
    pose proof (group_by_grouped (utils.display_name isoformat_minutes name) group)
      as G.
    apply fold_left_agreed.
    - intros [display sub] Iitem.
      destruct (grouped_item _ _ _ _ _ G Iitem) as [-> _].
      destruct (String.eqb_spec display
                  (utils.display_name isoformat_minutes name d)) as [->|N].
      + left. intro acc''. apply assign_subgroup_member.
        apply filter_In. split; [assumption|apply String.eqb_refl].
      + right. intro acc''. apply assign_subgroup_other.
        intros x Ix E. apply members_in in Ix. destruct Ix as [Ix Kx].
        apply N. rewrite <- Kx. f_equal. symmetry.
        now apply (nodup_ids_inj group).
    - right. eexists. split; [apply (grouped_member _ _ _ _ G I)|].
      intro acc''. apply assign_subgroup_member.
      apply filter_In. split; [assumption|apply String.eqb_refl]. }
  destruct group as [|d0 [|d1 group]]; try apply Sub.
  destruct I as [->|[]]. apply (get_set_same _ Zeqb_eq).
Qed.

(** In a collection with distinct identifiers, the name stored for a
    dataset is its [assigned_name]. *)
Lemma deduplicate_names_get (datasets : list Dataset) (d : Dataset) :
  NoDup (map id datasets) -> In d datasets ->
  py.get Z.eqb (utils.deduplicate_names isoformat_minutes datasets) (id d)
  = Some (assigned_name datasets d).
Proof.
  intros ND I. unfold utils.deduplicate_names. rewrite name_groups_group_by.
  pose proof (group_by_grouped base datasets) as G.
  apply fold_left_agreed.
  - intros [name group] Iitem.
    destruct (grouped_item _ _ _ _ _ G Iitem) as [-> _].
    destruct (String.eqb_spec name (base d)) as [->|N].
    + left. intro acc. apply assign_group_member.
      * now apply nodup_ids_filter.
      * apply filter_In. split; [assumption|apply String.eqb_refl].
    + right. intro acc. apply assign_group_other.
      intros x Ix E. apply members_in in Ix. destruct Ix as [Ix Kx].
      apply N. rewrite <- Kx. f_equal. symmetry. now apply (nodup_ids_inj datasets).
  - right. eexists. split; [apply (grouped_member _ _ _ _ G I)|].
    intro acc. apply assign_group_member.
    + now apply nodup_ids_filter.
    + apply filter_In. split; [assumption|apply String.eqb_refl].
Qed.
End DedupSpec.

(** *** The characters of a rendered identifier *)

Lemma uint_digits (d : Decimal.uint) (c : ascii) :
  occurs c (NilEmpty.string_of_uint d) -> py.isdigit c = true.
Proof.
  unfold occurs. induction d; simpl; try tauto;
    (intros [<-|H]; [reflexivity|auto]).
Qed.

Lemma str_chars (n : Z) (c : ascii) :
  occurs c (py.str n) -> py.isdigit c = true \/ c = "-"%char.
Proof.
  unfold py.str, NilZero.string_of_int, NilZero.string_of_uint.
  destruct (Z.to_int n) as [d|d].
  - destruct d; try (intro H; left; revert H; apply uint_digits).
    intros [<-|[]]. now left.
  - intros [<-|H]; [now right|]. left. revert H.
    destruct d; try apply uint_digits.
    intros [<-|[]]. reflexivity.
Qed.

Lemma str_no_bracket (n : Z) : ~ occurs "["%char (py.str n).
Proof. intro H. apply str_chars in H. destruct H; discriminate. Qed.

(** A string is cut at its last occurrence of a character in one way. *)
Lemma cut_at_last {A : Type} (x : A) (a b s t : list A) :
  a ++ x :: s = b ++ x :: t -> ~ In x s -> ~ In x t -> a = b /\ s = t.
Proof.
  revert b. induction a as [|y a IH]; intros [|z b] E Ns Nt; simpl in E.
  - injection E as ->. auto.
  - injection E as <- ->. exfalso. apply Ns. apply in_or_app. right. now left.
  - injection E as -> <-. exfalso. apply Nt. apply in_or_app. right. now left.
  - injection E as <- E. destruct (IH _ E Ns Nt) as [-> ->]. auto.
Qed.

Lemma bracket_suffix_inj (a b : string) (n m : Z) :
  (a ++ " [" ++ py.str n ++ "]" = b ++ " [" ++ py.str m ++ "]")%string ->
  a = b /\ n = m.
Proof.
  intro H. apply (f_equal chars) in H. rewrite !chars_append in H.
  change (chars " [") with (" "%char :: ["["%char]) in H. simpl in H.
  assert (N : forall k, ~ In "["%char (chars (py.str k) ++ ["]"%char])).
  { intros k I. apply in_app_or in I. destruct I as [I|[I|[]]]; [|discriminate].
    now apply (str_no_bracket k). }
  assert (H' : (chars a ++ [" "%char]) ++ "["%char :: (chars (py.str n) ++ ["]"%char])
               = (chars b ++ [" "%char]) ++ "["%char :: (chars (py.str m) ++ ["]"%char]))
    by (rewrite <- !app_assoc; exact H).
  destruct (cut_at_last _ _ _ _ _ H' (N n) (N m)) as [Ea En].
  apply app_inv_tail in Ea, En. split; [now apply chars_inj|].
  apply str_inj. now apply chars_inj.
Qed.

Section DedupDistinct.
Variable isoformat_minutes : string -> option string.

(** [display_name] keeps the name, or appends the start time in
    parentheses. *)
Lemma display_name_shape (name : string) (d : Dataset) :
  utils.display_name isoformat_minutes name d = name
  \/ exists ts, utils.display_name isoformat_minutes name d
                = (name ++ " (" ++ ts ++ ")")%string.
Proof.
  unfold utils.display_name.
  destruct (utils._format_timestamp isoformat_minutes (experiment_start_time d))
    as [[|c ts]|]; eauto.
Qed.

Lemma display_name_no_bracket_suffix (name : string) (d d' : Dataset) (n : Z) :
  utils.display_name isoformat_minutes name d
  <> (utils.display_name isoformat_minutes name d' ++ " [" ++ py.str n ++ "]")%string.
Proof.
  intro H.
  assert (Tail : exists t, utils.display_name isoformat_minutes name d'
                           = (name ++ t)%string).
  { destruct (display_name_shape name d') as [E|[ts E]]; rewrite E.
    - exists "". now rewrite append_empty_r.
    - eauto. }
  destruct Tail as [t Et]. rewrite Et, append_assoc in H.
  destruct (display_name_shape name d) as [E|[ts E]]; rewrite E in H.
  - rewrite <- (append_empty_r name) in H at 1. apply append_inv_head in H.
    apply (f_equal chars) in H. rewrite !chars_append in H.
    destruct (chars t); discriminate.
  - apply append_inv_head in H. apply (f_equal chars) in H.
    rewrite !chars_append in H.
    change (chars ")") with [")"%char] in H.
    change (chars "]") with ["]"%char] in H.
    rewrite !app_assoc in H. apply app_inj_tail in H. destruct H; discriminate.
Qed.

Lemma not_single_of_two {A : Type} (l : list A) (a b : A) :
  In a l -> In b l -> a <> b ->
  match l with [_] => False | _ => True end.
Proof.
  destruct l as [|x [|y l]]; simpl; auto.
  intros [<-|[]] [<-|[]] N. now apply N.
Qed.

(** Two datasets of one base name have different names. *)
Lemma assigned_names_differ (datasets : list Dataset) (d1 d2 : Dataset) :
  In d1 datasets -> In d2 datasets -> d1 <> d2 -> id d1 <> id d2 ->
  base d1 = base d2 ->
  assigned_name isoformat_minutes datasets d1
  <> assigned_name isoformat_minutes datasets d2.
Proof.
  intros I1 I2 N Nid B. unfold assigned_name, same_display, same_base.
  rewrite <- B.
  set (G := members base (base d1) datasets).
  assert (G1 : In d1 G) by (apply filter_In; split; [assumption|apply String.eqb_refl]).
  assert (G2 : In d2 G).
  { apply filter_In. split; [assumption|]. rewrite B. apply String.eqb_refl. }
  pose proof (not_single_of_two G d1 d2 G1 G2 N) as Two.
  set (key := utils.display_name isoformat_minutes (base d1)).
  assert (S1 : In d1 (members key (key d1) G))
    by (apply filter_In; split; [assumption|apply String.eqb_refl]).
  assert (S2 : In d2 (members key (key d2) G))
    by (apply filter_In; split; [assumption|apply String.eqb_refl]).
  cbv zeta.
  assert (Goal :
    match members key (key d1) G with
    | [_] => key d1
    | _ => (key d1 ++ " [" ++ py.str (id d1) ++ "]")%string
    end
    <> match members key (key d2) G with
       | [_] => key d2
       | _ => (key d2 ++ " [" ++ py.str (id d2) ++ "]")%string
       end).
  { destruct (String.eqb_spec (key d1) (key d2)) as [E|D].
    - rewrite <- E in S2 |- *.
      pose proof (not_single_of_two _ d1 d2 S1 S2 N) as Two'.
      destruct (members key (key d1) G) as [|x [|y l]]; try contradiction;
        intro H; apply bracket_suffix_inj in H; now destruct H.
    - destruct (members key (key d1) G) as [|x1 [|y1 l1]],
               (members key (key d2) G) as [|x2 [|y2 l2]];
        try (intro H; apply bracket_suffix_inj in H; now destruct H);
        try assumption;
        try (apply display_name_no_bracket_suffix);
        try (intro H; symmetry in H; revert H; apply display_name_no_bracket_suffix). }
  destruct G as [|x [|y G']]; try contradiction; exact Goal.
Qed.
End DedupDistinct.

Lemma filter_only {A : Type} (f : A -> bool) (l : list A) (d : A) :
  NoDup l -> In d l -> f d = true ->
  (forall x, In x l -> f x = true -> x = d) ->
  filter f l = [d].
Proof.
  induction l as [|y l IH]; simpl; [tauto|].
  intros ND I Fd Only. inversion ND as [|? ? NI ND']; subst.
  assert (None_left : ~ In d l -> filter f l = []).
  { intro Nd. clear - Only Nd. induction l as [|z l IHl]; simpl; [reflexivity|].
    destruct (f z) eqn:Fz.
    - exfalso. apply Nd. left. apply Only; [right; now left|assumption].
    - apply IHl.
      + intros x [->|Ix] Fx; apply Only; auto. right. now right.
      + intro H. apply Nd. now right. }
  destruct I as [->|I].
  - rewrite Fd. f_equal. now apply None_left.
  - destruct (f y) eqn:Fy.
    + assert (y = d) by (apply Only; auto). subst. contradiction.
    + apply IH; auto.
Qed.

Section DedupTheorems.
Variable isoformat_minutes : string -> option string.

Lemma assign_subgroup_keys acc display sub k :
  py.contains Z.eqb (utils.assign_subgroup acc (display, sub)) k = true ->
  py.contains Z.eqb acc k = true \/ (exists d, In d sub /\ id d = k).
Proof.
  unfold utils.assign_subgroup.
  assert (Loop : forall acc',
    py.contains Z.eqb
      (fold_left
         (fun r ds =>
            py.set Z.eqb r (id ds) (display ++ " [" ++ py.str (id ds) ++ "]")%string)
         sub acc') k = true ->
    py.contains Z.eqb acc' k = true \/ (exists d, In d sub /\ id d = k)).
  { intros acc' H.
    apply (fold_left_keys_from Z.eqb _ (fun d k => id d = k)) in H; [exact H|].
    intros a d k' C. apply (contains_set_inv _ Zeqb_eq) in C.
    destruct C as [C| ->]; auto. }
  destruct sub as [|d0 [|d1 sub]]; try apply Loop.
  intro H. apply (contains_set_inv _ Zeqb_eq) in H. destruct H as [H| ->]; [now left|].
  right. exists d0. split; [now left|reflexivity].
Qed.

Lemma assign_group_keys acc name group k :
  py.contains Z.eqb (utils.assign_group isoformat_minutes acc (name, group)) k = true ->
  py.contains Z.eqb acc k = true \/ (exists d, In d group /\ id d = k).
Proof.
  unfold utils.assign_group.
  assert (Loop : forall acc',
    py.contains Z.eqb
      (fold_left utils.assign_subgroup
         (group_by (utils.display_name isoformat_minutes name) group []) acc') k = true ->
    py.contains Z.eqb acc' k = true \/ (exists d, In d group /\ id d = k)).
  { intros acc' H.
    apply (fold_left_keys_from Z.eqb _
             (fun (item : string * list Dataset) k =>
                exists d, In d (snd item) /\ id d = k)) in H;
      [|intros a [D S] k' C; now apply assign_subgroup_keys in C].
    destruct H as [C|([D S] & I & d & Id & E)]; [now left|].
    right. exists d. split; [|assumption].
    destruct (grouped_item _ _ _ _ _ (group_by_grouped _ group) I) as [-> _].
    simpl in Id. now apply members_in in Id. }
  destruct group as [|d0 [|d1 group]]; try apply Loop.
  intro H. apply (contains_set_inv _ Zeqb_eq) in H. destruct H as [H| ->]; [now left|].
  right. exists d0. split; [now left|reflexivity].
Qed.

(** X2: [deduplicate_names] names exactly the identifiers of the
    collection: every dataset receives a name, and no other key is in
    the result. *)
Theorem deduplicate_names_domain (datasets : list Dataset) (k : Z) :
  py.contains Z.eqb (utils.deduplicate_names isoformat_minutes datasets) k = true
  <-> exists d, In d datasets /\ id d = k.
Proof.
  split.
  - unfold utils.deduplicate_names. rewrite name_groups_group_by. intro H.
    apply (fold_left_keys_from Z.eqb _
             (fun (item : string * list Dataset) k =>
                exists d, In d (snd item) /\ id d = k)) in H;
      [|intros a [n G] k' C; now apply assign_group_keys in C].
    destruct H as [C|([n G] & I & d & Id & E)]; [discriminate|].
    exists d. split; [|assumption].
    destruct (grouped_item _ _ _ _ _ (group_by_grouped _ datasets) I) as [-> _].
    simpl in Id. now apply members_in in Id.
  - intros (d & I & <-). now apply deduplicate_names_total.
Qed.

(** X3: in a collection with distinct identifiers the name of a dataset
    is, in closed form: its sanitized base name when no other dataset
    has that base name; else the base name followed by the formatted
    start time when no other dataset of that base name has that time;
    else that followed by the identifier in brackets.  In particular a
    dataset whose base name is its own keeps it. *)
Theorem deduplicate_names_closed_form (datasets : list Dataset) (d : Dataset) :
  NoDup (map id datasets) -> In d datasets ->
  py.get Z.eqb (utils.deduplicate_names isoformat_minutes datasets) (id d)
  = Some (assigned_name isoformat_minutes datasets d)
  /\ ((forall d', In d' datasets -> base d' = base d -> d' = d) ->
      py.get Z.eqb (utils.deduplicate_names isoformat_minutes datasets) (id d)
      = Some (base d)).
Proof.
  intros ND I. rewrite (deduplicate_names_get _ _ _ ND I).
  split; [reflexivity|]. intro Alone. f_equal. unfold assigned_name, same_base, members.
  rewrite (filter_only _ datasets d); try assumption.
  - reflexivity.
  - now apply NoDup_map_inv in ND.
  - apply String.eqb_refl.
  - intros x Ix E. apply Alone; [assumption|]. now apply String.eqb_eq.
Qed.

(** X4: datasets with distinct identifiers and one sanitized base name
    receive different names. *)
Theorem names_differ_within_base_name (datasets : list Dataset) (d1 d2 : Dataset) :
  NoDup (map id datasets) -> In d1 datasets -> In d2 datasets -> d1 <> d2 ->
  base d1 = base d2 ->
  py.get Z.eqb (utils.deduplicate_names isoformat_minutes datasets) (id d1)
  <> py.get Z.eqb (utils.deduplicate_names isoformat_minutes datasets) (id d2).
Proof.
  intros ND I1 I2 N B.
  rewrite (deduplicate_names_get _ _ _ ND I1), (deduplicate_names_get _ _ _ ND I2).
  intros [= H]. revert H. apply assigned_names_differ; try assumption.
  intro E. apply N. now apply (nodup_ids_inj datasets).
Qed.
End DedupTheorems.

(** A formatter for well-formed timestamps: the first sixteen
    characters, the [T] between date and time made a blank. *)
Definition plain_minutes (s : string) : option string :=
  match s with
  | EmptyString => None
  | _ => Some (py.replace_char "T"%char " " (String.substring 0 16 s))
  end.

(** Three datasets of the base name [a_b], two of them started in the
    same minute, and one dataset alone with its name. *)
Definition named_alike : list Dataset :=
  [mkDataset 1 (Some "a/b") (Some "2024-06-15T10:30:00Z") None;
   mkDataset 2 (Some "a_b ") (Some "2024-06-15T10:30:59Z") None;
   mkDataset 3 (Some "a_b") (Some "2024-06-16T08:00:00Z") None;
   mkDataset 4 (Some "solo") None None].

Lemma named_alike_ids : NoDup (map id named_alike).
Proof. simpl. repeat constructor; simpl; intuition discriminate. Qed.

Lemma deduplicate_names_closed_form_witness :
  py.get Z.eqb (utils.deduplicate_names plain_minutes named_alike) 4
  = Some "solo"
  /\ py.get Z.eqb (utils.deduplicate_names plain_minutes named_alike) 3
     = Some "a_b (2024-06-16 08:00)"
  /\ py.get Z.eqb (utils.deduplicate_names plain_minutes named_alike) 1
     = Some "a_b (2024-06-15 10:30) [1]".
Proof.
  split; [|split].
  - apply (proj1 (deduplicate_names_closed_form plain_minutes named_alike
                    (mkDataset 4 (Some "solo") None None) named_alike_ids
                    ltac:(simpl; tauto))).
  - apply (proj1 (deduplicate_names_closed_form plain_minutes named_alike
                    (mkDataset 3 (Some "a_b") (Some "2024-06-16T08:00:00Z") None)
                    named_alike_ids ltac:(simpl; tauto))).
  - apply (proj1 (deduplicate_names_closed_form plain_minutes named_alike
                    (mkDataset 1 (Some "a/b") (Some "2024-06-15T10:30:00Z") None)
                    named_alike_ids ltac:(simpl; tauto))).
Defined.

Lemma names_differ_within_base_name_witness :
  py.get Z.eqb (utils.deduplicate_names plain_minutes named_alike) 1
  <> py.get Z.eqb (utils.deduplicate_names plain_minutes named_alike) 2.
Proof.
  apply (names_differ_within_base_name plain_minutes named_alike
           (mkDataset 1 (Some "a/b") (Some "2024-06-15T10:30:00Z") None)
           (mkDataset 2 (Some "a_b ") (Some "2024-06-15T10:30:59Z") None)
           named_alike_ids).
  - simpl. tauto.
  - simpl. tauto.
  - discriminate.
  - reflexivity.
Defined.

(** *** The characters of a folder name *)

Lemma fold_left_invariant {A S : Type} (Inv : S -> Prop) (step : S -> A -> S)
    (items : list A) :
  (forall acc a, In a items -> Inv acc -> Inv (step acc a)) ->
  forall acc, Inv acc -> Inv (fold_left step items acc).
Proof.
  induction items as [|a items IH]; intros Step acc H; simpl; [assumption|].
  apply IH; [intros; apply Step; auto; now right|].
  apply Step; [now left|assumption].
Qed.

(** Every value of the dictionary satisfies [P]. *)
Definition all_values {K V : Type} (eqb : K -> K -> bool) (P : V -> Prop)
    (d : list (K * V)) : Prop :=
  forall k v, py.get eqb d k = Some v -> P v.

Lemma all_values_set (P : string -> Prop) (d : list (Z * string)) k v :
  all_values Z.eqb P d -> P v -> all_values Z.eqb P (py.set Z.eqb d k v).
Proof.
  intros H Pv k' v'. destruct (Z.eq_dec k' k) as [->|N].
  - rewrite (get_set_same _ Zeqb_eq). now intros [= <-].
  - rewrite (get_set_other _ Zeqb_eq) by assumption. apply H.
Qed.

Section NameCharacters.
Variable isoformat_minutes : string -> option string.
Variable c : ascii.
Hypothesis not_sanitized : forall n, ~ occurs c (utils._sanitize n).
Hypothesis not_formatted :
  forall s ts, isoformat_minutes s = Some ts -> ~ occurs c ts.
Hypothesis not_decoration : ~ occurs c " ()[]-0123456789".

Lemma not_in_str (n : Z) : ~ occurs c (py.str n).
Proof.
  intro H. apply not_decoration. apply str_chars in H. destruct H as [D| ->].
  - unfold py.isdigit in D. apply andb_prop in D. destruct D as [Lo Hi].
    apply Nat.leb_le in Lo, Hi.
    rewrite <- (ascii_nat_embedding c).
    remember (nat_of_ascii c) as n' eqn:E. clear E.
    do 48 (destruct n' as [|n']; [lia|]).
    do 10 (destruct n' as [|n']; [unfold occurs; simpl; tauto|]). lia.
  - unfold occurs. simpl. tauto.
Qed.

Lemma not_in_display (name : string) (d : Dataset) :
  ~ occurs c name -> ~ occurs c (utils.display_name isoformat_minutes name d).
Proof.
  intro N. unfold utils.display_name, utils._format_timestamp.
  destruct (experiment_start_time d) as [[|a s]|]; try assumption.
  destruct (isoformat_minutes _) as [[|b ts]|] eqn:F; try assumption.
  intro H. apply occurs_append in H. destruct H as [H|H]; [now apply N|].
  apply occurs_append in H. destruct H as [H|H].
  - apply not_decoration. unfold occurs in *. simpl in *. tauto.
  - apply occurs_append in H. destruct H as [H|H].
    + now apply (not_formatted _ _ F).
    + apply not_decoration. unfold occurs in *. simpl in *. tauto.
Qed.

Lemma not_in_bracketed (display : string) (n : Z) :
  ~ occurs c display -> ~ occurs c (display ++ " [" ++ py.str n ++ "]")%string.
Proof.
  intros N H. apply occurs_append in H. destruct H as [H|H]; [now apply N|].
  apply occurs_append in H. destruct H as [H|H].
  - apply not_decoration. unfold occurs in *. simpl in *. tauto.
  - apply occurs_append in H. destruct H as [H|H].
    + now apply (not_in_str n).
    + apply not_decoration. unfold occurs in *. simpl in *. tauto.
Qed.

Lemma assign_subgroup_values acc display sub :
  ~ occurs c display ->
  all_values Z.eqb (fun v => ~ occurs c v) acc ->
  all_values Z.eqb (fun v => ~ occurs c v) (utils.assign_subgroup acc (display, sub)).
Proof.
  intros N H. unfold utils.assign_subgroup.
  assert (Loop : all_values Z.eqb (fun v => ~ occurs c v)
    (fold_left
       (fun r ds =>
          py.set Z.eqb r (id ds) (display ++ " [" ++ py.str (id ds) ++ "]")%string)
       sub acc)).
  { apply fold_left_invariant; [|assumption].
    intros acc' d _ H'. apply all_values_set; [assumption|].
    now apply not_in_bracketed. }
  destruct sub as [|d0 [|d1 sub]]; try exact Loop.
  now apply all_values_set.
Qed.

Lemma assign_group_values acc name group :
  ~ occurs c name ->
  all_values Z.eqb (fun v => ~ occurs c v) acc ->
  all_values Z.eqb (fun v => ~ occurs c v)
    (utils.assign_group isoformat_minutes acc (name, group)).
Proof.
  intros N H. unfold utils.assign_group.
  assert (Loop : all_values Z.eqb (fun v => ~ occurs c v)
    (fold_left utils.assign_subgroup
       (group_by (utils.display_name isoformat_minutes name) group []) acc)).
  { apply fold_left_invariant; [|assumption].
    intros acc' [display sub] I H'. apply assign_subgroup_values; [|assumption].
    destruct (grouped_item _ _ _ _ _ (group_by_grouped _ group) I) as [E Ne].
    destruct sub as [|x sub]; [contradiction|].
    assert (Ix : In x (members (utils.display_name isoformat_minutes name) display group))
      by (rewrite <- E; now left).
    apply members_in in Ix. destruct Ix as [_ <-]. now apply not_in_display. }
  destruct group as [|d0 [|d1 group]]; try exact Loop.
  now apply all_values_set.
Qed.

Lemma deduplicate_names_values (datasets : list Dataset) :
  all_values Z.eqb (fun v => ~ occurs c v)
    (utils.deduplicate_names isoformat_minutes datasets).
Proof.
  unfold utils.deduplicate_names. rewrite name_groups_group_by.
  apply fold_left_invariant; [|intros k v; discriminate].
  intros acc [name group] I H. apply assign_group_values; [|assumption].
  destruct (grouped_item _ _ _ _ _ (group_by_grouped _ datasets) I) as [E Ne].
  destruct group as [|x group]; [contradiction|].
  assert (Ix : In x (members base name datasets)) by (rewrite <- E; now left).
  apply members_in in Ix. destruct Ix as [_ <-]. apply not_sanitized.
Qed.
End NameCharacters.

(** X5: with a timestamp format free of slashes and NULs, as
    [%Y-%m-%d %H:%M] is, no folder name holds a slash or a NUL. *)
Theorem folder_names_without_separator
    (isoformat_minutes : string -> option string) (datasets : list Dataset)
    (k : Z) (name : string) :
  (forall s ts, isoformat_minutes s = Some ts ->
                ~ occurs "/" ts /\ ~ occurs "000" ts) ->
  py.get Z.eqb (utils.deduplicate_names isoformat_minutes datasets) k = Some name ->
  ~ occurs "/" name /\ ~ occurs "000" name.
Proof.
  intros F G. split.
  - refine (deduplicate_names_values isoformat_minutes "/"%char _ _ _ datasets k name G).
    + intro n. apply sanitize_excludes. now left.
    + intros s ts E. now apply (F s ts).
    + unfold occurs. simpl. intuition discriminate.
  - refine (deduplicate_names_values isoformat_minutes "000"%char _ _ _ datasets k name G).
    + intro n. apply sanitize_excludes. now right.
    + intros s ts E. now apply (F s ts).
    + unfold occurs. simpl. intuition discriminate.
Qed.

(** A formatter that reads every timestamp as one minute. *)
Definition fixed_minutes (s : string) : option string := Some "2024-06-15 10:30".

Lemma folder_names_without_separator_witness :
  ~ occurs "/" "a_b (2024-06-15 10:30) [1]"
  /\ ~ occurs "000" "a_b (2024-06-15 10:30) [1]".
Proof.
  apply (folder_names_without_separator fixed_minutes named_alike 1).
  - intros s ts [= <-]. unfold occurs. simpl. intuition discriminate.
  - reflexivity.
Defined.

(** ** cache.py: listing a cached directory *)

(** The order of [sorted] on names. *)
Definition name_le (a b : string) : Prop := String.leb a b = true.

Lemma insert_name_perm x l : Permutation (x :: l) (cache.insert_name x l).
Proof.
  induction l as [|y l IH]; simpl; [reflexivity|].
  destruct (String.leb x y); [reflexivity|].
  rewrite perm_swap. now constructor.
Qed.

Lemma sort_names_perm l : Permutation l (fold_right cache.insert_name [] l).
Proof.
  induction l as [|x l IH]; simpl; [constructor|].
  rewrite <- insert_name_perm. now constructor.
Qed.

Lemma insert_name_hd a x l :
  HdRel name_le a l -> name_le a x -> HdRel name_le a (cache.insert_name x l).
Proof.
  intros H Hax. destruct l as [|y l]; simpl; [now constructor|].
  destruct (String.leb x y); constructor; [assumption|]. now inversion H.
Qed.

Lemma insert_name_sorted x l :
  Sorted name_le l -> Sorted name_le (cache.insert_name x l).
Proof.
  induction l as [|y l IH]; simpl; intro S.
  - repeat constructor.
  - destruct (String.leb x y) eqn:L.
    + constructor; [assumption|]. now constructor.
    + inversion S as [|? ? S' Hd]; subst. constructor; [auto|].
      apply insert_name_hd; [assumption|].
      unfold name_le. destruct (String.leb_total x y) as [H|H]; congruence.
Qed.

Lemma sort_names_sorted l : Sorted name_le (fold_right cache.insert_name [] l).
Proof.
  induction l as [|x l IH]; simpl; [constructor|]. now apply insert_name_sorted.
Qed.

(** X6: [list_entries] returns the names of the children of the target
    directory, each as often as the directory holds it, in ascending
    order; for a target that is not a directory it returns nothing.
    The target is the subpath joined to the dataset directory, without
    any check that it stays inside. *)
Theorem list_entries_sorted (self : cache.DownloadCache) (fs : os.node)
    (dataset_id : Z) (subpath : string) :
  let target := os.joinpath (cache._dataset_dir self dataset_id) subpath in
  let listed := cache.list_entries self fs dataset_id subpath in
  Sorted name_le listed
  /\ Permutation (map fst (os.iterdir fs target)) listed
  /\ (os.is_dir fs target = false -> listed = []).
Proof.
  cbv zeta. unfold cache.list_entries.
  assert (T : (if String.eqb subpath "" then cache._dataset_dir self dataset_id
               else os.joinpath (cache._dataset_dir self dataset_id) subpath)
              = os.joinpath (cache._dataset_dir self dataset_id) subpath).
  { destruct (String.eqb_spec subpath "") as [->|N]; [|reflexivity].
    unfold os.joinpath. simpl. now rewrite parse_empty, app_nil_r. }
  rewrite T.
  set (target := os.joinpath (cache._dataset_dir self dataset_id) subpath).
  destruct (os.is_dir fs target) eqn:D; simpl.
  - split; [apply sort_names_sorted|]. split; [apply sort_names_perm|discriminate].
  - split; [constructor|]. split; [|reflexivity].
    unfold os.is_dir in D. unfold os.iterdir.
    destruct (os.lookup fs target) as [[s t|t es]|]; try discriminate; constructor.
Qed.

(** ** cache.py: [resolve_path] on subpaths without [..] *)

Lemma prefix_append (a b : string) : String.prefix a (a ++ b) = true.
Proof.
  induction a as [|c a IH]; simpl.
  - now destruct b.
  - destruct (Ascii.ascii_dec c c); [assumption|contradiction].
Qed.

Lemma join_app_extends (sep : string) (p q : list string) :
  exists rest, py.join sep (p ++ q) = (py.join sep p ++ rest)%string.
Proof.
  induction p as [|w p IH].
  - exists (py.join sep q). reflexivity.
  - destruct p as [|w' p].
    + destruct q as [|v q].
      * exists "". simpl. now rewrite append_empty_r.
      * exists (sep ++ py.join sep (v :: q))%string. reflexivity.
    + destruct IH as [rest E].
      exists rest. change (py.join sep ((w :: w' :: p) ++ q))
        with (w ++ sep ++ py.join sep ((w' :: p) ++ q))%string.
      rewrite E.
      change (py.join sep (w :: w' :: p))
        with (w ++ sep ++ py.join sep (w' :: p))%string.
      now rewrite !append_assoc.
Qed.

Lemma str_prefix (p q : os.path) :
  py.startswith (os.str (p ++ q)) (os.str p) = true.
Proof.
  unfold py.startswith, os.str.
  destruct (join_app_extends "/" p q) as [rest ->].
  rewrite <- append_assoc. apply prefix_append.
Qed.

Lemma resolve_path_normal (self : cache.DownloadCache) (fs : os.node)
    (dataset_id : Z) (subpath : string) :
  os.resolve (cache._root self) = cache._root self ->
  py.startswith subpath "/" = false ->
  ~ In ".." (os.parse subpath) ->
  cache.resolve_path self fs dataset_id subpath
  = (if os.exists_ fs (cache._dataset_dir self dataset_id ++ os.parse subpath)
     then Some (cache._dataset_dir self dataset_id ++ os.parse subpath)
     else None).
Proof.
  intros Canon Rel Normal.
  assert (D : os.resolve (cache._dataset_dir self dataset_id)
              = cache._dataset_dir self dataset_id).
  { unfold cache._dataset_dir.
    rewrite resolve_snoc by apply str_not_dotdot. now rewrite Canon. }
  unfold cache.resolve_path, os.joinpath.
  rewrite Rel, resolve_app_normal, D by assumption. now rewrite str_prefix.
Qed.

(** X7: for a relative subpath without a [..] component, under a
    canonical cache root, [resolve_path] is the lookup of the
    subpath's components below the dataset directory: the path when it
    exists, else absent; and what it returns lies inside the dataset
    directory and exists. *)
Theorem resolve_path_of_normal_subpath (self : cache.DownloadCache)
    (fs : os.node) (dataset_id : Z) (subpath : string) :
  os.resolve (cache._root self) = cache._root self ->
  py.startswith subpath "/" = false ->
  ~ In ".." (os.parse subpath) ->
  let target := cache._dataset_dir self dataset_id ++ os.parse subpath in
  cache.resolve_path self fs dataset_id subpath
  = (if os.exists_ fs target then Some target else None)
  /\ forall p, cache.resolve_path self fs dataset_id subpath = Some p ->
               within (cache._dataset_dir self dataset_id) p
               /\ os.exists_ fs p = true.
Proof.
  intros Canon Rel Normal target.
  pose proof (resolve_path_normal self fs dataset_id subpath Canon Rel Normal) as E.
  fold target in E. split; [exact E|]. intros p. rewrite E.
  destruct (os.exists_ fs target) eqn:X; [|discriminate].
  intros [= <-]. split; [|assumption]. now exists (os.parse subpath).
Qed.

Lemma resolve_path_of_normal_subpath_witness :
  cache.resolve_path a_cache cached_tree 5 "pdata/./1r"
  = Some ["c"; "5"; "pdata"; "1r"]
  /\ forall p, cache.resolve_path a_cache cached_tree 5 "pdata/./1r" = Some p ->
               within (cache._dataset_dir a_cache 5) p
               /\ os.exists_ cached_tree p = true.
Proof.
  apply (resolve_path_of_normal_subpath a_cache cached_tree 5 "pdata/./1r").
  - reflexivity.
  - reflexivity.
  - vm_compute. intuition discriminate.
Defined.

(** ** cache.py: [_unwrap] *)

Section MoreEntries.
Implicit Types (es A B : list (string * os.node)) (c : string).

Lemma not_in_find_none c es : ~ In c (map fst es) -> os.find c es = None.
Proof.
  induction es as [|[k m] es IH]; simpl; [reflexivity|].
  intro N. destruct (String.eqb_spec k c) as [->|_]; [tauto|]. apply IH. tauto.
Qed.

Lemma find_split c es n :
  os.find c es = Some n ->
  exists A B, es = A ++ (c, n) :: B /\ os.find c A = None.
Proof.
  induction es as [|[k m] es IH]; simpl; [discriminate|].
  destruct (String.eqb_spec k c) as [->|N].
  - intros [= ->]. now exists [], es.
  - intro H. destruct (IH H) as (A & B & -> & F).
    exists ((k, m) :: A), B. split; [reflexivity|]. simpl.
    destruct (String.eqb_spec k c); [contradiction|assumption].
Qed.

Lemma find_middle c A B n :
  os.find c A = None -> os.find c (A ++ (c, n) :: B) = Some n.
Proof.
  intro H. rewrite (find_app_absent _ _ _ H). simpl. now rewrite String.eqb_refl.
Qed.

Lemma map_first_middle c g A B n :
  os.find c A = None ->
  os.map_first c g (A ++ (c, n) :: B) = A ++ (c, g n) :: B.
Proof.
  intro H. rewrite (map_first_app_absent _ _ _ _ H). simpl.
  now rewrite String.eqb_refl.
Qed.

Lemma remove_entry_middle c A B n :
  ~ In c (map fst A) -> ~ In c (map fst B) ->
  os.remove_entry c (A ++ (c, n) :: B) = A ++ B.
Proof.
  intros NA NB. rewrite remove_entry_app. simpl. rewrite String.eqb_refl. simpl.
  rewrite !remove_entry_absent by now apply not_in_find_none. reflexivity.
Qed.

Lemma nodup_names_remove_entry c es :
  NoDup (map fst es) -> NoDup (map fst (os.remove_entry c es)).
Proof.
  induction es as [|[k m] es IH]; simpl; [constructor|].
  intro ND. inversion ND as [|? ? NI ND']; subst.
  destruct (negb (String.eqb k c)); simpl; [|auto].
  constructor; [|auto]. intro H. apply NI.
  apply in_map_iff in H. destruct H as (x & E & I).
  apply filter_In in I. apply in_map_iff. exists x. tauto.
Qed.

Lemma in_remove_entry c es e :
  In e (os.remove_entry c es) <-> In e es /\ fst e <> c.
Proof.
  unfold os.remove_entry. rewrite filter_In.
  destruct (String.eqb_spec (fst e) c); simpl; intuition congruence.
Qed.
End MoreEntries.

Section Unwrap.
Variable d : os.path.
Variable experiment : string.
Variables A B : list (string * os.node).
Hypothesis experiment_once : os.find experiment A = None.

(** The entries of [d] while the children of the experiment directory
    move up: those still inside it, and those behind the entries that
    were there. *)
Definition unwrapping (t' : Z) (inside moved : list (string * os.node))
    : list (string * os.node) :=
  A ++ (experiment, os.Dir t' inside) :: B ++ moved.

Lemma unwrapping_names t' inside moved :
  map fst (unwrapping t' inside moved)
  = map fst A ++ experiment :: map fst B ++ map fst moved.
Proof. unfold unwrapping. rewrite map_app. simpl. now rewrite map_app. Qed.

Lemma move_up fs t t' c m rest moved now :
  os.lookup fs d = Some (os.Dir t (unwrapping t' ((c, m) :: rest) moved)) ->
  ~ In c (map fst A ++ experiment :: map fst B ++ map fst moved) ->
  ~ In c (map fst rest) ->
  exists fs',
    os.rename fs (d ++ [experiment]) c d c now = Return fs'
    /\ os.lookup fs' d
       = Some (os.Dir now (unwrapping now rest (moved ++ [(c, m)]))).
Proof.
  intros L Free Once. unfold os.rename.
  assert (Lc : os.lookup fs ((d ++ [experiment]) ++ [c]) = Some m).
  { rewrite lookup_app, (lookup_child _ _ _ _ _ L).
    unfold unwrapping. rewrite (find_middle _ _ _ _ experiment_once). simpl.
    now rewrite String.eqb_refl. }
  rewrite Lc.
  assert (Dd : os.is_dir fs d = true) by (unfold os.is_dir; now rewrite L).
  rewrite Dd. cbn [negb].
  assert (Ld : os.lookup fs (d ++ [c]) = None).
  { rewrite (lookup_child _ _ _ _ _ L). apply not_in_find_none.
    now rewrite unwrapping_names. }
  rewrite Ld. eexists. split; [reflexivity|].
  unfold os.put, os.remove.
  assert (L1 : os.lookup (os.with_dir fs (d ++ [experiment]) now (os.remove_entry c)) d
               = Some (os.Dir t (unwrapping now rest moved))).
  { rewrite (lookup_with_dir_below _ _ _ [] _ _ _ _ L). f_equal. f_equal.
    unfold unwrapping. rewrite (map_first_middle _ _ _ _ _ experiment_once).
    simpl. rewrite String.eqb_refl. simpl.
    rewrite remove_entry_absent by now apply not_in_find_none. reflexivity. }
  rewrite (lookup_with_dir _ _ _ _ _ _ L1). f_equal. f_equal.
  unfold os.put_entry.
  rewrite not_in_find_none by now rewrite unwrapping_names.
  unfold unwrapping. rewrite <- app_assoc. simpl. now rewrite <- app_assoc.
Qed.

Lemma move_all_up (inside : list (string * os.node)) :
  forall moved w t t',
    os.lookup (fs w) d = Some (os.Dir t (unwrapping t' inside moved)) ->
    NoDup (map fst inside) ->
    (forall c, In c (map fst inside) ->
               ~ In c (map fst A ++ experiment :: map fst B ++ map fst moved)) ->
    exists fs' t1 t2,
      for_each inside
        (fun child =>
           os_do (fun fs now =>
                    os.rename fs (d ++ [experiment]) (fst child) d (fst child) now)) w
      = (Return tt, set_fs w fs')
      /\ os.lookup fs' d = Some (os.Dir t1 (unwrapping t2 [] (moved ++ inside)))
      /\ (inside = [] -> fs' = fs w)
      /\ (inside <> [] -> t1 = clock w).
Proof.
  induction inside as [|[c m] rest IH]; intros moved w t t' L ND Free.
  - exists (fs w), t, t'. simpl. rewrite set_fs_same, app_nil_r.
    repeat split; [assumption|congruence].
  - inversion ND as [|? ? NI ND']; subst.
    destruct (move_up (fs w) t t' c m rest moved (clock w) L) as (fs1 & R & L1).
    + apply Free. now left.
    + assumption.
    + simpl. unfold bind. unfold os_do at 1. simpl in R. rewrite R.
      destruct (IH (moved ++ [(c, m)]) (set_fs w fs1) (clock w) (clock w) L1 ND')
        as (fs' & t1 & t2 & Run & L' & _ & T).
      * intros c' I' H. rewrite map_app in H. simpl in H.
        apply in_app_or in H. destruct H as [H|[H|H]].
        -- apply (Free c' (or_intror I')). apply in_or_app. now left.
        -- apply (Free c' (or_intror I')). apply in_or_app. right. now left.
        -- apply in_app_or in H. destruct H as [H|H].
           ++ apply (Free c' (or_intror I')). apply in_or_app. right. right.
              apply in_or_app. now left.
           ++ apply in_app_or in H. destruct H as [H|[H|[]]].
              ** apply (Free c' (or_intror I')). apply in_or_app. right. right.
                 apply in_or_app. now right.
              ** subst. contradiction.
      * rewrite Run. exists fs', t1, t2. split; [reflexivity|].
        split; [now rewrite <- app_assoc in L'|].
        split; [discriminate|]. intros _.
        destruct rest as [|e rest'].
        -- simpl in Run. injection Run as Run.
           subst fs'. rewrite L1 in L'. now injection L'.
        -- apply T. discriminate.
Qed.
End Unwrap.

Lemma bind_return {X Y : Type} (c : M X) (k : X -> M Y) (w w1 : world) (a : X) :
  c w = (Return a, w1) -> bind c k w = k a w1.
Proof. intro H. unfold bind. now rewrite H. Qed.

Lemma bind_gets {X Y : Type} (f : world -> X) (k : X -> M Y) (w : world) :
  bind (gets f) k w = k (f w) w.
Proof. reflexivity. Qed.

(** The first step of [_unwrap]: the manifest goes, if there is one. *)
Lemma unwrap_manifest (d : os.path) (w : world) t es :
  os.lookup (fs w) d = Some (os.Dir t es) ->
  os.is_dir (fs w) (d ++ ["experiments.csv"]) = false ->
  exists fs1 t1,
    (if os.exists_ (fs w) (d ++ ["experiments.csv"])
     then os_do (fun fs now => os.unlink fs d "experiments.csv" now)
     else ret tt) w
    = (Return tt, set_fs w fs1)
    /\ os.lookup fs1 d = Some (os.Dir t1 (os.remove_entry "experiments.csv" es))
    /\ (os.find "experiments.csv" es = None -> fs1 = fs w).
Proof.
  intros L NotDir. unfold os.exists_, os.is_dir in *.
  rewrite (lookup_child _ _ _ _ _ L) in *.
  destruct (os.find "experiments.csv" es) as [[s tf|td ed]|] eqn:F;
    try discriminate.
  - unfold os_do, os.unlink, os.is_file.
    rewrite (lookup_child _ _ _ _ _ L), F.
    exists (os.remove (fs w) d "experiments.csv" (clock w)), (clock w).
    split; [reflexivity|]. split; [|discriminate].
    unfold os.remove. now apply (lookup_with_dir _ _ _ _ t es).
  - exists (fs w), t. rewrite set_fs_same. split; [reflexivity|].
    split; [|reflexivity]. now rewrite remove_entry_absent.
Qed.

Lemma unwrap_flattens_run (d : os.path) (w : world) (t : Z)
    (es : list (string * os.node)) (experiment : string) (t0 : Z)
    (children : list (string * os.node)) :
  let kept := os.remove_entry "experiments.csv" es in
  os.lookup (fs w) d = Some (os.Dir t es) ->
  NoDup (map fst es) ->
  os.is_dir (fs w) (d ++ ["experiments.csv"]) = false ->
  filter cache.is_dir_entry kept = [(experiment, os.Dir t0 children)] ->
  NoDup (map fst children) ->
  (forall c, In c (map fst children) -> ~ In c (map fst kept)) ->
  exists fs',
    cache._unwrap d w = (Return tt, set_fs w fs')
    /\ os.lookup fs' d
       = Some (os.Dir (clock w) (os.remove_entry experiment kept ++ children)).
Proof.
  intros kept L ND NotDir One NDc Free.
  destruct (unwrap_manifest d w t es L NotDir) as (fs1 & t1 & Csv & L1 & _).
  fold kept in L1.
  assert (NDk : NoDup (map fst kept)) by now apply nodup_names_remove_entry.
  assert (Ik : In (experiment, os.Dir t0 children) kept).
  { assert (I : In (experiment, os.Dir t0 children) (filter cache.is_dir_entry kept))
      by (rewrite One; now left).
    now apply filter_In in I. }
  pose proof (find_in_nodup _ _ _ NDk Ik) as F.
  destruct (find_split _ _ _ F) as (A & B & Ek & FA).
  assert (Names : map fst kept = map fst A ++ experiment :: map fst B)
    by (rewrite Ek, map_app; reflexivity).
  assert (NA : ~ In experiment (map fst A)) by now apply find_none_not_in.
  assert (NB : ~ In experiment (map fst B)).
  { rewrite Names in NDk. apply NoDup_remove_2 in NDk.
    intro H. apply NDk. apply in_or_app. now right. }
  assert (Nc : ~ In experiment (map fst children)).
  { intro H. apply (Free _ H). rewrite Names. apply in_or_app. right. now left. }
  set (w1 := set_fs w fs1).
  assert (L1' : os.lookup (fs w1) d
                = Some (os.Dir t1 (unwrapping experiment A B t0 children []))).
  { unfold unwrapping. rewrite app_nil_r, <- Ek. exact L1. }
  destruct (move_all_up d experiment A B FA children [] w1 t1 t0 L1' NDc)
    as (fs2 & t2 & t3 & Loop & L2 & _).
  { intros c I. simpl. rewrite app_nil_r, <- Names. now apply Free. }
  simpl in L2.
  unfold cache._unwrap. rewrite bind_gets, (bind_return _ _ _ _ _ Csv), bind_gets.
  fold w1. unfold os.iterdir at 1. simpl. rewrite L1, One.
  rewrite bind_gets. unfold os.iterdir.
  change (fs (set_fs w fs1)) with (fs w1).
  rewrite (lookup_child _ _ _ _ _ L1'). unfold unwrapping at 1.
  rewrite (find_middle _ _ _ _ FA).
  rewrite (bind_return _ _ _ _ _ Loop).
  unfold os_do, os.rmdir. simpl.
  rewrite (lookup_child _ _ _ _ _ L2). unfold unwrapping at 1.
  rewrite (find_middle _ _ _ _ FA).
  eexists. split; [reflexivity|].
  unfold os.remove. rewrite (lookup_with_dir _ _ _ _ _ _ L2). f_equal. f_equal.
  unfold unwrapping. rewrite Ek.
  rewrite !remove_entry_middle; try assumption.
  - now rewrite app_assoc.
  - rewrite map_app. intro H. apply in_app_or in H. tauto.
Qed.

(** X8: on the shape the download has (a manifest, one experiment
    directory, files beside it), [_unwrap] removes the manifest and
    the experiment directory and puts the children of the experiment
    directory, unchanged and in their order, behind the entries that
    stay; provided no child takes a name that is in use.  The
    experiment directory is gone afterwards. *)
Theorem unwrap_flattens (d : os.path) (w : world) (t : Z)
    (es : list (string * os.node)) (experiment : string) (t0 : Z)
    (children : list (string * os.node)) :
  let kept := os.remove_entry "experiments.csv" es in
  os.lookup (fs w) d = Some (os.Dir t es) ->
  NoDup (map fst es) ->
  os.is_dir (fs w) (d ++ ["experiments.csv"]) = false ->
  filter cache.is_dir_entry kept = [(experiment, os.Dir t0 children)] ->
  NoDup (map fst children) ->
  (forall c, In c (map fst children) -> ~ In c (map fst kept)) ->
  exists fs',
    cache._unwrap d w = (Return tt, set_fs w fs')
    /\ os.lookup fs' d
       = Some (os.Dir (clock w) (os.remove_entry experiment kept ++ children))
    /\ os.exists_ fs' (d ++ [experiment]) = false.
Proof.
  intros kept L ND NotDir One NDc Free.
  destruct (unwrap_flattens_run d w t es experiment t0 children L ND NotDir One
              NDc Free) as (fs' & Run & L').
  exists fs'. split; [exact Run|]. split; [exact L'|].
  unfold os.exists_. rewrite (lookup_child _ _ _ _ _ L').
  assert (Ik : In experiment (map fst kept)).
  { assert (I : In (experiment, os.Dir t0 children) (filter cache.is_dir_entry kept))
      by (rewrite One; now left).
    apply filter_In in I. destruct I as [I _]. now apply (in_map fst) in I. }
  rewrite not_in_find_none; [reflexivity|].
  rewrite map_app. intro H. apply in_app_or in H. destruct H as [H|H].
  - apply in_map_iff in H. destruct H as (x & E & Ix).
    apply in_remove_entry in Ix. now destruct Ix.
  - now apply (Free _ H).
Qed.

(** X9: on any other shape (no subdirectory, or several) [_unwrap]
    removes the manifest and leaves the rest as it is; without a
    manifest it changes nothing. *)
Theorem unwrap_leaves_other_shapes (d : os.path) (w : world) (t : Z)
    (es : list (string * os.node)) :
  let kept := os.remove_entry "experiments.csv" es in
  os.lookup (fs w) d = Some (os.Dir t es) ->
  os.is_dir (fs w) (d ++ ["experiments.csv"]) = false ->
  List.length (filter cache.is_dir_entry kept) <> 1%nat ->
  exists fs' t',
    cache._unwrap d w = (Return tt, set_fs w fs')
    /\ os.lookup fs' d = Some (os.Dir t' kept)
    /\ (os.find "experiments.csv" es = None -> fs' = fs w).
Proof.
  intros kept L NotDir Shape.
  destruct (unwrap_manifest d w t es L NotDir) as (fs1 & t1 & Csv & L1 & Same).
  fold kept in L1. exists fs1, t1.
  split; [|split; assumption].
  unfold cache._unwrap. rewrite bind_gets, (bind_return _ _ _ _ _ Csv), bind_gets.
  unfold os.iterdir. simpl. rewrite L1.
  destruct (filter cache.is_dir_entry kept) as [|[e n] [|e' l]]; try reflexivity.
  now contradiction Shape.
Qed.

(** A staging directory as the download leaves it, and one with two
    experiment directories. *)
Definition staged_download : os.node :=
  os.Dir 0
    [("t", os.Dir 1
       [("experiments.csv", os.File 10 1);
        ("readme", os.File 5 1);
        ("exp", os.Dir 1 [("fid", os.File 4096 1);
                          ("pdata", os.Dir 1 [("1r", os.File 2048 1)])])]);
     ("u", os.Dir 1
       [("experiments.csv", os.File 10 1);
        ("a", os.Dir 1 [("fid", os.File 1 1)]);
        ("b", os.Dir 1 [("fid", os.File 2 1)])])].

Lemma unwrap_flattens_witness :
  exists fs',
    cache._unwrap ["t"] (world_of staged_download no_remote)
    = (Return tt, set_fs (world_of staged_download no_remote) fs')
    /\ os.lookup fs' ["t"]
       = Some (os.Dir 100
                 [("readme", os.File 5 1);
                  ("fid", os.File 4096 1);
                  ("pdata", os.Dir 1 [("1r", os.File 2048 1)])])
    /\ os.exists_ fs' ["t"; "exp"] = false.
Proof.
  apply (unwrap_flattens ["t"] (world_of staged_download no_remote) 1
           [("experiments.csv", os.File 10 1);
            ("readme", os.File 5 1);
            ("exp", os.Dir 1 [("fid", os.File 4096 1);
                              ("pdata", os.Dir 1 [("1r", os.File 2048 1)])])]
           "exp" 1).
  - reflexivity.
  - simpl. repeat constructor; simpl; intuition discriminate.
  - reflexivity.
  - reflexivity.
  - simpl. repeat constructor; simpl; intuition discriminate.
  - intros c I H. simpl in I, H.
    repeat (destruct I as [<-|I];
            [repeat (destruct H as [H|H]; [discriminate H|]); destruct H|]).
    destruct I.
Defined.

Lemma unwrap_leaves_other_shapes_witness :
  exists fs' t',
    cache._unwrap ["u"] (world_of staged_download no_remote)
    = (Return tt, set_fs (world_of staged_download no_remote) fs')
    /\ os.lookup fs' ["u"]
       = Some (os.Dir t' [("a", os.Dir 1 [("fid", os.File 1 1)]);
                          ("b", os.Dir 1 [("fid", os.File 2 1)])])
    /\ (os.find "experiments.csv"
          [("experiments.csv", os.File 10 1);
           ("a", os.Dir 1 [("fid", os.File 1 1)]);
           ("b", os.Dir 1 [("fid", os.File 2 1)])] = None ->
        fs' = fs (world_of staged_download no_remote)).
Proof.
  apply (unwrap_leaves_other_shapes ["u"] (world_of staged_download no_remote) 1
           [("experiments.csv", os.File 10 1);
            ("a", os.Dir 1 [("fid", os.File 1 1)]);
            ("b", os.Dir 1 [("fid", os.File 2 1)])]).
  - reflexivity.
  - reflexivity.
  - vm_compute. intro H. discriminate H.
Defined.

(** ** cache.py: what the eviction sweep leaves *)

Lemma total_size_perm (l l' : list (Z * Z * string)) :
  Permutation l l' -> total_size l = total_size l'.
Proof.
  unfold total_size. induction 1; simpl; lia.
Qed.

Lemma total_size_app (l l' : list (Z * Z * string)) :
  total_size (l ++ l') = total_size l + total_size l'.
Proof.
  unfold total_size. induction l as [|e l IH]; simpl; [reflexivity|].
  rewrite IH. lia.
Qed.

(** The triple the sweep records for a child of the root. *)
Definition entry_of (child : string * os.node) : list (Z * Z * string) :=
  match snd child with
  | os.File _ _ => []
  | os.Dir mtime entries =>
      if py.int_parses (fst child)
      then [(mtime,
             fold_right Z.add 0 (map (fun e => os.tree_size (snd e)) entries),
             fst child)]
      else []
  end.

Lemma in_entry_of child e :
  In e (entry_of child) ->
  entry_name e = fst child /\ py.int_parses (fst child) = true
  /\ cache.is_dir_entry child = true.
Proof.
  unfold entry_of, cache.is_dir_entry. destruct child as [name [s t|t es]]; simpl;
    [tauto|].
  destruct (py.int_parses name); [|intros []].
  intros [<-|[]]. auto.
Qed.

Lemma eviction_entries_local (self : cache.DownloadCache) (fs : os.node) t es :
  os.lookup fs (cache._root self) = Some (os.Dir t es) ->
  NoDup (map fst es) ->
  cache.eviction_entries self fs = flat_map entry_of es.
Proof.
  intros L ND. unfold cache.eviction_entries, os.iterdir. rewrite L.
  assert (Each : forall child, In child es ->
            os.lookup fs (cache._root self ++ [fst child]) = Some (snd child)).
  { intros [name n] I. rewrite (lookup_child _ _ _ _ _ L). simpl.
    now apply find_in_nodup. }
  clear L ND. induction es as [|[name n] es IH]; simpl; [reflexivity|].
  rewrite IH by (intros; apply Each; now right). f_equal.
  unfold entry_of. simpl. destruct n as [s t'|t' cs]; [reflexivity|].
  destruct (py.int_parses name); [|reflexivity].
  unfold cache._dir_size, os.iterdir.
  pose proof (Each (name, os.Dir t' cs) (or_introl eq_refl)) as E. simpl in E.
  now rewrite E.
Qed.

Lemma in_flat_map_entry_of es e :
  In e (flat_map entry_of es) <-> exists child, In child es /\ In e (entry_of child).
Proof. apply in_flat_map. Qed.

(** The entries of the root after the directories of [victims] left. *)
Definition survivors (victims : list (Z * Z * string))
    (es : list (string * os.node)) : list (string * os.node) :=
  fold_left (fun es v => os.remove_entry (entry_name v) es) victims es.

Lemma in_survivors victims : forall es child,
  In child (survivors victims es)
  <-> In child es /\ ~ In (fst child) (map entry_name victims).
Proof.
  induction victims as [|v victims IH]; intros es child; simpl.
  - tauto.
  - rewrite IH, in_remove_entry. intuition congruence.
Qed.

Lemma nodup_survivors victims : forall es,
  NoDup (map fst es) -> NoDup (map fst (survivors victims es)).
Proof.
  induction victims as [|v victims IH]; intros es ND; simpl; [assumption|].
  apply IH. now apply nodup_names_remove_entry.
Qed.

Lemma lookup_remove_all (root : os.path) (now : Z) (victims : list (Z * Z * string)) :
  forall fs t es,
    os.lookup fs root = Some (os.Dir t es) ->
    exists t',
      os.lookup (remove_all root now victims fs) root
      = Some (os.Dir t' (survivors victims es)).
Proof.
  induction victims as [|v victims IH]; intros fs t es L; simpl.
  - now exists t.
  - apply (IH _ now). unfold os.remove. now apply (lookup_with_dir _ _ _ _ t es).
Qed.

Lemma nodup_firstn_skipn_names (k : nat) (l : list (Z * Z * string)) (e : Z * Z * string) :
  NoDup (map entry_name l) ->
  (In e (skipn k l) <-> In e l /\ ~ In (entry_name e) (map entry_name (firstn k l))).
Proof.
  intro ND. rewrite <- (firstn_skipn k l) in ND at 1. rewrite map_app in ND.
  split.
  - intro I. split.
    + rewrite <- (firstn_skipn k l). apply in_or_app. now right.
    + intro H. revert ND H. generalize (map entry_name (firstn k l)).
      intros names ND H.
      induction names as [|n names IHn]; [destruct H|].
      simpl in ND. inversion ND as [|? ? NI ND']; subst.
      destruct H as [->|H]; [|auto].
      apply NI. apply in_or_app. right. now apply in_map.
  - intros [I N]. rewrite <- (firstn_skipn k l) in I. apply in_app_or in I.
    destruct I as [I|I]; [|assumption]. exfalso. apply N. now apply in_map.
Qed.

Section EvictionOutcome.
Variable self : cache.DownloadCache.

End EvictionOutcome.


(** ** cache.py: a cache hit *)

(** X11: for a cached dataset [ensure_downloaded] returns the dataset
    directory, requests no download, runs no sweep and takes no staging
    name: it only stamps the dataset directory with the current time
    (so that the sweep sees it as the most recently used); the entries
    of that directory, its cached size and its being cached stay. *)
Theorem ensure_downloaded_hit (self : cache.DownloadCache) (dataset_id : Z)
    (w : world) :
  cache.is_cached self (fs w) dataset_id = true ->
  let ds_dir := cache._dataset_dir self dataset_id in
  let fs' := os.touch (fs w) ds_dir (clock w) in
  cache.ensure_downloaded self dataset_id w = (Return ds_dir, set_fs w fs')
  /\ (exists t es, os.lookup (fs w) ds_dir = Some (os.Dir t es)
                   /\ os.lookup fs' ds_dir = Some (os.Dir (clock w) es))
  /\ cache.is_cached self fs' dataset_id = true
  /\ cache.cached_size self fs' dataset_id = cache.cached_size self (fs w) dataset_id.
Proof.
  intros C ds_dir fs'.
  destruct (is_cached_lookup _ _ _ C) as (t & e & es & L).
  fold ds_dir in L.
  assert (L' : os.lookup fs' ds_dir = Some (os.Dir (clock w) (e :: es)))
    by now apply (lookup_touch _ _ _ t).
  split; [|split; [|split]].
  - unfold cache.ensure_downloaded, bind. now rewrite (fetch_hit _ _ _ C).
  - exists t, (e :: es). auto.
  - now apply (lookup_is_cached _ _ _ (clock w) e es).
  - unfold cache.cached_size, cache.any_entry, cache._dir_size, os.is_dir, os.iterdir.
    fold ds_dir. now rewrite L, L'.
Qed.

Lemma ensure_downloaded_hit_witness :
  let w := world_with cached_tree [dataset_A] in
  let fs' := os.touch cached_tree ["c"; "5"] 100 in
  cache.ensure_downloaded a_cache 5 w = (Return ["c"; "5"], set_fs w fs')
  /\ (exists t es, os.lookup cached_tree ["c"; "5"] = Some (os.Dir t es)
                   /\ os.lookup fs' ["c"; "5"] = Some (os.Dir 100 es))
  /\ cache.is_cached a_cache fs' 5 = true
  /\ cache.cached_size a_cache fs' 5 = cache.cached_size a_cache cached_tree 5.
Proof.
  apply (ensure_downloaded_hit a_cache 5 (world_with cached_tree [dataset_A])).
  reflexivity.
Defined.

(** ** catalog.py: the tables of a listing *)

Section LastAssignment.
Context {A V : Type}.
Variable label : A -> string.

(** The last element of [l] labelled [k]. *)
Definition last_labelled (k : string) (l : list A) : option A :=
  find (fun a => String.eqb (label a) k) (rev l).

Lemma last_labelled_snoc k l a :
  last_labelled k (l ++ [a])
  = if String.eqb (label a) k then Some a else last_labelled k l.
Proof. unfold last_labelled. now rewrite rev_app_distr. Qed.

Lemma last_labelled_some k l a :
  last_labelled k l = Some a -> In a l /\ label a = k.
Proof.
  unfold last_labelled. intro H. apply find_some in H. destruct H as [I E].
  split; [now apply in_rev|now apply String.eqb_eq].
Qed.

Lemma last_labelled_only k l a :
  In a l -> label a = k ->
  (forall a', In a' l -> label a' = k -> a' = a) ->
  last_labelled k l = Some a.
Proof.
  intros I E Only. unfold last_labelled.
  destruct (find (fun a0 => String.eqb (label a0) k) (rev l)) as [a'|] eqn:F.
  - apply find_some in F. destruct F as [I' E']. f_equal.
    apply Only; [now apply in_rev|now apply String.eqb_eq].
  - pose proof (find_none _ _ F a (proj1 (in_rev _ _) I)) as H. simpl in H.
    rewrite E, String.eqb_refl in H. discriminate.
Qed.

(** A loop of assignments [d[label a] = val a] leaves under each key
    the value of the last element so labelled. *)
Lemma fold_set_last (val : A -> V) (l : list A) (d : list (string * V)) k :
  py.get String.eqb (fold_left (fun d a => py.set String.eqb d (label a) (val a)) l d) k
  = match last_labelled k l with
    | Some a => Some (val a)
    | None => py.get String.eqb d k
    end.
Proof.
  induction l as [|a l IH] using rev_ind; [reflexivity|].
  rewrite fold_left_app, last_labelled_snoc. simpl.
  destruct (String.eqb_spec (label a) k) as [<-|N].
  - apply (get_set_same _ Seqb_eq).
  - rewrite (get_set_other _ Seqb_eq) by congruence. apply IH.
Qed.
End LastAssignment.

Section ListingTables.
Variable isoformat_minutes : string -> option string.
Variable isoformat_epoch : string -> option Z.

(** The dataset a folder name denotes: the last one of the search
    result that was given the name. *)
Definition denoted (found : list Dataset) (folder_name : string) : option Dataset :=
  last_labelled (folder_of (utils.deduplicate_names isoformat_minutes found))
    folder_name found.

Lemma build_listing_tables (category : CategoryKey) (found : list Dataset) (now : Z) :
  exists L,
    catalog.build_listing isoformat_minutes isoformat_epoch category found now
    = Return L
    /\ datasets L = found
    /\ name_map L = utils.deduplicate_names isoformat_minutes found
    /\ fetched_at L = now
    /\ forall f,
         py.get String.eqb (folder_lookup L) f = denoted found f
         /\ py.get String.eqb (timestamps L) f
            = option_map
                (fun d => catalog.parse_iso_timestamp isoformat_epoch
                            (experiment_start_time d))
                (denoted found f)
         /\ py.get String.eqb (version_map L) f
            = if catalog.key_eqb category (Builtin PUBLISHED)
              then option_map catalog.version_labels (denoted found f)
              else None.
Proof.
  unfold catalog.build_listing.
  rewrite add_dataset_fold by (intros; now apply deduplicate_names_total).
  eexists. split; [reflexivity|]. simpl.
  split; [reflexivity|]. split; [reflexivity|]. split; [reflexivity|].
  intro f. unfold denoted. rewrite !fold_set_last.
  destruct (catalog.key_eqb category (Builtin PUBLISHED));
    [rewrite fold_set_last|];
    destruct (last_labelled _ f found); auto.
Qed.

(** X12: the listing built from a search result keeps the result and
    its names, and its three tables agree on what a folder name
    denotes: the last dataset of the result that was given the name.
    The dataset table holds that dataset, the timestamp table its
    parsed start time, and the version table its version labels for
    the Published category and nothing for any other. *)
Theorem listing_tables_agree (category : CategoryKey) (found : list Dataset)
    (now : Z) :
  exists L,
    catalog.build_listing isoformat_minutes isoformat_epoch category found now
    = Return L
    /\ datasets L = found
    /\ name_map L = utils.deduplicate_names isoformat_minutes found
    /\ fetched_at L = now
    /\ (forall f,
          py.get String.eqb (folder_lookup L) f = denoted found f
          /\ py.get String.eqb (timestamps L) f
             = option_map
                 (fun d => catalog.parse_iso_timestamp isoformat_epoch
                             (experiment_start_time d))
                 (denoted found f)
          /\ py.get String.eqb (version_map L) f
             = if catalog.key_eqb category (Builtin PUBLISHED)
               then option_map catalog.version_labels (denoted found f)
               else None)
    /\ (forall f d, denoted found f = Some d ->
                    In d found /\ py.get Z.eqb (name_map L) (id d) = Some f)
    /\ (forall d, In d found ->
                  exists f, py.get Z.eqb (name_map L) (id d) = Some f
                            /\ py.contains String.eqb (folder_lookup L) f = true).
Proof.
  destruct (build_listing_tables category found now) as (L & B & D & N & T & Tables).
  exists L. repeat (split; [assumption|]). split.
  - intros f d H. apply last_labelled_some in H. destruct H as [I E].
    split; [assumption|]. rewrite N. unfold folder_of in E.
    pose proof (deduplicate_names_total isoformat_minutes found d I) as C.
    unfold py.contains in C.
    destruct (py.get Z.eqb (utils.deduplicate_names isoformat_minutes found) (id d));
      [now subst|discriminate].
  - intros d I.
    pose proof (deduplicate_names_total isoformat_minutes found d I) as C.
    unfold py.contains in C. rewrite N.
    destruct (py.get Z.eqb (utils.deduplicate_names isoformat_minutes found) (id d))
      as [f|] eqn:G; [|discriminate].
    exists f. split; [reflexivity|]. unfold py.contains.
    rewrite (proj1 (Tables f)). unfold denoted, last_labelled.
    destruct (find _ (rev found)) eqn:F; [reflexivity|].
    pose proof (find_none _ _ F d (proj1 (in_rev _ _) I)) as H. simpl in H.
    unfold folder_of in H. rewrite G, String.eqb_refl in H. discriminate.
Qed.
End ListingTables.

(** ** catalog.py: the cache of listings *)

Section ListingCache.
Variable isoformat_minutes : string -> option string.
Variable isoformat_epoch : string -> option Z.
Variable c : catalog.DatasetCatalog.

(** [L] is the listing built now from what the search for [category]
    returns. *)
Definition built_now (category : CategoryKey) (w : world) (L : CachedListing)
    : Prop :=
  exists found,
    catalog._fetch c category w = (Return found, w)
    /\ catalog.build_listing isoformat_minutes isoformat_epoch category found (clock w)
       = Return L.

Lemma refresh_built (category : CategoryKey) (w : world) :
  exists L,
    catalog.refresh isoformat_minutes isoformat_epoch c category w
    = (Return L, set_cache w (py.set catalog.key_eqb (_cache w) category L))
    /\ fetched_at L = clock w
    /\ built_now category w L.
Proof.
  unfold catalog.refresh, bind.
  destruct (fetch_run c category w) as (found & F & _). rewrite F.
  unfold gets at 1.
  destruct (build_listing_returns isoformat_minutes isoformat_epoch category found
              (clock w)) as (L & B & T).
  exists L. rewrite B. split; [reflexivity|]. split; [assumption|].
  exists found. auto.
Qed.

End ListingCache.

Section FolderNames.
Variable isoformat_minutes : string -> option string.
Variable isoformat_epoch : string -> option Z.
Variable c : catalog.DatasetCatalog.

Lemma get_dataset_by_folder_name_stale (category : CategoryKey) (w : world)
    (found : list Dataset) (f : string) :
  stale c category w ->
  catalog._fetch c category w = (Return found, w) ->
  exists w1,
    catalog.get_dataset_by_folder_name isoformat_minutes isoformat_epoch c category f w
    = (Return (denoted isoformat_minutes found f), w1).
Proof.
  intros Stale Fetch.
  unfold catalog.get_dataset_by_folder_name, bind.
  rewrite get_listing_stale by assumption.
  unfold catalog.refresh, bind. rewrite Fetch. unfold gets at 1.
  destruct (build_listing_tables isoformat_minutes isoformat_epoch category found
              (clock w)) as (L & B & _ & _ & _ & Tables).
  rewrite B. unfold modify, ret. eexists. f_equal. f_equal. apply (Tables f).
Qed.

(** X14: when the listing of a category is built anew, a dataset of the
    search result is found again by [get_dataset_by_folder_name] under
    its folder name, provided no other dataset of the result was given
    that name; and a name given to no dataset of the result is not
    found. *)
Theorem dataset_found_by_its_folder_name (category : CategoryKey) (w : world)
    (found : list Dataset) (d : Dataset) :
  let names := utils.deduplicate_names isoformat_minutes found in
  stale c category w ->
  catalog._fetch c category w = (Return found, w) ->
  In d found ->
  (forall d', In d' found ->
              py.get Z.eqb names (id d') = py.get Z.eqb names (id d) -> d' = d) ->
  (exists f w1,
     py.get Z.eqb names (id d) = Some f
     /\ catalog.get_dataset_by_folder_name isoformat_minutes isoformat_epoch
          c category f w = (Return (Some d), w1))
  /\ (forall g,
        (forall d', In d' found -> py.get Z.eqb names (id d') <> Some g) ->
        fst (catalog.get_dataset_by_folder_name isoformat_minutes isoformat_epoch
               c category g w) = Return None).
Proof.
  intros names Stale Fetch I Alone.
  assert (Named : forall x, In x found ->
            py.get Z.eqb names (id x) = Some (folder_of names x)).
  { intros x Ix.
    pose proof (deduplicate_names_total isoformat_minutes found x Ix) as C.
    unfold py.contains in C. fold names in C. unfold folder_of.
    now destruct (py.get Z.eqb names (id x)). }
  split.
  - exists (folder_of names d).
    destruct (get_dataset_by_folder_name_stale category w found (folder_of names d)
                Stale Fetch) as [w1 E].
    exists w1. split; [now apply Named|]. rewrite E. f_equal. f_equal.
    apply last_labelled_only; [assumption|reflexivity|].
    intros d' I' E'. apply Alone; [assumption|].
    rewrite (Named d' I'), (Named d I). now f_equal.
  - intros g Nobody.
    destruct (get_dataset_by_folder_name_stale category w found g Stale Fetch)
      as [w1 E].
    rewrite E. simpl. f_equal.
    destruct (denoted isoformat_minutes found g) as [x|] eqn:D; [|reflexivity].
    apply last_labelled_some in D. destruct D as [Ix Ex].
    exfalso. apply (Nobody x Ix). rewrite (Named x Ix). now f_equal.
Qed.
End FolderNames.

Lemma dataset_found_by_its_folder_name_witness :
  let w := world_listing named_alike in
  let d := mkDataset 3 (Some "a_b") (Some "2024-06-16T08:00:00Z") None in
  (exists f w1,
     py.get Z.eqb (utils.deduplicate_names plain_minutes named_alike) 3 = Some f
     /\ catalog.get_dataset_by_folder_name plain_minutes no_datetime a_catalog
          (Builtin PUBLIC) f w = (Return (Some d), w1))
  /\ (forall g,
        (forall d', In d' named_alike ->
                    py.get Z.eqb (utils.deduplicate_names plain_minutes named_alike)
                      (id d') <> Some g) ->
        fst (catalog.get_dataset_by_folder_name plain_minutes no_datetime a_catalog
               (Builtin PUBLIC) g w) = Return None).
Proof.
  apply (dataset_found_by_its_folder_name plain_minutes no_datetime a_catalog
           (Builtin PUBLIC) (world_listing named_alike) named_alike
           (mkDataset 3 (Some "a_b") (Some "2024-06-16T08:00:00Z") None)).
  - exact I.
  - reflexivity.
  - simpl. tauto.
  - intros d' I'. simpl in I'.
    repeat (destruct I' as [<-|I']; [vm_compute; intro H; congruence|]).
    destruct I'.
Defined.

(** ** catalog.py: custom directories *)

Lemma keys_after_set (d : list (string * catalog.CustomDirectory)) k v :
  forall k', In k' (py.keys (py.set String.eqb d k v)) <-> k' = k \/ In k' (py.keys d).
Proof.
  intro k'. destruct (py.get String.eqb d k) as [v0|] eqn:G.
  - rewrite (keys_set_present _ _ _ _ _ G). split; [auto|].
    intros [->|I]; [|assumption].
    apply (get_some_in _ Seqb_eq) in G. apply in_map_iff. now exists (k, v0).
  - rewrite (keys_set_absent _ _ _ _ G). unfold py.keys. rewrite map_app, in_app_iff.
    simpl. intuition.
Qed.

(** X15: a custom directory, once registered, is among the available
    categories whatever the authentication state, beside the names
    registered before and the built-in categories; its listing is
    fetched with the filters it was last registered with; the other
    custom directories keep theirs; and a name that was never
    registered fetches nothing. *)
Theorem custom_directory_registered (self : catalog.DatasetCatalog)
    (name : string) (filters : list Filter) (w : world) :
  let self' := catalog.add_custom_directory self name filters in
  (exists cats cats',
     catalog.available_categories self w = (Return cats, w)
     /\ catalog.available_categories self' w = (Return cats', w)
     /\ forall k, In k cats' <-> k = Custom name \/ In k cats)
  /\ catalog._fetch self' (Custom name) w
     = (Return (search (client w) (RawFilters filters)), w)
  /\ (forall other, other <> name ->
        catalog._fetch self' (Custom other) w = catalog._fetch self (Custom other) w)
  /\ (forall other, ~ In other (py.keys (catalog._custom_dirs self)) ->
        catalog._fetch self (Custom other) w = (Return [], w)).
Proof.
  intro self'. split; [|split; [|split]].
  - eexists. eexists. split; [reflexivity|]. split; [reflexivity|].
    intro k. unfold self', catalog.add_custom_directory. simpl.
    rewrite !in_app_iff, !in_map_iff. split.
    + intros [H|(n & <- & I)]; [auto|].
      apply keys_after_set in I. destruct I as [->|I]; [now left|].
      right. right. now exists n.
    + intros [->|[H|(n & <- & I)]].
      * right. exists name. split; [reflexivity|]. apply keys_after_set. now left.
      * now left.
      * right. exists n. split; [reflexivity|]. apply keys_after_set. now right.
  - unfold catalog._fetch, catalog._build_config, bind, self',
      catalog.add_custom_directory. simpl.
    now rewrite (get_set_same _ Seqb_eq).
  - intros other N. unfold catalog._fetch, catalog._build_config, bind, self',
      catalog.add_custom_directory. simpl.
    now rewrite (get_set_other _ Seqb_eq).
  - intros other N. unfold catalog._fetch, catalog._build_config, bind.
    now rewrite (not_key_get_none _ Seqb_eq _ _ N).
Qed.

(** ** fs.py: the grammar of paths *)

(** A path component: not empty, without a slash. *)
Definition component (s : string) : Prop := s <> "" /\ ~ occurs "/" s.

Lemma split_one (sep : ascii) (w : string) :
  ~ occurs sep w -> py.split sep w = [w].
Proof.
  induction w as [|a w IH]; simpl; [reflexivity|]. intro N.
  destruct (Ascii.eqb_spec a sep) as [->|Na].
  - exfalso. apply N. now left.
  - rewrite IH; [reflexivity|]. intro H. apply N. now right.
Qed.

Lemma split_append (sep : ascii) (w r : string) :
  ~ occurs sep w -> py.split sep (w ++ String sep r) = w :: py.split sep r.
Proof.
  induction w as [|a w IH]; simpl; intro N.
  - now rewrite Ascii.eqb_refl.
  - destruct (Ascii.eqb_spec a sep) as [->|Na].
    + exfalso. apply N. now left.
    + rewrite IH; [reflexivity|]. intro H. apply N. now right.
Qed.

Lemma split_join (parts : list string) :
  parts <> [] -> Forall (fun w => ~ occurs "/" w) parts ->
  py.split "/" (py.join "/" parts) = parts.
Proof.
  induction parts as [|w parts IH]; [congruence|]. intros _ F.
  inversion F as [|? ? Nw F']; subst.
  destruct parts as [|w' parts]; [now apply split_one|].
  change (py.join "/" (w :: w' :: parts))
    with (w ++ String "/" (py.join "/" (w' :: parts)))%string.
  rewrite split_append by assumption. f_equal. apply IH; [discriminate|assumption].
Qed.

Lemma join_ends (sep : string) (parts : list string) (w : string) :
  exists x, py.join sep (parts ++ [w]) = (x ++ w)%string.
Proof.
  induction parts as [|v parts [x IH]].
  - now exists "".
  - exists (v ++ sep ++ x)%string.
    replace (py.join sep ((v :: parts) ++ [w]))
      with (v ++ sep ++ py.join sep (parts ++ [w]))%string
      by (destruct parts; reflexivity).
    now rewrite IH, !append_assoc.
Qed.

Lemma string_snoc (s : string) :
  s <> "" -> exists s' z, s = (s' ++ String z "")%string.
Proof.
  induction s as [|a s IH]; [congruence|]. intros _.
  destruct s as [|b s].
  - now exists "", a.
  - destruct IH as (s' & z & E); [discriminate|].
    exists (String a s'), z. simpl. now rewrite <- E.
Qed.

Lemma rev_string_snoc (s : string) (z : ascii) :
  py.rev_string (s ++ String z "") = String z (py.rev_string s).
Proof.
  apply chars_inj. rewrite chars_rev, chars_append, rev_app_distr. simpl.
  now rewrite <- chars_rev.
Qed.

(** Joined components neither start nor end with a slash. *)
Lemma strip_join (parts : list string) :
  parts <> [] -> Forall component parts ->
  py.strip_char "/" (py.join "/" parts) = py.join "/" parts
  /\ py.strip_char "/" (String "/" (py.join "/" parts)) = py.join "/" parts
  /\ py.join "/" parts <> "".
Proof.
  intros Ne F.
  assert (Head : exists a s, py.join "/" parts = String a s /\ a <> "/"%char).
  { destruct parts as [|w parts]; [congruence|].
    inversion F as [|? ? [Nw Sw] _]; subst.
    destruct w as [|a w]; [congruence|].
    exists a. destruct parts; simpl; eexists; (split; [reflexivity|]);
      intros ->; apply Sw; now left. }
  assert (Last : exists s z, py.join "/" parts = (s ++ String z "")%string
                             /\ z <> "/"%char).
  { destruct (exists_last Ne) as (parts' & w & ->).
    apply Forall_app in F. destruct F as [_ Fw].
    inversion Fw as [|? ? [Nw Sw] _]; subst.
    destruct (join_ends "/" parts' w) as [x E].
    destruct (string_snoc w Nw) as (w' & z & ->).
    exists (x ++ w')%string, z. split; [now rewrite E, append_assoc|].
    intros ->. apply Sw. apply occurs_append. right. now left. }
  destruct Head as (a & s & Eh & Na). destruct Last as (s' & z & El & Nz).
  assert (L : py.lstrip_by (Ascii.eqb "/") (py.join "/" parts) = py.join "/" parts).
  { rewrite Eh. cbn [py.lstrip_by].
    destruct (Ascii.eqb_spec "/"%char a); congruence. }
  assert (S : py.strip_char "/" (py.join "/" parts) = py.join "/" parts).
  { unfold py.strip_char, py.strip_by. rewrite L, El, rev_string_snoc.
    cbn [py.lstrip_by].
    destruct (Ascii.eqb_spec "/"%char z); [congruence|].
    now rewrite <- rev_string_snoc, rev_string_involutive. }
  split; [exact S|]. split.
  - unfold py.strip_char, py.strip_by in *. cbn [py.lstrip_by].
    rewrite Ascii.eqb_refl. exact S.
  - rewrite Eh. discriminate.
Qed.

Lemma path_parts_join (parts : list string) :
  parts <> [] -> Forall component parts ->
  fuse.path_parts (os.str parts) = parts.
Proof.
  intros Ne F. unfold fuse.path_parts, os.str.
  destruct (strip_join parts Ne F) as (_ & S & N).
  change ("/" ++ py.join "/" parts)%string with (String "/" (py.join "/" parts)).
  destruct (String.eqb_spec (String "/" (py.join "/" parts)) "/") as [E|_].
  - injection E as E. contradiction.
  - rewrite S. apply split_join; [assumption|].
    eapply Forall_impl; [|exact F]. now intros w [_ H].
Qed.

Lemma category_value_component (c : Category) : component (catalog.category_value c).
Proof.
  destruct c; (split; [discriminate|]); unfold occurs; simpl; intuition discriminate.
Qed.

Lemma split1_one (sep : ascii) (w : string) :
  ~ occurs sep w -> py.split1 sep w = (w, None).
Proof.
  induction w as [|a w IH]; simpl; [reflexivity|]. intro N.
  destruct (Ascii.eqb_spec a sep) as [->|Na].
  - exfalso. apply N. now left.
  - rewrite IH; [reflexivity|]. intro H. apply N. now right.
Qed.

Lemma split1_append (sep : ascii) (w r : string) :
  ~ occurs sep w -> py.split1 sep (w ++ String sep r) = (w, Some r).
Proof.
  induction w as [|a w IH]; simpl; intro N.
  - now rewrite Ascii.eqb_refl.
  - destruct (Ascii.eqb_spec a sep) as [->|Na].
    + exfalso. apply N. now left.
    + rewrite IH; [reflexivity|]. intro H. apply N. now right.
Qed.

Lemma split1_join (label : string) (inner : list string) :
  ~ occurs "/" label ->
  py.split1 "/" (py.join "/" (label :: inner))
  = (label, match inner with [] => None | _ => Some (py.join "/" inner) end).
Proof.
  intro N. destruct inner as [|w inner]; [now apply split1_one|].
  change (py.join "/" (label :: w :: inner))
    with (label ++ String "/" (py.join "/" (w :: inner)))%string.
  now apply split1_append.
Qed.

Section PathGrammar.
Variable self : fuse.NMRHubFS.

(** The custom directories have names that can be path components
    and that no built-in category displays. *)
Definition custom_names_distinct : Prop :=
  Forall (fun n => component n /\ forall c, catalog.category_value c <> n)
         (py.keys (catalog._custom_dirs (fuse._catalog self))).

Lemma resolve_category_builtin (c : Category) (w : world) :
  fuse._resolve_category self (catalog.category_value c) w
  = (Return (Some (Builtin c)), w).
Proof. destruct c; reflexivity. Qed.

Lemma resolve_category_custom (n : string) (w : world) :
  (forall c, catalog.category_value c <> n) ->
  In n (py.keys (catalog._custom_dirs (fuse._catalog self))) ->
  fuse._resolve_category self n w = (Return (Some (Custom n)), w).
Proof.
  intros N I. unfold fuse._resolve_category.
  rewrite !(proj2 (String.eqb_neq _ _)) by apply N.
  unfold bind. rewrite available_categories_run.
  assert (E : existsb (catalog.key_eqb (Custom n)) (categories self w) = true).
  { apply existsb_exists. exists (Custom n). split; [|now apply key_eqb_eq].
    unfold categories. apply in_or_app. right. now apply in_map. }
  now rewrite E.
Qed.

(** An available category is found again under its display name. *)
Lemma resolve_category_available (k : CategoryKey) (w : world) :
  custom_names_distinct ->
  In k (categories self w) ->
  component (catalog.category_display_name k)
  /\ fuse._resolve_category self (catalog.category_display_name k) w
     = (Return (Some k), w).
Proof.
  intros Custom I. destruct k as [c|n]; simpl.
  - split; [apply category_value_component|apply resolve_category_builtin].
  - assert (In n (py.keys (catalog._custom_dirs (fuse._catalog self)))).
    { unfold categories in I. apply in_app_or in I. destruct I as [I|I].
      - destruct (authenticated (client w)); simpl in I;
          repeat (destruct I as [I|I]; [discriminate|]); destruct I.
      - apply in_map_iff in I. destruct I as (n' & [= ->] & I). exact I. }
    unfold custom_names_distinct in Custom. rewrite Forall_forall in Custom.
    destruct (Custom n H) as [Cn Nb].
    split; [assumption|now apply resolve_category_custom].
Qed.

Lemma in_categories_available (k : CategoryKey) (w : world) :
  In k (categories self w) ->
  fuse.in_categories (fuse.Key k) (categories self w) = true.
Proof.
  intro I. simpl. apply existsb_exists. exists k. split; [assumption|].
  now apply key_eqb_eq.
Qed.

Lemma parse_path_components (top : string) (rest : list string) (w : world)
    (r : option CategoryKey) :
  Forall component (top :: rest) ->
  fuse._resolve_category self top w = (Return r, w) ->
  fuse._parse_path self (os.str (top :: rest)) w
  = (Return (Some match r with
                  | Some k => fuse.Key k
                  | None => fuse._SENTINEL
                  end,
             hd_error rest,
             match tl rest with
             | [] => None
             | deeper => Some (py.join "/" deeper)
             end), w).
Proof.
  intros F R. unfold fuse._parse_path.
  rewrite path_parts_join by (assumption || discriminate).
  unfold bind. rewrite R. destruct rest as [|d [|x deeper]]; reflexivity.
Qed.

(** X16: the path grammar inverts the joining of components.  The root
    parses to nothing; a path of non-empty components without slashes
    parses to the category its first component resolves to (the
    sentinel when it resolves to none), the second component as the
    dataset folder, and the remaining components joined as the
    subpath; an available category resolves from its display name. *)
Theorem parse_path_inverts_join (top : string) (rest : list string) (w : world) :
  fuse._parse_path self "/" w = (Return (None, None, None), w)
  /\ (Forall component (top :: rest) ->
      exists r,
        fuse._resolve_category self top w = (Return r, w)
        /\ fuse._parse_path self (os.str (top :: rest)) w
           = (Return (Some match r with
                           | Some k => fuse.Key k
                           | None => fuse._SENTINEL
                           end,
                      hd_error rest,
                      match tl rest with
                      | [] => None
                      | deeper => Some (py.join "/" deeper)
                      end), w))
  /\ (custom_names_distinct ->
      forall k, In k (categories self w) ->
        fuse._resolve_category self (catalog.category_display_name k) w
        = (Return (Some k), w)).
Proof.
  split; [reflexivity|]. split.
  - intro F. destruct (resolve_category_run self top w) as [r R].
    exists r. split; [assumption|]. now apply parse_path_components.
  - intros Custom k I. now apply resolve_category_available.
Qed.
End PathGrammar.

(** ** fs.py: what [readdir] lists, [getattr] finds *)

Lemma in_keys_contains (d : list (string * Dataset)) (k : string) :
  In k (py.keys d) -> py.contains String.eqb d k = true.
Proof.
  unfold py.contains. intro I.
  destruct (py.get String.eqb d k) eqn:G; [reflexivity|].
  now apply (get_none_not_key _ Seqb_eq) in G.
Qed.

Lemma in_keys_contains_Z (d : list (string * Z)) (k : string) :
  In k (py.keys d) -> py.contains String.eqb d k = true.
Proof.
  unfold py.contains. intro I.
  destruct (py.get String.eqb d k) eqn:G; [reflexivity|].
  now apply (get_none_not_key _ Seqb_eq) in G.
Qed.

Section Directories.
Variable isoformat_minutes : string -> option string.
Variable isoformat_epoch : string -> option Z.
Variable self : fuse.NMRHubFS.

Let getattr := fuse.getattr isoformat_minutes isoformat_epoch self.
Let readdir := fuse.readdir isoformat_minutes isoformat_epoch self.
Let listing_of := fuse.listing_of isoformat_minutes isoformat_epoch self.

(** X17: the root lists [.], [..] and the display names of the
    available categories, and changes nothing; provided the custom
    directories have names of their own, [getattr] reports each listed
    category as a directory, stamped with the mount time. *)
Theorem root_lists_categories (fh : Z) (w : world) :
  custom_names_distinct self ->
  let names := map catalog.category_display_name (categories self w) in
  readdir "/" fh w = (Return ("." :: ".." :: names), w)
  /\ getattr "/" w = (Return (fuse._dir_stat self None), w)
  /\ forall name, In name names ->
       getattr (os.str [name]) w = (Return (fuse._dir_stat self None), w).
Proof.
  intros Custom names. split; [reflexivity|]. split; [reflexivity|].
  intros name I. apply in_map_iff in I. destruct I as (k & <- & I).
  destruct (resolve_category_available self k w Custom I) as [C R].
  unfold getattr, fuse.getattr, bind.
  rewrite (parse_path_components self _ [] w (Some k)) by (auto || now constructor).
  pose proof (in_categories_available self k w I) as A. simpl in A.
  unfold categories in A. simpl. now rewrite A.
Qed.

(** X18: an available category lists [.], [..] and the folder names of
    its listing, without any download; [getattr] reports each listed
    folder as a directory stamped with the start time of its dataset
    (the mount time when that is unknown); this needs the folder name
    to be one path component. *)
Theorem category_lists_folders (k : CategoryKey) (fh : Z) (w : world) :
  custom_names_distinct self ->
  In k (categories self w) ->
  exists L w1,
    listing_of k w = (Return L, w1)
    /\ readdir (os.str [catalog.category_display_name k]) fh w
       = (Return ("." :: ".." :: py.keys (folder_lookup L)), w1)
    /\ cache_state w1 = cache_state w
    /\ forall f, In f (py.keys (folder_lookup L)) -> component f ->
         getattr (os.str [catalog.category_display_name k; f]) w
         = (Return (fuse._dir_stat self (Some (fuse.listed_time self L f))), w1).
Proof.
  intros Custom I.
  destruct (resolve_category_available self k w Custom I) as [C R].
  destruct (listing_of_run isoformat_minutes isoformat_epoch self k w)
    as (L & w1 & Run & Frame & _).
  pose proof (in_categories_available self k w I) as A. simpl in A.
  unfold categories in A.
  exists L, w1. split; [exact Run|]. split; [|split].
  - unfold readdir, fuse.readdir, bind.
    rewrite (parse_path_components self _ [] w (Some k)) by (auto || now constructor).
    simpl. rewrite A. simpl.
    unfold listing_of, fuse.listing_of in Run. unfold fuse.listing_of.
    now rewrite Run.
  - now apply cache_state_but_listings.
  - intros f If Cf.
    unfold getattr, fuse.getattr, bind.
    rewrite (parse_path_components self _ [f] w (Some k))
      by (auto || (constructor; [assumption|now constructor])).
    simpl. rewrite A. simpl.
    unfold listing_of, fuse.listing_of in Run. unfold fuse.listing_of.
    rewrite Run.
    now rewrite (in_keys_contains _ _ If).
Qed.
End Directories.

(** ** fs.py: the content of a cached dataset *)

(** A component that names an entry: neither [.] nor [..]. *)
Definition proper (c : string) : Prop := component c /\ c <> "." /\ c <> "..".

Lemma join_head (parts : list string) :
  parts <> [] -> Forall component parts ->
  exists a s, py.join "/" parts = String a s /\ a <> "/"%char.
Proof.
  intros Ne F. destruct parts as [|w parts]; [congruence|].
  inversion F as [|? ? [Nw Sw] _]; subst.
  destruct w as [|a w]; [congruence|].
  exists a. destruct parts; simpl; eexists; (split; [reflexivity|]);
    intros ->; apply Sw; now left.
Qed.

Lemma proper_components (inner : list string) :
  Forall proper inner -> Forall component inner.
Proof. intro F. eapply Forall_impl; [|exact F]. now intros c [C _]. Qed.

Lemma parse_join (inner : list string) :
  Forall proper inner -> os.parse (py.join "/" inner) = inner.
Proof.
  intro F. destruct inner as [|c inner]; [reflexivity|].
  unfold os.parse. rewrite split_join.
  - apply forallb_filter_id. apply forallb_forall. intros x I.
    rewrite Forall_forall in F. destruct (F x I) as [[Ne _] [Nd _]].
    destruct (String.eqb_spec x ""); [contradiction|].
    destruct (String.eqb_spec x "."); [contradiction|reflexivity].
  - discriminate.
  - eapply Forall_impl; [|exact F]. now intros x [[_ S] _].
Qed.

Lemma join_relative (inner : list string) :
  Forall proper inner -> py.startswith (py.join "/" inner) "/" = false.
Proof.
  intro F. destruct inner as [|c inner]; [reflexivity|].
  destruct (join_head (c :: inner)) as (a & s & -> & Na);
    [discriminate|now apply proper_components|].
  unfold py.startswith. cbn [String.prefix].
  destruct (Ascii.ascii_dec "/" a); [congruence|reflexivity].
Qed.

Lemma proper_without_dotdot (inner : list string) :
  Forall proper inner -> ~ In ".." inner.
Proof.
  intros F I. rewrite Forall_forall in F. destruct (F _ I) as [_ [_ N]]. now apply N.
Qed.

(** [resolve_path] on joined proper components. *)
Lemma resolve_path_components (self : cache.DownloadCache) (fs : os.node)
    (i : Z) (inner : list string) :
  os.resolve (cache._root self) = cache._root self ->
  Forall proper inner ->
  cache.resolve_path self fs i (py.join "/" inner)
  = match os.lookup fs (cache._dataset_dir self i ++ inner) with
    | Some _ => Some (cache._dataset_dir self i ++ inner)
    | None => None
    end.
Proof.
  intros Canon F.
  rewrite resolve_path_normal; try assumption.
  - rewrite parse_join by assumption. unfold os.exists_.
    now destruct (os.lookup fs (cache._dataset_dir self i ++ inner)).
  - now apply join_relative.
  - rewrite parse_join by assumption. now apply proper_without_dotdot.
Qed.

Section Content.
Variable isoformat_minutes : string -> option string.
Variable isoformat_epoch : string -> option Z.
Variable self : fuse.NMRHubFS.

Let getattr := fuse.getattr isoformat_minutes isoformat_epoch self.
Let readdir := fuse.readdir isoformat_minutes isoformat_epoch self.
Let open := fuse.open isoformat_minutes isoformat_epoch self.
Let listing_of := fuse.listing_of isoformat_minutes isoformat_epoch self.
Let dataset_dir := cache._dataset_dir (fuse._cache self).

(** The attributes [getattr] reports for a node of the cache. *)
Definition stat_of (n : os.node) : fuse.stat :=
  match n with
  | os.Dir mtime _ => fuse._dir_stat self (Some mtime)
  | os.File size mtime => fuse.mkStat (Z.lor fuse.S_IFREG 292) size mtime
  end.

(** The folder [f] of the category [k], available and not the
    Published one, denotes the dataset [d] in the listing [L] that
    [get_listing] returns from [w]. *)
Definition folder_denotes (w : world) (k : CategoryKey) (f : string)
    (L : CachedListing) (w1 : world) (d : Dataset) : Prop :=
  custom_names_distinct self
  /\ In k (categories self w)
  /\ k <> Builtin PUBLISHED
  /\ os.resolve (cache._root (fuse._cache self)) = cache._root (fuse._cache self)
  /\ listing_of k w = (Return L, w1)
  /\ py.get String.eqb (folder_lookup L) f = Some d
  /\ component f.

Lemma not_published (k : CategoryKey) :
  k <> Builtin PUBLISHED -> fuse.is_published (fuse.Key k) = false.
Proof. destruct k as [[| | |]|n]; simpl; congruence. Qed.

Lemma getattr_content_run (w : world) (k : CategoryKey) (f : string)
    (L : CachedListing) (w1 : world) (d : Dataset) (c : string)
    (inner : list string) :
  folder_denotes w k f L w1 d ->
  Forall proper (c :: inner) ->
  getattr (os.str (catalog.category_display_name k :: f :: c :: inner)) w
  = (match os.lookup (fs w) (dataset_dir (id d) ++ c :: inner) with
     | Some n => Return (stat_of n)
     | None => Raise (FuseOSError ENOENT)
     end, w1).
Proof.
  intros (Custom & I & NotPub & Canon & Run & G & Cf) F.
  destruct (resolve_category_available self k w Custom I) as [C R].
  pose proof (in_categories_available self k w I) as A. simpl in A.
  unfold categories in A.
  assert (Frame : fs w1 = fs w).
  { pose proof (keeps_run but_listings _ w
                  (listing_of_keeps isoformat_minutes isoformat_epoch self k)) as K.
    unfold listing_of in Run. rewrite Run in K. simpl in K.
    now apply (f_equal fs) in K. }
  destruct (resolve_dataset_id_via isoformat_minutes isoformat_epoch self
              k f w L w1 Run) as [Via Again].
  rewrite G in Via.
  unfold getattr, fuse.getattr. unfold bind at 1.
  rewrite (parse_path_components self _ (f :: c :: inner) w (Some k)).
  2:{ constructor; [assumption|]. constructor; [assumption|].
      now apply proper_components. }
  2:{ assumption. }
  cbn [hd_error tl]. unfold bind at 1.
  rewrite available_categories_run.
  change (fuse.in_categories (fuse.Key k) (categories self w))
    with (existsb (catalog.key_eqb k) (categories self w)).
  unfold categories at 1. rewrite A. cbn [negb].
  unfold bind at 1. unfold listing_of in Run. rewrite Run.
  unfold py.contains. rewrite G. cbn [negb].
  rewrite (not_published k NotPub).
  unfold bind at 1. rewrite Again, Via.
  unfold bind at 1, gets at 1. rewrite Frame.
  rewrite (resolve_path_components _ _ _ _ Canon F).
  fold dataset_dir.
  destruct (os.lookup (fs w) (dataset_dir (id d) ++ c :: inner)) as [n|] eqn:Ln;
    [|reflexivity].
  unfold bind at 1, gets at 1. rewrite Frame, Ln.
  destruct n as [s t|t es]; [|reflexivity].
  unfold fuse._file_stat_from_path, bind, gets. now rewrite Frame, Ln.
Qed.

(** Stamping the dataset directory changes no lookup at or below it,
    its own modification time apart. *)
Lemma lookup_below_touched (fs : os.node) (p q : os.path) (now t : Z)
    (es : list (string * os.node)) :
  os.lookup fs p = Some (os.Dir t es) ->
  os.lookup (os.touch fs p now) (p ++ q)
  = match q with
    | [] => Some (os.Dir now es)
    | _ => os.lookup fs (p ++ q)
    end.
Proof.
  intro L. rewrite !lookup_app, (lookup_touch _ _ _ _ _ L), L.
  now destruct q.
Qed.

Lemma list_entries_touched (fs : os.node) (i : Z) (now : Z) (inner : list string) :
  cache.is_cached (fuse._cache self) fs i = true ->
  Forall proper inner ->
  cache.list_entries (fuse._cache self) (os.touch fs (dataset_dir i) now) i
    (py.join "/" inner)
  = cache.list_entries (fuse._cache self) fs i (py.join "/" inner).
Proof.
  intros C F. destruct (is_cached_lookup _ _ _ C) as (t & e & es & L).
  fold dataset_dir in L.
  unfold cache.list_entries. fold dataset_dir.
  assert (T : (if String.eqb (py.join "/" inner) "" then dataset_dir i
               else os.joinpath (dataset_dir i) (py.join "/" inner))
              = dataset_dir i ++ inner).
  { unfold os.joinpath. rewrite join_relative, parse_join by assumption.
    destruct (String.eqb_spec (py.join "/" inner) "") as [E|_]; [|reflexivity].
    destruct inner as [|c inner]; [now rewrite app_nil_r|].
    destruct (join_head (c :: inner)) as (a & s & H & _);
      [discriminate|now apply proper_components|]. congruence. }
  rewrite T. unfold os.is_dir, os.iterdir.
  rewrite (lookup_below_touched _ _ inner now _ _ L).
  destruct inner as [|c inner]; [|reflexivity].
  rewrite app_nil_r, L. reflexivity.
Qed.

Lemma readdir_content_run (w : world) (k : CategoryKey) (f : string)
    (L : CachedListing) (w1 : world) (d : Dataset) (inner : list string) (fh : Z) :
  folder_denotes w k f L w1 d ->
  Forall proper inner ->
  cache.is_cached (fuse._cache self) (fs w) (id d) = true ->
  readdir (os.str (catalog.category_display_name k :: f :: inner)) fh w
  = (Return ("." :: ".." ::
             cache.list_entries (fuse._cache self) (fs w) (id d) (py.join "/" inner)),
     set_fs w1 (os.touch (fs w) (dataset_dir (id d)) (clock w))).
Proof.
  intros (Custom & I & NotPub & Canon & Run & G & Cf) F Cached.
  destruct (resolve_category_available self k w Custom I) as [C R].
  pose proof (in_categories_available self k w I) as A. simpl in A.
  unfold categories in A.
  assert (Frame : but_listings w1 = but_listings w).
  { pose proof (keeps_run but_listings _ w
                  (listing_of_keeps isoformat_minutes isoformat_epoch self k)) as K.
    unfold listing_of in Run. now rewrite Run in K. }
  assert (Ff : fs w1 = fs w) by now apply (f_equal fs) in Frame.
  assert (Fc : clock w1 = clock w) by now apply (f_equal clock) in Frame.
  destruct (resolve_dataset_id_via isoformat_minutes isoformat_epoch self
              k f w L w1 Run) as [Via _].
  rewrite G in Via.
  unfold readdir, fuse.readdir. unfold bind at 1.
  rewrite (parse_path_components self _ (f :: inner) w (Some k)).
  2:{ constructor; [assumption|]. constructor; [assumption|].
      now apply proper_components. }
  2:{ assumption. }
  cbn [hd_error tl].
  set (subpath := match inner with
                  | [] => None
                  | x :: l => Some (py.join "/" (x :: l))
                  end).
  assert (Sub : match subpath with Some s => s | None => "" end = py.join "/" inner)
    by (unfold subpath; now destruct inner).
  clearbody subpath.
  unfold bind at 1. rewrite available_categories_run.
  change (fuse.in_categories (fuse.Key k) (categories self w))
    with (existsb (catalog.key_eqb k) (categories self w)).
  unfold categories at 1. rewrite A. cbn [negb].
  rewrite (not_published k NotPub).
  unfold bind at 1. rewrite Via.
  unfold fuse._download, cache.ensure_downloaded.
  unfold bind at 1 2 3. rewrite fetch_hit by (now rewrite Ff).
  unfold ret at 1 2. unfold bind, gets, ret. cbn [fs set_fs].
  rewrite Ff, Fc, Sub. fold dataset_dir.
  now rewrite list_entries_touched.
Qed.

(** X19: below a listed dataset folder of an available category other
    than Published, [getattr] on a path of proper components is the
    lookup of those components in the cache, below the directory of
    the dataset: not found when the cache has no such node (in
    particular when the dataset was never downloaded), else a regular
    file with the size and time of the host file, or a directory.
    Nothing changes but the listings of the catalog. *)
Theorem getattr_reads_cache (w : world) (k : CategoryKey) (f : string)
    (L : CachedListing) (w1 : world) (d : Dataset) (c : string)
    (inner : list string) :
  folder_denotes w k f L w1 d ->
  Forall proper (c :: inner) ->
  getattr (os.str (catalog.category_display_name k :: f :: c :: inner)) w
  = (match os.lookup (fs w) (dataset_dir (id d) ++ c :: inner) with
     | Some n => Return (stat_of n)
     | None => Raise (FuseOSError ENOENT)
     end, w1)
  /\ cache_state w1 = cache_state w
  /\ (cache.is_cached (fuse._cache self) (fs w) (id d) = false ->
      os.exists_ (fs w) (dataset_dir (id d)) = false ->
      fst (getattr (os.str (catalog.category_display_name k :: f :: c :: inner)) w)
      = Raise (FuseOSError ENOENT)).
Proof.
  intros D F. pose proof (getattr_content_run w k f L w1 d c inner D F) as E.
  split; [exact E|]. split.
  - destruct D as (_ & _ & _ & _ & Run & _).
    apply cache_state_but_listings.
    pose proof (keeps_run but_listings _ w
                  (listing_of_keeps isoformat_minutes isoformat_epoch self k)) as K.
    unfold listing_of in Run. now rewrite Run in K.
  - intros _ Absent. rewrite E. simpl. rewrite lookup_app.
    unfold os.exists_ in Absent.
    now destruct (os.lookup (fs w) (dataset_dir (id d))).
Qed.

(** X20: for a cached dataset, [readdir] on a content path lists [.],
    [..] and the names of the children of the cache directory it
    names, in ascending order, and requests no download; and
    [getattr] finds every proper name listed, as a directory or as a
    regular file according to the node of the cache. *)
Theorem content_listing_agrees (w : world) (k : CategoryKey) (f : string)
    (L : CachedListing) (w1 : world) (d : Dataset) (inner : list string) (fh : Z) :
  folder_denotes w k f L w1 d ->
  Forall proper inner ->
  cache.is_cached (fuse._cache self) (fs w) (id d) = true ->
  let path := catalog.category_display_name k :: f :: inner in
  let names :=
    cache.list_entries (fuse._cache self) (fs w) (id d) (py.join "/" inner) in
  (exists w2, readdir (os.str path) fh w = (Return ("." :: ".." :: names), w2)
              /\ downloaded w2 = downloaded w)
  /\ Permutation (map fst (os.iterdir (fs w) (dataset_dir (id d) ++ inner))) names
  /\ forall c, In c names -> proper c ->
       exists n,
         os.lookup (fs w) (dataset_dir (id d) ++ inner ++ [c]) = Some n
         /\ getattr (os.str (path ++ [c])) w = (Return (stat_of n), w1).
Proof.
  intros D F Cached path names.
  assert (Names : Permutation
                    (map fst (os.iterdir (fs w) (dataset_dir (id d) ++ inner))) names).
  { unfold names, cache.list_entries. fold dataset_dir.
    assert (T : (if String.eqb (py.join "/" inner) "" then dataset_dir (id d)
                 else os.joinpath (dataset_dir (id d)) (py.join "/" inner))
                = dataset_dir (id d) ++ inner).
    { unfold os.joinpath. rewrite join_relative, parse_join by assumption.
      destruct (String.eqb_spec (py.join "/" inner) "") as [E|_]; [|reflexivity].
      destruct inner as [|c inner]; [now rewrite app_nil_r|].
      destruct (join_head (c :: inner)) as (a & s & H & _);
        [discriminate|now apply proper_components|]. congruence. }
    rewrite T. unfold os.is_dir, os.iterdir.
    destruct (os.lookup (fs w) (dataset_dir (id d) ++ inner)) as [[s t|t es]|];
      simpl; try constructor. apply sort_names_perm. }
  split; [|split; [exact Names|]].
  - exists (set_fs w1 (os.touch (fs w) (dataset_dir (id d)) (clock w))).
    split; [exact (readdir_content_run w k f L w1 d inner fh D F Cached)|].
    cbn [downloaded set_fs].
    destruct D as (_ & _ & _ & _ & Run & _).
    pose proof (keeps_run but_listings _ w
                  (listing_of_keeps isoformat_minutes isoformat_epoch self k)) as K.
    unfold listing_of in Run. rewrite Run in K. simpl in K.
    now apply (f_equal downloaded) in K.
  - intros c Ic Pc.
    apply (Permutation_in _ (Permutation_sym Names)) in Ic.
    unfold os.iterdir in Ic.
    destruct (os.lookup (fs w) (dataset_dir (id d) ++ inner)) as [[s t|t es]|] eqn:Ld;
      try destruct Ic.
    assert (Found : exists n, os.find c es = Some n).
    { destruct (os.find c es) as [n|] eqn:Fc; [eauto|].
      now apply find_none_not_in in Fc. }
    destruct Found as [n Fn]. exists n.
    assert (Ln : os.lookup (fs w) (dataset_dir (id d) ++ inner ++ [c]) = Some n).
    { rewrite app_assoc, (lookup_child _ _ _ _ _ Ld). exact Fn. }
    split; [exact Ln|].
    assert (Fi : Forall proper (inner ++ [c]))
      by (apply Forall_app; split; [assumption|now constructor]).
    unfold path.
    destruct (inner ++ [c]) as [|c0 rest] eqn:Ei.
    { destruct inner; discriminate. }
    replace ((catalog.category_display_name k :: f :: inner) ++ [c])
      with (catalog.category_display_name k :: f :: c0 :: rest)
      by (simpl; now rewrite Ei).
    rewrite (getattr_content_run w k f L w1 d c0 rest D Fi). now rewrite Ln.
Qed.
End Content.

(** ** fs.py: file handles *)

Section DictRemove.
Context {V : Type}.

Lemma get_remove_same (d : list (Z * V)) k :
  NoDup (py.keys d) -> py.get Z.eqb (py.remove Z.eqb d k) k = None.
Proof.
  induction d as [|[k0 v0] d IH]; simpl; [reflexivity|].
  intro ND. inversion ND as [|? ? NI ND']; subst.
  destruct (Z.eqb_spec k k0) as [->|N].
  - now apply (not_key_get_none _ Zeqb_eq).
  - simpl. destruct (Z.eqb_spec k k0); [contradiction|]. now apply IH.
Qed.

Lemma get_remove_other (d : list (Z * V)) k k' :
  k' <> k -> py.get Z.eqb (py.remove Z.eqb d k) k' = py.get Z.eqb d k'.
Proof.
  intro N. induction d as [|[k0 v0] d IH]; simpl; [reflexivity|].
  destruct (Z.eqb_spec k k0) as [->|Nk]; simpl.
  - destruct (Z.eqb_spec k' k0); [contradiction|reflexivity].
  - destruct (Z.eqb_spec k' k0); [reflexivity|assumption].
Qed.

Lemma remove_absent (d : list (Z * V)) k :
  py.get Z.eqb d k = None -> py.remove Z.eqb d k = d.
Proof.
  induction d as [|[k0 v0] d IH]; simpl; [reflexivity|].
  destruct (Z.eqb_spec k k0); [discriminate|]. intro H. now rewrite IH.
Qed.
End DictRemove.

Lemma set_open_fds_same (w : world) : set_open_fds w (_open_fds w) = w.
Proof. now destruct w. Qed.

(** Every handle in use is below the next handle to be given out. *)
Definition handles_below (w : world) : Prop :=
  forall fh, py.contains Z.eqb (_open_fds w) fh = true -> fh < _next_fh w.


Section Handles.
Variable isoformat_minutes : string -> option string.
Variable isoformat_epoch : string -> option Z.
Variable self : fuse.NMRHubFS.

Let open := fuse.open isoformat_minutes isoformat_epoch self.
Let dataset_dir := cache._dataset_dir (fuse._cache self).

End Handles.

(** ** Examples on a mounted file system *)

Ltac component_holds :=
  split; [discriminate|unfold occurs; simpl; intuition discriminate].

Ltac proper_holds := split; [component_holds|split; discriminate].

(** The example mount with one custom directory. *)
Definition a_custom_mount : fuse.NMRHubFS :=
  fuse.mkNMRHubFS
    (catalog.add_custom_directory a_catalog "mine"
       [mkFilter "person_id" (Some "7") "equals" "AND"])
    a_cache 50.

Lemma a_custom_mount_names : custom_names_distinct a_custom_mount.
Proof.
  constructor; [|constructor].
  split; [component_holds|]. intros c; destruct c; discriminate.
Qed.

Lemma a_mount_names : custom_names_distinct a_mount.
Proof. constructor. Qed.

Lemma root_lists_categories_witness :
  let w := world_with cached_tree [dataset_A] in
  fuse.readdir no_datetime no_datetime a_custom_mount "/" 0 w
  = (Return ["."; ".."; "Public Datasets"; "Published Datasets"; "mine"], w)
  /\ fuse.getattr no_datetime no_datetime a_custom_mount "/" w
     = (Return (fuse._dir_stat a_custom_mount None), w)
  /\ forall name, In name ["Public Datasets"; "Published Datasets"; "mine"] ->
       fuse.getattr no_datetime no_datetime a_custom_mount (os.str [name]) w
       = (Return (fuse._dir_stat a_custom_mount None), w).
Proof.
  apply (root_lists_categories no_datetime no_datetime a_custom_mount 0
           (world_with cached_tree [dataset_A])).
  exact a_custom_mount_names.
Defined.

Lemma category_lists_folders_witness :
  let w := world_with cached_tree [dataset_A] in
  exists L w1,
    fuse.listing_of no_datetime no_datetime a_custom_mount (Custom "mine") w
    = (Return L, w1)
    /\ fuse.readdir no_datetime no_datetime a_custom_mount "/mine" 0 w
       = (Return ("." :: ".." :: py.keys (folder_lookup L)), w1)
    /\ cache_state w1 = cache_state w
    /\ forall f, In f (py.keys (folder_lookup L)) -> component f ->
         fuse.getattr no_datetime no_datetime a_custom_mount (os.str ["mine"; f]) w
         = (Return (fuse._dir_stat a_custom_mount
                      (Some (fuse.listed_time a_custom_mount L f))), w1).
Proof.
  apply (category_lists_folders no_datetime no_datetime a_custom_mount
           (Custom "mine") 0 (world_with cached_tree [dataset_A])).
  - exact a_custom_mount_names.
  - simpl. tauto.
Defined.

(** The listing of the Public category in the example world. *)
Definition public_listing : CachedListing :=
  match fst (fuse.listing_of no_datetime no_datetime a_mount (Builtin PUBLIC)
               (world_with cached_tree [dataset_A])) with
  | Return L => L
  | Raise _ => mkListing [] [] [] [] [] 0
  end.

Definition public_listed : world :=
  snd (fuse.listing_of no_datetime no_datetime a_mount (Builtin PUBLIC)
         (world_with cached_tree [dataset_A])).

Lemma folder_A_denotes :
  folder_denotes no_datetime no_datetime a_mount
    (world_with cached_tree [dataset_A]) (Builtin PUBLIC) "A"
    public_listing public_listed dataset_A.
Proof.
  split; [exact a_mount_names|]. split; [simpl; tauto|].
  split; [discriminate|]. split; [reflexivity|]. split; [reflexivity|].
  split; [reflexivity|component_holds].
Qed.

Lemma getattr_reads_cache_witness :
  let w := world_with cached_tree [dataset_A] in
  fuse.getattr no_datetime no_datetime a_mount "/Public Datasets/A/pdata/1r" w
  = (Return (fuse.mkStat (Z.lor fuse.S_IFREG 292) 2048 90), public_listed).
Proof.
  apply (proj1 (getattr_reads_cache no_datetime no_datetime a_mount
                  (world_with cached_tree [dataset_A]) (Builtin PUBLIC) "A"
                  public_listing public_listed dataset_A "pdata" ["1r"]
                  folder_A_denotes
                  ltac:(constructor; [proper_holds|];
                        constructor; [proper_holds|constructor]))).
Defined.

Lemma content_listing_agrees_witness :
  let w := world_with cached_tree [dataset_A] in
  (exists w2,
     fuse.readdir no_datetime no_datetime a_mount "/Public Datasets/A" 0 w
     = (Return ["."; ".."; "fid"; "pdata"], w2)
     /\ downloaded w2 = downloaded w)
  /\ Permutation ["fid"; "pdata"] ["fid"; "pdata"]
  /\ forall c, In c ["fid"; "pdata"] -> proper c ->
       exists n,
         os.lookup cached_tree (["c"; "5"] ++ [] ++ [c]) = Some n
         /\ fuse.getattr no_datetime no_datetime a_mount
              (os.str (["Public Datasets"; "A"] ++ [c])) w
            = (Return (stat_of a_mount n), public_listed).
Proof.
  apply (content_listing_agrees no_datetime no_datetime a_mount
           (world_with cached_tree [dataset_A]) (Builtin PUBLIC) "A"
           public_listing public_listed dataset_A [] 0 folder_A_denotes).
  - constructor.
  - reflexivity.
Defined.

(** A world with the file [fid] of dataset 5 open under handle 1. *)
Definition one_open : world :=
  mkWorld cached_tree 100 ["k3"; "x7"] [(3, 4096)]
          (mkClient false (fun _ => [dataset_A]) a_remote) [] [] [(1, 3)] 2.



(** ** fs.py: the errors of the read-only operations *)

Lemma resolve_path_exists (self : cache.DownloadCache) (fs : os.node) (i : Z)
    (sub : string) (p : os.path) :
  cache.resolve_path self fs i sub = Some p -> os.exists_ fs p = true.
Proof.
  unfold cache.resolve_path. destruct (negb _); [discriminate|].
  destruct (os.exists_ fs _) eqn:E; [|discriminate]. now intros [= <-].
Qed.

Lemma raises_after_resolve {A : Type} (ok : exn -> Prop) (c : cache.DownloadCache)
    (i : Z) (sub : string) (k : option os.path -> M A) :
  (forall w real,
     cache.resolve_path c (fs w) i sub = real ->
     match k real w with
     | (Return _, _) => True
     | (Raise e, _) => ok e
     end) ->
  raises ok (bind (gets (fun w => cache.resolve_path c (fs w) i sub)) k).
Proof. intros H w _. unfold bind, gets. now apply H. Qed.

Section Errors.
Variable isoformat_minutes : string -> option string.
Variable isoformat_epoch : string -> option Z.
Variable self : fuse.NMRHubFS.

Let getattr := fuse.getattr isoformat_minutes isoformat_epoch self.
Let readdir := fuse.readdir isoformat_minutes isoformat_epoch self.
Let open := fuse.open isoformat_minutes isoformat_epoch self.

Section Leaves.
Variable ok : exn -> Prop.
Hypothesis ok_enoent : ok (FuseOSError ENOENT).

Lemma parse_path_raises path : raises ok (fuse._parse_path self path).
Proof.
  intros w _. destruct (parse_path_run self path w) as [r E]. now rewrite E.
Qed.

Lemma available_categories_raises :
  raises ok (catalog.available_categories (fuse._catalog self)).
Proof. intros w _. now rewrite available_categories_run. Qed.

Lemma listing_of_raises k :
  raises ok (fuse.listing_of isoformat_minutes isoformat_epoch self k).
Proof. apply get_listing_raises. Qed.

Lemma resolve_dataset_id_raises k name :
  raises ok (fuse._resolve_dataset_id isoformat_minutes isoformat_epoch self k name).
Proof.
  unfold fuse._resolve_dataset_id, catalog.get_dataset_by_folder_name.
  apply hoare_bind_inv.
  - apply hoare_bind_inv; [apply get_listing_raises|].
    intros L w _. exact I.
  - intros [d|] w _; [exact I|exact ok_enoent].
Qed.

Lemma resolve_version_id_raises name label :
  raises ok (fuse._resolve_version_id isoformat_minutes isoformat_epoch self name label).
Proof.
  unfold fuse._resolve_version_id.
  apply hoare_bind_inv; [apply listing_of_raises|].
  intros L w _.
  destruct (py.get String.eqb (version_map L) name) as [vs|]; [|exact ok_enoent].
  destruct (py.get String.eqb vs label); [exact I|exact ok_enoent].
Qed.
End Leaves.

Ltac raises_step ok_enoent :=
  lazymatch goal with
  | |- hoare _ (fuse._parse_path _ _) _ _ => apply parse_path_raises
  | |- hoare _ (catalog.available_categories _) _ _ => apply available_categories_raises
  | |- hoare _ (fuse.listing_of _ _ _ _) _ _ => apply listing_of_raises
  | |- hoare _ (fuse._resolve_dataset_id _ _ _ _ _) _ _ =>
      apply resolve_dataset_id_raises; exact ok_enoent
  | |- hoare _ (fuse._resolve_version_id _ _ _ _ _) _ _ =>
      apply resolve_version_id_raises; exact ok_enoent
  | |- hoare _ (raise (FuseOSError ENOENT)) _ _ => intros ? _; exact ok_enoent
  | |- hoare _ (ret _) _ _ => intros ? _; exact I
  | |- hoare _ (gets _) _ _ => intros ? _; exact I
  | |- hoare _ (let '(_, _) := ?x in _) _ _ => destruct x
  | _ => hoare_step
  end.

Lemma getattr_raises path :
  raises (fun e => e = FuseOSError ENOENT) (getattr path).
Proof.
  unfold getattr, fuse.getattr, raises.
  apply hoare_bind_inv; [apply parse_path_raises|].
  intros [[category dataset_name] subpath].
  repeat (lazymatch goal with
          | |- hoare _ (bind (gets (fun w => cache.resolve_path _ (fs w) _ _)) _) _ _ =>
              apply raises_after_resolve; intros w [real|] R;
              [apply resolve_path_exists in R; unfold os.exists_ in R;
               unfold bind, gets, fuse._dir_stat_from_path, fuse._file_stat_from_path,
                 bind, gets, os.is_dir; cbv beta;
               destruct (os.lookup (fs w) real) as [[? ?|? ?]|] eqn:Lk;
               [| |discriminate]; cbv beta iota; rewrite ?Lk; exact I
              |reflexivity]
          | _ => raises_step (eq_refl (FuseOSError ENOENT))
          end).
Qed.

Ltac raises_walk solve_ok :=
  repeat (lazymatch goal with
          | |- hoare _ (fuse._parse_path _ _) _ _ => apply parse_path_raises
          | |- hoare _ (catalog.available_categories _) _ _ =>
              apply available_categories_raises
          | |- hoare _ (fuse.listing_of _ _ _ _) _ _ => apply listing_of_raises
          | |- hoare _ (fuse._resolve_dataset_id _ _ _ _ _) _ _ =>
              apply resolve_dataset_id_raises; solve_ok
          | |- hoare _ (fuse._resolve_version_id _ _ _ _ _) _ _ =>
              apply resolve_version_id_raises; solve_ok
          | |- hoare _ (fuse._download _ _) _ _ => apply download_raises; solve_ok
          | |- hoare _ (raise _) _ _ => intros ? _; unfold raise; solve_ok
          | |- hoare _ (ret _) _ _ => intros ? _; exact I
          | |- hoare _ (gets _) _ _ => intros ? _; exact I
          | |- hoare _ (modify _) _ _ => intros ? _; exact I
          | |- hoare _ (let '(_, _) := ?x in _) _ _ => destruct x
          | _ => hoare_step
          end).

Lemma readdir_raises path fh :
  raises (fun e => e = FuseOSError ENOENT \/ e = OSError \/ e = DownloadError)
    (readdir path fh).
Proof.
  unfold readdir, fuse.readdir, raises.
  apply hoare_bind_inv; [apply parse_path_raises|].
  intros [[category dataset_name] subpath].
  raises_walk ltac:(simpl; tauto).
Qed.

Lemma open_raises path flags :
  raises (fun e => e = FuseOSError ENOENT \/ e = FuseOSError EISDIR
                   \/ e = OSError \/ e = DownloadError)
    (open path flags).
Proof.
  unfold open, fuse.open, fuse.open_real, fuse.os_open, raises.
  apply hoare_bind_inv; [apply parse_path_raises|].
  intros [[category dataset_name] subpath].
  raises_walk ltac:(simpl; tauto).
Qed.

End Errors.

(** ** fs.py: the version folders of the Published category *)

Lemma in_keys_contains_versions (d : list (string * Z)) (k : string) :
  In k (py.keys d) <-> py.contains String.eqb d k = true.
Proof.
  unfold py.contains. split.
  - intro I. destruct (py.get String.eqb d k) eqn:G; [reflexivity|].
    now apply (get_none_not_key _ Seqb_eq) in G.
  - destruct (py.get String.eqb d k) as [v|] eqn:G; [|discriminate]. intros _.
    apply (get_some_in _ Seqb_eq) in G. apply in_map_iff. now exists (k, v).
Qed.

Section Published.
Variable isoformat_minutes : string -> option string.
Variable isoformat_epoch : string -> option Z.
Variable self : fuse.NMRHubFS.

Let getattr := fuse.getattr isoformat_minutes isoformat_epoch self.
Let readdir := fuse.readdir isoformat_minutes isoformat_epoch self.
Let listing_of := fuse.listing_of isoformat_minutes isoformat_epoch self.
Let dataset_dir := cache._dataset_dir (fuse._cache self).

(** The attributes [getattr] reports for a node below a version
    folder. *)
Definition version_stat_of (n : os.node) : fuse.stat :=
  match n with
  | os.Dir mtime _ => fuse.mkStat (Z.lor fuse.S_IFDIR 365) 0 mtime
  | os.File size mtime => fuse.mkStat (Z.lor fuse.S_IFREG 292) size mtime
  end.

End Published.

(** The example world with a Published listing: dataset 7 with its
    versions 2 and 5, the second of them cached as dataset 50. *)
Definition versions_tree : os.node :=
  os.Dir 0 [("c", os.Dir 0 [("50", os.Dir 80 [("fid", os.File 512 80)])])].

Definition published_listing : CachedListing :=
  match fst (fuse.listing_of no_datetime no_datetime a_mount (Builtin PUBLISHED)
               (world_with versions_tree [versioned])) with
  | Return L => L
  | Raise _ => mkListing [] [] [] [] [] 0
  end.


(** ** fs.py: names that are no available category *)

Section Unavailable.
Variable isoformat_minutes : string -> option string.
Variable isoformat_epoch : string -> option Z.
Variable self : fuse.NMRHubFS.

Let getattr := fuse.getattr isoformat_minutes isoformat_epoch self.
Let readdir := fuse.readdir isoformat_minutes isoformat_epoch self.
Let open := fuse.open isoformat_minutes isoformat_epoch self.

Lemma not_in_categories (k : CategoryKey) (cats : list CategoryKey) :
  ~ In k cats -> existsb (catalog.key_eqb k) cats = false.
Proof.
  intro N. destruct (existsb (catalog.key_eqb k) cats) eqn:E; [|reflexivity].
  apply existsb_exists in E. destruct E as (x & I & E).
  apply key_eqb_eq in E. now subst.
Qed.

(** X25: a path whose first component is no available category is not
    found: [getattr] and [readdir] raise [ENOENT] and change nothing,
    whether the name is unknown or names a built-in category that the
    authentication state hides, and so does [open] on a path deep
    enough to name a file.  In particular a custom directory
    registered under the display name of a hidden built-in category is
    listed in the root and cannot be entered. *)
Theorem unavailable_category_not_found (top : string) (rest : list string)
    (r : option CategoryKey) (w : world) :
  Forall component (top :: rest) ->
  fuse._resolve_category self top w = (Return r, w) ->
  match r with
  | Some k => ~ In k (categories self w)
  | None => True
  end ->
  (forall fh, readdir (os.str (top :: rest)) fh w = (Raise (FuseOSError ENOENT), w))
  /\ getattr (os.str (top :: rest)) w = (Raise (FuseOSError ENOENT), w)
  /\ (forall flags,
        open (os.str (top :: rest)) flags w
        = (Raise (FuseOSError
                    match rest with
                    | _ :: _ :: _ => ENOENT
                    | _ => EISDIR
                    end), w))
  /\ (forall c,
        r = Some (Builtin c) ->
        In top (py.keys (catalog._custom_dirs (fuse._catalog self))) ->
        forall fh, exists names,
          readdir "/" fh w = (Return names, w) /\ In top names).
Proof.
  intros F R Hidden.
  set (category := match r with
                   | Some k => fuse.Key k
                   | None => fuse._SENTINEL
                   end).
  assert (Out : fuse.in_categories category (categories self w) = false).
  { unfold category. destruct r as [k|]; [|reflexivity].
    simpl. now apply not_in_categories. }
  pose proof (parse_path_components self top rest w r F R) as P. fold category in P.
  split; [|split; [|split]].
  - intro fh. unfold readdir, fuse.readdir. unfold bind at 1. rewrite P.
    unfold bind at 1. rewrite available_categories_run, Out. reflexivity.
  - unfold getattr, fuse.getattr. unfold bind at 1. rewrite P.
    unfold bind at 1. rewrite available_categories_run, Out. reflexivity.
  - intro flags. unfold open, fuse.open. unfold bind at 1. rewrite P.
    destruct rest as [|d [|c deeper]]; try reflexivity.
    cbn [hd_error tl]. unfold bind at 1.
    rewrite available_categories_run, Out. reflexivity.
  - intros c _ Registered fh.
    exists ("." :: ".." :: map catalog.category_display_name (categories self w)).
    split; [reflexivity|].
    right. right. apply in_map_iff. exists (Custom top). split; [reflexivity|].
    unfold categories. apply in_or_app. right. now apply in_map.
Qed.
End Unavailable.

(** A mount whose one custom directory is named as the built-in
    category of one's own datasets. *)
Definition a_shadowed_mount : fuse.NMRHubFS :=
  fuse.mkNMRHubFS
    (catalog.add_custom_directory a_catalog "My Datasets"
       [mkFilter "person_id" (Some "7") "equals" "AND"])
    a_cache 50.

Lemma unavailable_category_not_found_witness :
  let w := world_with cached_tree [dataset_A] in
  (forall fh,
     fuse.readdir no_datetime no_datetime a_shadowed_mount "/My Datasets" fh w
     = (Raise (FuseOSError ENOENT), w))
  /\ fuse.getattr no_datetime no_datetime a_shadowed_mount "/My Datasets" w
     = (Raise (FuseOSError ENOENT), w)
  /\ (forall flags,
        fuse.open no_datetime no_datetime a_shadowed_mount "/My Datasets" flags w
        = (Raise (FuseOSError EISDIR), w))
  /\ (forall c,
        Some (Builtin MY_DATASETS) = Some (Builtin c) ->
        In "My Datasets"
           (py.keys (catalog._custom_dirs (fuse._catalog a_shadowed_mount))) ->
        forall fh, exists names,
          fuse.readdir no_datetime no_datetime a_shadowed_mount "/" fh w
          = (Return names, w)
          /\ In "My Datasets" names).
Proof.
  apply (unavailable_category_not_found no_datetime no_datetime a_shadowed_mount
           "My Datasets" [] (Some (Builtin MY_DATASETS))
           (world_with cached_tree [dataset_A])).
  - constructor; [component_holds|constructor].
  - reflexivity.
  - simpl. intuition discriminate.
Defined.

(** ** cache.py: a download installed *)

Section Install.
Variable self : cache.DownloadCache.
Variable dataset_id : Z.

Let root := cache._root self.
Let ds_dir := cache._dataset_dir self dataset_id.

(** X26: the first download of a dataset.  With no entry for the
    dataset under the cache root, a free staging name and a download
    made of an optional manifest file, loose files and one experiment
    directory, [fetch] requests the download once, flattens what was
    delivered and installs it under the identifier: the root then holds
    the entries it held, in their order, followed by the dataset
    directory with the flattened content, and no staging directory;
    only the tree, the download log and the staging names change.
    When the cache is within its budget afterwards,
    [ensure_downloaded] returns the dataset directory in that state. *)
Theorem install_flattens_download (w : world) (t : Z)
    (es : list (string * os.node)) (tmp : string) (rest : list string)
    (delivered : list (string * os.node)) (experiment : string) (t0 : Z)
    (children : list (string * os.node)) :
  let kept := os.remove_entry "experiments.csv" delivered in
  let content := os.remove_entry experiment kept ++ children in
  os.lookup (fs w) root = Some (os.Dir t es) ->
  os.find (py.str dataset_id) es = None ->
  fresh_name (fs w) root (".dl-" ++ py.str dataset_id ++ "-") (tmp_names w)
  = Some (tmp, rest) ->
  download (client w) dataset_id = Populated delivered ->
  NoDup (map fst delivered) ->
  (forall t' cs, os.find "experiments.csv" delivered <> Some (os.Dir t' cs)) ->
  filter cache.is_dir_entry kept = [(experiment, os.Dir t0 children)] ->
  NoDup (map fst children) ->
  (forall c, In c (map fst children) -> ~ In c (map fst kept)) ->
  exists fs',
    let w' := set_fs (set_downloaded (set_tmp_names w rest)
                        (downloaded w ++ [dataset_id])) fs' in
    cache.fetch self dataset_id w = (Return (ds_dir, true), w')
    /\ os.lookup fs' root
       = Some (os.Dir (clock w)
                 (es ++ [(py.str dataset_id, os.Dir (clock w) content)]))
    /\ os.lookup fs' ds_dir = Some (os.Dir (clock w) content)
    /\ os.exists_ fs' (root ++ [tmp]) = false
    /\ (total_size (cache.eviction_entries self fs') <= cache._max_bytes self ->
        cache.ensure_downloaded self dataset_id w = (Return ds_dir, w')).
Proof.
  intros kept content Lroot Absent Fresh Delivered NDd Manifest One NDc Free.
  set (now := clock w).
  assert (Lds : os.lookup (fs w) ds_dir = None).
  { unfold ds_dir, cache._dataset_dir. fold root.
    now rewrite (lookup_child _ _ _ _ _ Lroot). }
  destruct (fresh_name_spec _ _ _ _ _ _ Fresh) as [Free_tmp [suffix Etmp]].
  assert (tmp_free : os.find tmp es = None).
  { unfold os.exists_ in Free_tmp. rewrite (lookup_child _ _ _ _ _ Lroot) in Free_tmp.
    now destruct (os.find tmp es). }
  assert (tmp_not_name : tmp <> py.str dataset_id).
  { rewrite Etmp. simpl. intro H. symmetry in H. now apply str_not_hidden in H. }
  (* the staging directory *)
  set (w1 := set_tmp_names
               (set_fs w (os.put (fs w) root tmp (os.Dir now []) now)) rest).
  assert (L1 : os.lookup (fs w1) root
               = Some (os.Dir now (es ++ [(tmp, os.Dir now [])]))).
  { unfold w1, os.put. simpl. rewrite (lookup_with_dir _ _ _ _ _ _ Lroot).
    unfold os.put_entry. now rewrite tmp_free. }
  (* the download *)
  set (w2 := set_fs (set_downloaded w1 (downloaded w1 ++ [dataset_id]))
               (os.with_dir (fs w1) (root ++ [tmp]) now
                  (fun old => old ++ delivered))).
  assert (Download : client_download dataset_id (root ++ [tmp]) w1 = (Return tt, w2)).
  { unfold client_download. simpl. now rewrite Delivered. }
  assert (L2 : os.lookup (fs w2) root
               = Some (os.Dir now (es ++ [(tmp, os.Dir now delivered)]))).
  { unfold w2. simpl. rewrite (lookup_with_dir_below _ _ _ [] _ _ _ _ L1).
    now rewrite (map_first_app_absent _ _ _ _ tmp_free), map_first_single. }
  assert (L2tmp : os.lookup (fs w2) (root ++ [tmp]) = Some (os.Dir now delivered)).
  { rewrite (lookup_child _ _ _ _ _ L2), (find_app_absent _ _ _ tmp_free). simpl.
    now rewrite String.eqb_refl. }
  (* the unwrap *)
  destruct (unwrap_flattens_run (root ++ [tmp]) w2 now delivered experiment t0
              children L2tmp NDd) as (fs3 & Unwrap & L3tmp); try assumption.
  { unfold os.is_dir. rewrite (lookup_child _ _ _ _ _ L2tmp).
    destruct (os.find "experiments.csv" delivered) as [[s tf|td ed]|] eqn:F;
      try reflexivity. now contradiction (Manifest td ed). }
  fold kept content in L3tmp. change (clock w2) with now in L3tmp.
  set (w3 := set_fs w2 fs3) in *.
  assert (L3 : exists t3, os.lookup (fs w3) root
                          = Some (os.Dir t3 (es ++ [(tmp, os.Dir now content)]))).
  { pose proof (unwrap_staged self es tmp tmp_free w2) as S. fold root in S.
    rewrite Unwrap in S. destruct S as (t3 & t3' & es3 & L3).
    { exists now, now, delivered. exact L2. }
    exists t3. fold root in L3. simpl in L3tmp.
    rewrite (lookup_child _ _ _ _ _ L3), (find_app_absent _ _ _ tmp_free) in L3tmp.
    simpl in L3tmp. rewrite String.eqb_refl in L3tmp. injection L3tmp as -> ->.
    exact L3. }
  destruct L3 as [t3 L3].
  assert (L3tmp' : os.lookup (fs w3) (root ++ [tmp]) = Some (os.Dir now content))
    by exact L3tmp.
  (* the installing rename *)
  set (fs4 := os.put (os.remove (fs w3) root tmp now) root (py.str dataset_id)
                (os.Dir now content) now).
  assert (Rename : os_do (fun fs now => os.rename fs root tmp root
                                          (py.str dataset_id) now) w3
                   = (Return tt, set_fs w3 fs4)).
  { unfold os_do, os.rename. change (clock w3) with now.
    rewrite L3tmp'. unfold os.is_dir. rewrite L3. cbn [negb].
    rewrite (lookup_child _ _ _ _ _ L3), (find_app_absent _ _ _ Absent). simpl.
    destruct (String.eqb_spec tmp (py.str dataset_id)); [contradiction|].
    reflexivity. }
  assert (L4 : os.lookup fs4 root
               = Some (os.Dir now (es ++ [(py.str dataset_id, os.Dir now content)]))).
  { unfold fs4, os.put, os.remove.
    assert (Lr : os.lookup (os.with_dir (fs w3) root now (os.remove_entry tmp)) root
                 = Some (os.Dir now es)).
    { rewrite (lookup_with_dir _ _ _ _ _ _ L3). do 2 f_equal.
      rewrite remove_entry_app, (remove_entry_absent _ _ tmp_free). simpl.
      rewrite String.eqb_refl. simpl. apply app_nil_r. }
    rewrite (lookup_with_dir _ _ _ _ _ _ Lr). unfold os.put_entry.
    now rewrite Absent. }
  set (w4 := set_fs w3 fs4).
  assert (Body :
    (client_download dataset_id (root ++ [tmp]) ;;;
     cache._unwrap (root ++ [tmp]) ;;;
     os_do (fun fs now => os.rename fs root tmp root (py.str dataset_id) now)) w1
    = (Return tt, w4)).
  { rewrite (bind_return _ _ _ _ _ Download), (bind_return _ _ _ _ _ Unwrap).
    exact Rename. }
  assert (Fetch : cache.fetch self dataset_id w = (Return (ds_dir, true), w4)).
  { rewrite fetch_unfold. fold ds_dir root.
    unfold bind at 1, gets at 1. unfold os.is_dir at 1. rewrite Lds. cbn [andb].
    unfold bind at 1, gets at 1. unfold os.exists_ at 1. rewrite Lds.
    unfold bind at 1, ret at 1. unfold stage_and_install. fold root ds_dir.
    unfold bind at 1, mkdtemp. unfold os.is_dir. rewrite Lroot. cbn [negb].
    rewrite Fresh. fold now. fold w1.
    unfold bind at 1. unfold try_cleanup. now rewrite Body. }
  assert (W4 : w4 = set_fs (set_downloaded (set_tmp_names w rest)
                              (downloaded w ++ [dataset_id])) fs4)
    by (unfold w4, w3, w2, w1; destruct w; reflexivity).
  rewrite W4 in Fetch. exists fs4. cbv zeta.
  split; [exact Fetch|]. split; [exact L4|]. split; [|split].
  - unfold ds_dir, cache._dataset_dir. fold root.
    rewrite (lookup_child _ _ _ _ _ L4), (find_app_absent _ _ _ Absent). simpl.
    now rewrite String.eqb_refl.
  - unfold os.exists_.
    rewrite (lookup_child _ _ _ _ _ L4), (find_app_absent _ _ _ tmp_free). simpl.
    destruct (String.eqb_spec (py.str dataset_id) tmp) as [E|_]; [|reflexivity].
    now contradiction tmp_not_name.
  - intro Budget. unfold cache.ensure_downloaded. unfold bind at 1.
    rewrite Fetch. unfold cache._evict_if_needed. unfold bind, gets. cbv beta.
    fold root. unfold os.is_dir. cbn [fs set_fs]. rewrite L4. cbn [negb].
    cbv beta. cbn [fs set_fs].
    assert (B : (fold_right Z.add 0
                   (map (fun e : Z * Z * string => snd (fst e))
                      (cache.eviction_entries self fs4))
                 <=? cache._max_bytes self) = true)
      by (apply Z.leb_le; exact Budget).
    rewrite B. reflexivity.
Qed.
End Install.

Lemma install_flattens_download_witness :
  let w := world_of two_datasets a_remote in
  let content := [("fid", os.File 4096 90);
                  ("pdata", os.Dir 90 [("1r", os.File 2048 90)])] in
  exists fs',
    let w' := set_fs (set_downloaded (set_tmp_names w ["x7"]) [5]) fs' in
    cache.fetch a_cache 5 w = (Return (["c"; "5"], true), w')
    /\ os.lookup fs' ["c"]
       = Some (os.Dir 100 [("1", os.Dir 0 [("a", os.File 10 0)]);
                           ("12", os.Dir 0 [("f", os.File 7 0)]);
                           ("5", os.Dir 100 content)])
    /\ os.lookup fs' ["c"; "5"] = Some (os.Dir 100 content)
    /\ os.exists_ fs' ["c"; ".dl-5-k3"] = false
    /\ (total_size (cache.eviction_entries a_cache fs') <= 4 * GB ->
        cache.ensure_downloaded a_cache 5 w = (Return ["c"; "5"], w')).
Proof.
  cbv zeta.
  apply (install_flattens_download a_cache 5 (world_of two_datasets a_remote) 0
           [("1", os.Dir 0 [("a", os.File 10 0)]);
            ("12", os.Dir 0 [("f", os.File 7 0)])]
           ".dl-5-k3" ["x7"]
           [("experiments.csv", os.File 120 90);
            ("exp", os.Dir 90 [("fid", os.File 4096 90);
                               ("pdata", os.Dir 90 [("1r", os.File 2048 90)])])]
           "exp" 90
           [("fid", os.File 4096 90);
            ("pdata", os.Dir 90 [("1r", os.File 2048 90)])]).
  - reflexivity.
  - reflexivity.
  - reflexivity.
  - reflexivity.
  - simpl. repeat constructor; simpl; intuition discriminate.
  - intros t' cs H. discriminate H.
  - reflexivity.
  - simpl. repeat constructor; simpl; intuition discriminate.
  - intros c I H. simpl in I, H.
    repeat (destruct I as [<-|I];
            [repeat (destruct H as [H|H]; [discriminate H|]); destruct H|]).
    destruct I.
Defined.
